(** * epay-go: the encode / sign / verify layer of the ePay client

    A shallow embedding of [epay.go]: the request encoder
    ([PaymentRequest.encode]), the checksum ([PaymentRequest.CalcChecksum]),
    the request builder ([API.NewPaymentRequest] and its options), the enum
    parsers ([LanguageFromString], [CurrencyFromString]) and the callback
    processor ([API.PaymentCallbackHandler]).

    Go strings are byte sequences and are modelled by [string]; a byte is a
    [Z] in [0, 256); [uint64] and [int64] values are [Z]; [float64] is
    [spec_float] at precision 53; the receiver a method mutates is passed in
    and returned.  The functions of the Go standard library the source calls
    ([encoding/base64], [encoding/hex], [crypto/sha1], [crypto/hmac], [fmt],
    [strconv], [strings], [time]) are modelled in the modules of the first
    part. *)

From Stdlib Require Import ZArith List String Ascii Bool Lia DecimalString.
From Stdlib Require Import Floats.SpecFloat.
From Stdlib Require DecimalPos DecimalFacts.
Import ListNotations.

Local Open Scope string_scope.
Local Open Scope list_scope.
Local Open Scope Z_scope.

(** Go's [+] on strings. *)
Infix "+++" := String.append (right associativity, at level 60).

(* ================================================================= *)
(** ** Bytes and strings *)

Module Bytes.

Definition byte_of (c : ascii) : Z := Z.of_N (N_of_ascii c).
Definition char_of (z : Z) : ascii := ascii_of_N (Z.to_N z).

(** [[]byte(s)] *)
Definition of_string (s : string) : list Z :=
  map byte_of (list_ascii_of_string s).

(** [string(b)] *)
Definition to_string (b : list Z) : string :=
  string_of_list_ascii (map char_of b).

Definition is_byte (z : Z) : Prop := 0 <= z < 256.

End Bytes.

(* ================================================================= *)
(** ** encoding/base64, [StdEncoding] *)

Module Base64.

Definition encodeStd : string :=
  "ABCDEFGHIJKLMNOPQRSTUVWXYZabcdefghijklmnopqrstuvwxyz0123456789+/".

Definition padChar : ascii := "="%char.

(** [enc.encode[i]] *)
Definition encode (i : Z) : ascii :=
  match String.get (Z.to_nat i) encodeStd with
  | Some c => c
  | None => zero
  end.

Fixpoint index_of (c : ascii) (s : string) (i : Z) : Z :=
  match s with
  | EmptyString => 255
  | String d s' => if Ascii.eqb c d then i else index_of c s' (i + 1)
  end.

(** [enc.decodeMap[c]]: the position of [c] in the alphabet, [0xff] for a
    byte outside it. *)
Definition decodeMap (c : ascii) : Z := index_of c encodeStd 0.

(** One full group, or the short block that ends the input, of
    [Encoding.Encode]. *)
Definition sextet (val shift : Z) : ascii :=
  encode (Z.land (Z.shiftr val shift) 63).

Fixpoint Encode (src : list Z) : list ascii :=
  match src with
  | b0 :: b1 :: b2 :: rest =>
      let val := Z.lor (Z.lor (Z.shiftl b0 16) (Z.shiftl b1 8)) b2 in
      sextet val 18 :: sextet val 12 :: sextet val 6 :: sextet val 0
        :: Encode rest
  | [b0; b1] =>
      let val := Z.lor (Z.shiftl b0 16) (Z.shiftl b1 8) in
      [sextet val 18; sextet val 12; sextet val 6; padChar]
  | [b0] =>
      let val := Z.shiftl b0 16 in
      [sextet val 18; sextet val 12; padChar; padChar]
  | [] => []
  end.

Definition EncodeToString (src : list Z) : string :=
  string_of_list_ascii (Encode src).

Definition isNewline (c : ascii) : bool :=
  Ascii.eqb c "010"%char || Ascii.eqb c "013"%char.

(** [for si < len(src) && (src[si] == '\n' || src[si] == '\r') { si++ }] *)
Fixpoint skipNewlines (src : list ascii) (si : Z) : list ascii * Z :=
  match src with
  | c :: rest => if isNewline c then skipNewlines rest (si + 1) else (src, si)
  | [] => ([], si)
  end.

(** The tail of [decodeQuantum]: the first [dlen - 1] bytes of the 24 bits
    that the sextets of [dbuf] make. *)
Definition quantumBytes (dbuf : list Z) (dlen : nat) : list Z :=
  let d i := nth i dbuf 0 in
  let val :=
    Z.lor (Z.lor (Z.lor (Z.shiftl (d 0%nat) 18) (Z.shiftl (d 1%nat) 12))
                 (Z.shiftl (d 2%nat) 6)) (d 3%nat) in
  firstn (dlen - 1)
    [Z.land (Z.shiftr val 16) 255; Z.land (Z.shiftr val 8) 255;
     Z.land val 255].

(** What is left to check once the padding of the last quantum is read:
    only newlines may follow. *)
Definition trailing (rest : list ascii) (si : Z) : option Z :=
  match skipNewlines rest si with
  | ([], _) => None
  | (_ :: _, si') => Some si'
  end.

(** [Encoding.Decode], as the repetition of [decodeQuantum]: [si] is the
    index of the next input byte and [dbuf] holds the sextets of the
    quantum being read.  The result is the decoded bytes and, for corrupt
    input, the offset of [CorruptInputError]. *)
Fixpoint decodeLoop (src : list ascii) (si : Z) (dbuf : list Z)
  : list Z * option Z :=
  match src with
  | [] =>
      match dbuf with
      | [] => ([], None)
      | _ :: _ => ([], Some (si - Z.of_nat (List.length dbuf)))
      end
  | c :: rest =>
      let out := decodeMap c in
      if negb (out =? 255) then
        let dbuf' := dbuf ++ [out] in
        if (List.length dbuf' =? 4)%nat then
          let '(bs, e) := decodeLoop rest (si + 1) [] in
          (quantumBytes dbuf' 4 ++ bs, e)
        else decodeLoop rest (si + 1) dbuf'
      else if isNewline c then decodeLoop rest (si + 1) dbuf
      else if negb (Ascii.eqb c padChar) then ([], Some si)
      else
        match List.length dbuf with
        | 0%nat | 1%nat => ([], Some si)
        | 2%nat =>
            match skipNewlines rest (si + 1) with
            | ([], si') => ([], Some si')
            | (c' :: rest', si') =>
                if negb (Ascii.eqb c' padChar) then ([], Some (si' - 1))
                else (quantumBytes dbuf 2, trailing rest' (si' + 1))
            end
        | _ => (quantumBytes dbuf 3, trailing rest (si + 1))
        end
  end.

Inductive error := CorruptInputError (offset : Z).

(** [StdEncoding.DecodeString] *)
Definition DecodeString (s : string) : list Z * option error :=
  let '(bs, e) := decodeLoop (list_ascii_of_string s) 0 [] in
  (bs, option_map CorruptInputError e).

End Base64.

(* ================================================================= *)
(** ** encoding/hex *)

Module Hex.

Definition hextable : string := "0123456789abcdef".

Definition digit (i : Z) : ascii :=
  match String.get (Z.to_nat i) hextable with
  | Some c => c
  | None => zero
  end.

Fixpoint Encode (src : list Z) : list ascii :=
  match src with
  | [] => []
  | v :: rest => digit (Z.shiftr v 4) :: digit (Z.land v 15) :: Encode rest
  end.

Definition EncodeToString (src : list Z) : string :=
  string_of_list_ascii (Encode src).

End Hex.

(* ================================================================= *)
(** ** crypto/sha1 *)

Module SHA1.

Definition w32 (x : Z) : Z := x mod 2 ^ 32.

Definition rotl (n x : Z) : Z :=
  w32 (Z.lor (Z.shiftl x n) (Z.shiftr x (32 - n))).

Definition BlockSize : Z := 64.

(** The message, the bit [1], zeros up to 56 modulo 64, and the bit length
    on 8 bytes, big endian. *)
Definition be_bytes (n : nat) (x : Z) : list Z :=
  map (fun i => Z.land (Z.shiftr x (8 * Z.of_nat i)) 255) (rev (seq 0 n)).

Definition pad (msg : list Z) : list Z :=
  let l := Z.of_nat (List.length msg) in
  let k := (55 - l) mod 64 in
  msg ++ [128] ++ repeat 0 (Z.to_nat k) ++ be_bytes 8 (8 * l).

Fixpoint be_words (b : list Z) : list Z :=
  match b with
  | b0 :: b1 :: b2 :: b3 :: rest =>
      Z.lor (Z.lor (Z.lor (Z.shiftl b0 24) (Z.shiftl b1 16)) (Z.shiftl b2 8)) b3
        :: be_words rest
  | _ => []
  end.

(** The message schedule: [w] holds the last 16 words, oldest first. *)
Definition next_word (w : list Z) : Z :=
  rotl 1 (Z.lxor (Z.lxor (Z.lxor (nth 13 w 0) (nth 8 w 0)) (nth 2 w 0))
                 (nth 0 w 0)).

Fixpoint schedule (n : nat) (w : list Z) : list Z :=
  match n with
  | O => []
  | S n' =>
      let x := next_word w in
      x :: schedule n' (tl w ++ [x])
  end.

Definition f (t : Z) (b c d : Z) : Z :=
  if t <? 20 then Z.lor (Z.land b c) (Z.land (w32 (Z.lnot b)) d)
  else if t <? 40 then Z.lxor (Z.lxor b c) d
  else if t <? 60 then Z.lor (Z.lor (Z.land b c) (Z.land b d)) (Z.land c d)
  else Z.lxor (Z.lxor b c) d.

Definition K (t : Z) : Z :=
  if t <? 20 then 0x5A827999
  else if t <? 40 then 0x6ED9EBA1
  else if t <? 60 then 0x8F1BBCDC
  else 0xCA62C1D6.

Definition state := (Z * Z * Z * Z * Z)%type.

Definition round (st : state) (tw : Z * Z) : state :=
  let '(a, b, c, d, e) := st in
  let '(t, w) := tw in
  (w32 (rotl 5 a + f t b c d + e + w + K t), a, rotl 30 b, c, d).

Definition block (h : state) (ws : list Z) : state :=
  let w := ws ++ schedule 64 ws in
  let '(a, b, c, d, e) :=
    fold_left round (combine (map Z.of_nat (seq 0 80)) w) h in
  let '(h0, h1, h2, h3, h4) := h in
  (w32 (h0 + a), w32 (h1 + b), w32 (h2 + c), w32 (h3 + d), w32 (h4 + e)).

Fixpoint blocks (n : nat) (h : state) (ws : list Z) : state :=
  match n with
  | O => h
  | S n' =>
      match ws with
      | [] => h
      | _ => blocks n' (block h (firstn 16 ws)) (skipn 16 ws)
      end
  end.

Definition init : state :=
  (0x67452301, 0xEFCDAB89, 0x98BADCFE, 0x10325476, 0xC3D2E1F0).

(** [sha1.Sum]: the 20 bytes of the digest. *)
Definition Sum (msg : list Z) : list Z :=
  let ws := be_words (pad msg) in
  let '(h0, h1, h2, h3, h4) := blocks (List.length ws) init ws in
  flat_map (be_bytes 4) [h0; h1; h2; h3; h4].

(** The [hash.Hash] that [sha1.New] returns, as the bytes written to it. *)
Definition digest := list Z.
Definition New : digest := [].
Definition Write (d : digest) (p : list Z) : digest := d ++ p.
Definition Sum_nil (d : digest) : list Z := Sum d.

End SHA1.

(* ================================================================= *)
(** ** crypto/hmac over [sha1.New] *)

Module HMAC.

Record hmac := mk {
  opad : list Z;
  ipad : list Z;
  outer : SHA1.digest;
  inner : SHA1.digest
}.

(** [copy(make([]byte, blocksize), key)] *)
Definition copy_key (key : list Z) : list Z :=
  let n := Z.to_nat SHA1.BlockSize in
  firstn n key ++ repeat 0 (n - List.length key).

(** [hmac.New(sha1.New, key)] *)
Definition New (key : list Z) : hmac :=
  let outer0 := SHA1.New in
  let inner0 := SHA1.New in
  let '(outer1, key1) :=
    if SHA1.BlockSize <? Z.of_nat (List.length key)
    then let o := SHA1.Write outer0 key in (o, SHA1.Sum_nil o)
    else (outer0, key) in
  let ipad := map (fun b => Z.lxor b 0x36) (copy_key key1) in
  let opad := map (fun b => Z.lxor b 0x5c) (copy_key key1) in
  mk opad ipad outer1 (SHA1.Write inner0 ipad).

(** [h.Write(p)] *)
Definition Write (h : hmac) (p : list Z) : hmac :=
  mk (opad h) (ipad h) (outer h) (SHA1.Write (inner h) p).

(** [h.Sum(nil)]: the outer hash is reset, then fed [opad] and the inner
    digest. *)
Definition Sum_nil (h : hmac) : list Z :=
  let inn := SHA1.Sum_nil (inner h) in
  let outer1 := SHA1.New in
  let outer2 := SHA1.Write outer1 (opad h) in
  let outer3 := SHA1.Write outer2 inn in
  SHA1.Sum_nil outer3.

(** RFC 2104: [H((K0 xor opad) || H((K0 xor ipad) || text))], with
    [K0] the key, hashed first when longer than a block, padded with zeros
    to the block size. *)
Definition rfc2104 (key text : list Z) : list Z :=
  let k := if SHA1.BlockSize <? Z.of_nat (List.length key)
           then SHA1.Sum key else key in
  let k0 := copy_key k in
  SHA1.Sum (map (fun b => Z.lxor b 0x5c) k0 ++
            SHA1.Sum (map (fun b => Z.lxor b 0x36) k0 ++ text)).

End HMAC.

(* ================================================================= *)
(** ** strconv *)

Module Strconv.

(** [FormatUint(n, 10)], and [%d] of [fmt] for an integer. *)
Definition FormatInt (n : Z) : string :=
  DecimalString.NilZero.string_of_int (Z.to_int n).

Inductive Err := ErrSyntax | ErrRange.

Record NumError := mkNumError { Func : string; Num : string; err : Err }.

Definition Err_Error (e : Err) : string :=
  match e with
  | ErrSyntax => "invalid syntax"
  | ErrRange => "value out of range"
  end.

(** The [Error] method of [NumError], over [strconv.Quote]. *)
Definition NumError_Error (Quote : string -> string) (e : NumError) : string :=
  "strconv." +++ Func e +++ ": parsing " +++ Quote (Num e) +++ ": "
    +++ Err_Error (err e).

Definition maxUint64 : Z := 2 ^ 64 - 1.

Definition isDigit (c : ascii) : bool :=
  let b := Bytes.byte_of c in (48 <=? b) && (b <=? 57).

(** The loop of [ParseUint] at base 10 and 64 bits: [n] is the value read
    so far.  A byte that is not a decimal digit is a syntax error.  The
    source tests [n >= cutoff] before it multiplies, then whether [n + d]
    wrapped around or passed [maxVal]; over [Z] the sum does not wrap and
    the second test is [maxUint64 < n1]. *)
Fixpoint parseDigits (s : string) (n : Z) : Z * option Err :=
  match s with
  | EmptyString => (n, None)
  | String c rest =>
      if isDigit c then
        let d := Bytes.byte_of c - 48 in
        if maxUint64 / 10 + 1 <=? n then (maxUint64, Some ErrRange)
        else
          let n1 := n * 10 + d in
          if maxUint64 <? n1 then (maxUint64, Some ErrRange)
          else parseDigits rest n1
      else (0, Some ErrSyntax)
  end.

(** [ParseUint(s, 10, 64)] *)
Definition ParseUint (s : string) : Z * option NumError :=
  if (s =? "")%string then (0, Some (mkNumError "ParseUint" s ErrSyntax))
  else
    match parseDigits s 0 with
    | (n, None) => (n, None)
    | (n, Some e) => (n, Some (mkNumError "ParseUint" s e))
    end.

(** [ParseInt(s, 10, 64)] *)
Definition ParseInt (s : string) : Z * option NumError :=
  match s with
  | EmptyString => (0, Some (mkNumError "ParseInt" s ErrSyntax))
  | String c rest =>
      let '(neg, s1) :=
        if Ascii.eqb c "+" then (false, rest)
        else if Ascii.eqb c "-" then (true, rest)
        else (false, s) in
      match ParseUint s1 with
      | (_, Some {| err := ErrSyntax |}) =>
          (0, Some (mkNumError "ParseInt" s ErrSyntax))
      | (un, _) =>
          let cutoff := 2 ^ 63 in
          if negb neg && (cutoff <=? un)
          then (cutoff - 1, Some (mkNumError "ParseInt" s ErrRange))
          else if neg && (cutoff <? un)
          then (- cutoff, Some (mkNumError "ParseInt" s ErrRange))
          else (if neg then - un else un, None)
      end
  end.

Definition dquote : ascii := "034"%char.
Definition backslash : ascii := "092"%char.

Fixpoint quoteASCII (s : string) : string :=
  match s with
  | EmptyString => EmptyString
  | String c rest =>
      if Ascii.eqb c dquote || Ascii.eqb c backslash
      then String backslash (String c (quoteASCII rest))
      else String c (quoteASCII rest)
  end.

(** [strconv.Quote] on a string of printable ASCII: the string between
    double quotes, with a backslash before each double quote and each
    backslash.  The functions that quote take the quoting function as a
    parameter; this one instantiates it in the examples. *)
Definition QuoteASCII (s : string) : string :=
  String dquote (quoteASCII s +++ String dquote EmptyString).

End Strconv.

(* ================================================================= *)
(** ** fmt *)

Module Fmt.

Definition nl : string := String "010" EmptyString.

(** [%d] *)
Definition d (n : Z) : string := Strconv.FormatInt n.

(** The integer nearest to [m * 2 ^ e * 100], ties to even: the digits that
    [strconv] keeps when it rounds the exact decimal expansion of a
    [float64] to two places. *)
Definition hundredths (m : positive) (e : Z) : Z :=
  if 0 <=? e then Zpos m * 2 ^ e * 100
  else
    let num := Zpos m * 100 in
    let den := 2 ^ (- e) in
    let q := num / den in
    let r := num mod den in
    match 2 * r ?= den with
    | Lt => q
    | Gt => q + 1
    | Eq => if Z.even q then q else q + 1
    end.

Definition two_digits (n : Z) : string :=
  String (Bytes.char_of (48 + n / 10))
    (String (Bytes.char_of (48 + n mod 10)) EmptyString).

Definition fixed2 (h : Z) : string :=
  d (h / 100) +++ "." +++ two_digits (h mod 100).

(** [%.2f] of a [float64] *)
Definition f2 (x : spec_float) : string :=
  match x with
  | S754_nan => "NaN"
  | S754_infinity false => "+Inf"
  | S754_infinity true => "-Inf"
  | S754_zero false => "0.00"
  | S754_zero true => "-0.00"
  | S754_finite s m e =>
      (if s then "-" else "") +++ fixed2 (hundredths m e)
  end.

End Fmt.

(* ================================================================= *)
(** ** float64 *)

Module Float64.

(** A [float64] is a [spec_float] that is [valid]: a zero, an infinity, NaN,
    or a finite number with its mantissa and exponent in canonical form at
    53 bits of precision. *)
Definition prec : Z := 53.
Definition emax : Z := 1024.

Definition valid (x : spec_float) : bool := valid_binary prec emax x.

(** The [float64] nearest to [m * 2 ^ e], ties to even. *)
Definition of_scaled (m e : Z) : spec_float :=
  binary_normalize prec emax m e false.

(** The constant [0.01]. *)
Definition c0_01 : spec_float :=
  S754_finite false 5764607523034235 (-59).

(** [0.005], half of it. *)
Definition c0_005 : spec_float :=
  S754_finite false 5764607523034235 (-60).

(** [x < y], the comparison of IEEE 754: false when either is NaN. *)
Definition lt (x y : spec_float) : bool := SFltb x y.

End Float64.

(* ================================================================= *)
(** ** time *)

Module Time.

(** A [*Location], known by its [lookup]: for an instant in seconds since
    the Unix epoch, the offset of the zone in use then, in seconds east of
    UTC, and the instants [start] and [stop] between which that zone is in
    use. *)
Record Location := mkLocation { lookup : Z -> Z * Z * Z }.

Definition alpha : Z := - 2 ^ 63.
Definition omega : Z := 2 ^ 63 - 1.

(** [time.FixedZone(name, offset)] *)
Definition FixedZone (offset : Z) : Location :=
  mkLocation (fun _ => (offset, alpha, omega)).

(** [time.UTC] *)
Definition UTC : Location := FixedZone 0.

(** An instant: seconds and nanoseconds since January 1, year 1, 00:00:00
    UTC, and the location in which it is shown. *)
Record t := mk { sec : Z; nsec : Z; loc : Location }.

(** [time.Time{}] *)
Definition zero : t := mk 0 0 UTC.

Definition IsZero (x : t) : bool := (sec x =? 0) && (nsec x =? 0).

(** The seconds from January 1, year 1 to January 1, 1970. *)
Definition unixToInternal : Z := 62135596800.

Definition unixSec (x : t) : Z := sec x - unixToInternal.

(** The offset of the zone in use at [x] in its location. *)
Definition offset (x : t) : Z := fst (fst (lookup (loc x) (unixSec x))).

(** [x.abs()], counted from January 1, year 1: the seconds that the wall
    clock of the location shows at [x]. *)
Definition abs (x : t) : Z := sec x + offset x.

(** Year, month and day of the day number [days], counted from January 1,
    year 1, in the proleptic Gregorian calendar. *)
Definition civil (days : Z) : Z * Z * Z :=
  let z := days + 306 in
  let era := z / 146097 in
  let doe := z - era * 146097 in
  let yoe := (doe - doe / 1460 + doe / 36524 - doe / 146096) / 365 in
  let doy := doe - (365 * yoe + yoe / 4 - yoe / 100) in
  let mp := (5 * doy + 2) / 153 in
  let d := doy - (153 * mp + 2) / 5 + 1 in
  let m := if mp <? 10 then mp + 3 else mp - 9 in
  let y := yoe + era * 400 + (if m <=? 2 then 1 else 0) in
  (y, m, d).

(** The day number of a date; the day may lie outside its month. *)
Definition dayNumber (y m d : Z) : Z :=
  let y' := if m <=? 2 then y - 1 else y in
  let era := y' / 400 in
  let yoe := y' - era * 400 in
  let doy := (153 * (if 2 <? m then m - 3 else m + 9) + 2) / 5 + d - 1 in
  let doe := yoe * 365 + yoe / 4 - yoe / 100 + doy in
  era * 146097 + doe - 306.

Definition isLeap (y : Z) : bool :=
  (y mod 4 =? 0) && (negb (y mod 100 =? 0) || (y mod 400 =? 0)).

Definition daysIn (m y : Z) : Z :=
  if m =? 2 then (if isLeap y then 29 else 28)
  else if (m =? 4) || (m =? 6) || (m =? 9) || (m =? 11) then 30 else 31.

(** [norm(hi, lo, base)]: [lo] brought into the range of [base], what it
    overflows by carried into [hi]. *)
Definition norm (hi lo base : Z) : Z * Z := (hi + lo / base, lo mod base).

(** The offset that [Date] takes off a wall clock, given as the seconds
    [unix] that it would be in UTC: the one that [lookup] finds at [unix],
    unless the instant that it leads to lies outside the span of that zone,
    and then the one that [lookup] finds at that instant. *)
Definition dateOffset (l : Location) (unix : Z) : Z :=
  let '(offset, start, stop) := lookup l unix in
  if offset =? 0 then 0
  else
    let utc := unix - offset in
    if (utc <? start) || (stop <=? utc)
    then fst (fst (lookup l utc))
    else offset.

(** [time.Date(year, month, day, hour, min, sec, nsec, loc)]: the instant
    at which the wall clock of [l] shows that date and time, with the
    values outside their ranges carried over. *)
Definition Date (year month day hour min ss ns : Z) (l : Location) : t :=
  let '(year, m) := norm year (month - 1) 12 in
  let month := m + 1 in
  let '(ss, ns) := norm ss ns 1000000000 in
  let '(min, ss) := norm min ss 60 in
  let '(hour, min) := norm hour min 60 in
  let '(day, hour) := norm day hour 24 in
  let unix := dayNumber year month day * 86400
              + hour * 3600 + min * 60 + ss - unixToInternal in
  mk (unix - dateOffset l unix + unixToInternal) ns l.

(** [x.AddDate(years, months, days)]: the date and the clock of [x] in its
    location, the date moved, made an instant of that location again. *)
Definition AddDate (x : t) (years months days : Z) : t :=
  let '(year, month, day) := civil (abs x / 86400) in
  let s := abs x mod 86400 in
  Date (year + years) (month + months) (day + days)
       (s / 3600) (s mod 3600 / 60) (s mod 60) (nsec x) (loc x).

(** [x.AddDate(0, 0, days)] *)
Definition AddDays (x : t) (days : Z) : t := AddDate x 0 0 days.

(** [appendInt]: the decimal digits of [x], padded with zeros to [width],
    after a minus sign for a negative [x]. *)
Definition appendInt (x : Z) (width : nat) : string :=
  let digits := Strconv.FormatInt (Z.abs x) in
  let zeros := string_of_list_ascii
                 (repeat "0"%char (width - String.length digits)) in
  (if x <? 0 then "-" else "") +++ zeros +++ digits.

Definition layout : string := "02.01.2006 15:04:05".

(** [x.Format("02.01.2006 15:04:05")] *)
Definition Format (x : t) : string :=
  let abs := abs x in
  let '(y, m, d) := civil (abs / 86400) in
  let s := abs mod 86400 in
  appendInt d 2 +++ "." +++ appendInt m 2 +++ "." +++ appendInt y 4 +++ " "
    +++ appendInt (s / 3600) 2 +++ ":" +++ appendInt (s mod 3600 / 60) 2
    +++ ":" +++ appendInt (s mod 60) 2.

(** *** [time.Parse("02.01.2006 15:04:05", value)]

    The layout is the day in two digits, the month in two digits, the year
    in four, an hour of one or two digits, and the minutes and the seconds
    in two digits, between the separators [.], [.], a space, [:] and [:].
    The parser takes each separator and each element from the front of
    what is left of the value and stops at the first that fails. *)

(** [ParseError] *)
Record ParseError := mkParseError
  { Layout : string; Value : string;
    LayoutElem : string; ValueElem : string; Message : string }.

(** The [Error] method of [ParseError], over the [quote] of the package. *)
Definition ParseError_Error (quote : string -> string) (e : ParseError)
  : string :=
  if (Message e =? "")%string then
    "parsing time " +++ quote (Value e) +++ " as " +++ quote (Layout e)
      +++ ": cannot parse " +++ quote (ValueElem e) +++ " as "
      +++ quote (LayoutElem e)
  else "parsing time " +++ quote (Value e) +++ Message e.

(** [getnum(s, fixed)]: a number of two digits, or of one digit when
    [fixed] is false and no second digit follows. *)
Definition getnum (s : string) (fixed : bool) : option (Z * string) :=
  match s with
  | String c0 (String c1 rest) =>
      if Strconv.isDigit c0 then
        if Strconv.isDigit c1
        then Some ((Bytes.byte_of c0 - 48) * 10 + (Bytes.byte_of c1 - 48), rest)
        else if fixed then None
        else Some (Bytes.byte_of c0 - 48, String c1 rest)
      else None
  | String c0 EmptyString =>
      if Strconv.isDigit c0 && negb fixed
      then Some (Bytes.byte_of c0 - 48, EmptyString) else None
  | EmptyString => None
  end.

(** [skip(value, prefix)] for a prefix of the one byte [c], not a space. *)
Definition skip1 (c : ascii) (s : string) : option string :=
  match s with
  | String c' rest => if Ascii.eqb c c' then Some rest else None
  | EmptyString => None
  end.

Fixpoint cutspace (s : string) : string :=
  match s with
  | String c rest => if Ascii.eqb c " " then cutspace rest else s
  | EmptyString => s
  end.

(** [skip(value, prefix)] for the prefix of one space: it takes all the
    spaces that start the value, and accepts the empty value. *)
Definition skipSpace (s : string) : option string :=
  match s with
  | String c _ => if Ascii.eqb c " " then Some (cutspace s) else None
  | EmptyString => Some s
  end.

(** The year: four bytes that are digits. *)
Definition year4 (s : string) : option (Z * string) :=
  match s with
  | String a (String b (String c (String d rest))) =>
      if Strconv.isDigit a && Strconv.isDigit b && Strconv.isDigit c
         && Strconv.isDigit d
      then Some ((Bytes.byte_of a - 48) * 1000 + (Bytes.byte_of b - 48) * 100
                 + (Bytes.byte_of c - 48) * 10 + (Bytes.byte_of d - 48), rest)
      else None
  | _ => None
  end.

(** The digits of a fraction of a second, scaled to nanoseconds; digits
    past the ninth are dropped. *)
Fixpoint fraction (s : string) (scale : Z) (ns : Z) : Z * string :=
  match s with
  | String c rest =>
      if Strconv.isDigit c
      then fraction rest (scale / 10) (ns + (Bytes.byte_of c - 48) * scale)
      else (ns, s)
  | EmptyString => (ns, s)
  end.

(** After the seconds: a point or a comma and digits are read as a
    fraction of a second, though the layout has none. *)
Definition fracSecond (s : string) : Z * string :=
  match s with
  | String p (String c rest) =>
      if (Ascii.eqb p "." || Ascii.eqb p ",") && Strconv.isDigit c
      then fraction (String c rest) 100000000 0
      else (0, s)
  | _ => (0, s)
  end.

(** The element of the layout and what was left of the value where the
    parser stopped, and its message. *)
Definition failure : Type := string * string * string.

Definition bind {A B} (x : failure + A) (f : A -> failure + B)
  : failure + B :=
  match x with inl e => inl e | inr a => f a end.

(** An element [layoutElem] read from [value]: the bad value when the
    reader found none. *)
Definition expect {A} (layoutElem value : string) (x : option A)
  : failure + A :=
  match x with
  | Some a => inr a
  | None => inl (layoutElem, value, "")
  end.

(** The range of a number read: [": <what> out of range"]. *)
Definition inRange (what layoutElem value : string) (lo hi x : Z)
  : failure + unit :=
  if (lo <=? x) && (x <=? hi) then inr tt
  else inl (layoutElem, value, ": " +++ what +++ " out of range").

Definition parseFields (quote : string -> string) (value : string)
  : failure + t :=
  bind (expect "02" value (getnum value true)) (fun '(day, v) =>
  bind (expect "." v (skip1 "." v)) (fun v =>
  bind (expect "01" v (getnum v true)) (fun '(month, v) =>
  bind (inRange "month" "01" v 1 12 month) (fun _ =>
  bind (expect "." v (skip1 "." v)) (fun v =>
  bind (expect "2006" v (year4 v)) (fun '(year, v) =>
  bind (expect " " v (skipSpace v)) (fun v =>
  bind (expect "15" v (getnum v false)) (fun '(hour, v) =>
  bind (inRange "hour" "15" v 0 23 hour) (fun _ =>
  bind (expect ":" v (skip1 ":" v)) (fun v =>
  bind (expect "04" v (getnum v true)) (fun '(min, v) =>
  bind (inRange "minute" "04" v 0 59 min) (fun _ =>
  bind (expect ":" v (skip1 ":" v)) (fun v =>
  bind (expect "05" v (getnum v true)) (fun '(s, v) =>
  bind (inRange "second" "05" v 0 59 s) (fun _ =>
  let '(ns, v) := fracSecond v in
  match v with
  | String _ _ => inl ("", v, ": extra text: " +++ quote v)
  | EmptyString =>
      bind (inRange "day" "" v 1 (daysIn month year) day) (fun _ =>
      inr (Date year month day hour min s ns UTC))
  end))))))))))))))).

(** [time.Parse(layout, value)], with the error as its message. *)
Definition Parse (quote : string -> string) (value : string)
  : t * option string :=
  match parseFields quote value with
  | inr x => (x, None)
  | inl (layoutElem, valueElem, message) =>
      (zero,
       Some (ParseError_Error quote
               (mkParseError layout value layoutElem valueElem message)))
  end.

End Time.

(* ================================================================= *)
(** ** strings *)

Module Strings.

Definition isASCII (s : string) : bool :=
  forallb (fun c => Bytes.byte_of c <? 128) (list_ascii_of_string s).

Definition lowerByte (c : ascii) : ascii :=
  let b := Bytes.byte_of c in
  if (65 <=? b) && (b <=? 90) then Bytes.char_of (b + 32) else c.

Fixpoint mapBytes (f : ascii -> ascii) (s : string) : string :=
  match s with
  | EmptyString => EmptyString
  | String c rest => String (f c) (mapBytes f rest)
  end.

(** [strings.ToLower]: byte by byte on an ASCII string, and
    [strings.Map(unicode.ToLower, s)], a parameter here, on any other. *)
Definition ToLower (mapUnicodeToLower : string -> string) (s : string)
  : string :=
  if isASCII s then mapBytes lowerByte s else mapUnicodeToLower s.

Fixpoint trimLeft (c : ascii) (s : string) : string :=
  match s with
  | String d rest => if Ascii.eqb c d then trimLeft c rest else s
  | EmptyString => s
  end.

(** The string without the bytes [c] that end it. *)
Fixpoint trimRight (c : ascii) (s : string) : string :=
  match s with
  | EmptyString => EmptyString
  | String d rest =>
      match trimRight c rest with
      | EmptyString => if Ascii.eqb c d then EmptyString
                       else String d EmptyString
      | r => String d r
      end
  end.

(** [strings.Trim(s, cutset)] for a cutset of the one byte [c]. *)
Definition Trim (s : string) (c : ascii) : string :=
  trimRight c (trimLeft c s).

(** [strings.Split(s, sep)] for a separator of the one byte [sep]: the
    pieces of [s] between the separators, one more than there are
    separators. *)
Fixpoint Split (s : string) (sep : ascii) : list string :=
  match s with
  | EmptyString => [EmptyString]
  | String c rest =>
      if Ascii.eqb c sep then EmptyString :: Split rest sep
      else
        match Split rest sep with
        | piece :: pieces => String c piece :: pieces
        | [] => [String c EmptyString]
        end
  end.

End Strings.

(* ================================================================= *)
(** ** epay.go *)

(** A Go [error] value: the package's sentinel [ErrInvalidInvoice], compared
    by identity, or any other error, known by its message. *)
Inductive error :=
| ErrInvalidInvoice
| errorString (msg : string).

Definition Error (e : error) : string :=
  match e with
  | ErrInvalidInvoice => "invalid invoice"
  | errorString msg => msg
  end.

Definition is_ErrInvalidInvoice (e : error) : bool :=
  match e with ErrInvalidInvoice => true | errorString _ => false end.

Definition ePayURL : string := "https://www.epay.bg/".
Definition ePayDemoURL : string := "https://demo.epay.bg/".

Definition Language := string.
Definition Currency := string.
Definition PaymentPage := string.
Definition PaymentStatus := string.

Definition English : Language := "en".
Definition Bulgarian : Language := "bg".

Definition EUR : Currency := "EUR".
Definition BGN : Currency := "BGN".
Definition USD : Currency := "USD".

Definition Login : PaymentPage := "paylogin".
Definition Direct : PaymentPage := "credit_paydirect".

Definition Paid : PaymentStatus := "PAID".
Definition Denied : PaymentStatus := "DENIED".
Definition Expired : PaymentStatus := "EXPIRED".

(** The signature that both [CalcChecksum] and the callback processor
    compute: [h := hmac.New(sha1.New, []byte(secret)); h.Write([]byte(data));
    hex.EncodeToString(h.Sum(nil))]. *)
Definition sign (data secret : string) : string :=
  let h := HMAC.New (Bytes.of_string secret) in
  let h := HMAC.Write h (Bytes.of_string data) in
  Hex.EncodeToString (HMAC.Sum_nil h).

(** [checksum != expected], negated: the comparison of the callback
    processor. *)
Definition verify (data secret candidate : string) : bool :=
  (candidate =? sign data secret)%string.

Module PaymentRequest.

(** The struct, without its lock [mu]. *)
Record t := mk {
  page : string;
  url : string;
  cin : string;
  encoded : string;
  checksum : string;
  Currency : Currency;
  Amount : spec_float;
  Description : string;
  Invoice : Z;
  ExpirationTime : Time.t;
  URLOk : string;
  URLCancel : string;
  Language : Language
}.

Definition set_page (p : t) (v : string) : t :=
  mk v (url p) (cin p) (encoded p) (checksum p) (Currency p) (Amount p)
     (Description p) (Invoice p) (ExpirationTime p) (URLOk p) (URLCancel p)
     (Language p).

Definition set_encoded (p : t) (v : string) : t :=
  mk (page p) (url p) (cin p) v (checksum p) (Currency p) (Amount p)
     (Description p) (Invoice p) (ExpirationTime p) (URLOk p) (URLCancel p)
     (Language p).

Definition set_checksum (p : t) (v : string) : t :=
  mk (page p) (url p) (cin p) (encoded p) v (Currency p) (Amount p)
     (Description p) (Invoice p) (ExpirationTime p) (URLOk p) (URLCancel p)
     (Language p).

Definition set_Currency (p : t) (v : string) : t :=
  mk (page p) (url p) (cin p) (encoded p) (checksum p) v (Amount p)
     (Description p) (Invoice p) (ExpirationTime p) (URLOk p) (URLCancel p)
     (Language p).

Definition set_ExpirationTime (p : t) (v : Time.t) : t :=
  mk (page p) (url p) (cin p) (encoded p) (checksum p) (Currency p) (Amount p)
     (Description p) (Invoice p) v (URLOk p) (URLCancel p) (Language p).

Definition set_Language (p : t) (v : string) : t :=
  mk (page p) (url p) (cin p) (encoded p) (checksum p) (Currency p) (Amount p)
     (Description p) (Invoice p) (ExpirationTime p) (URLOk p) (URLCancel p) v.

(** [func (p *PaymentRequest) encode() error].  The description is
    written under the key [LANGUAGE], as in the source. *)
Definition encode (p : t) : t * option error :=
  let str := "" in
  if (cin p =? "")%string then (p, Some (errorString "CIN is empty"))
  else
  let str := str +++ ("MIN=" +++ cin p +++ Fmt.nl) in
  if Invoice p <=? 0 then (p, Some (errorString "Invoice is invalid"))
  else
  let str := str +++ ("INVOICE=" +++ Fmt.d (Invoice p) +++ Fmt.nl) in
  if Float64.lt (Amount p) Float64.c0_01
  then (p, Some (errorString "Amount is invalid"))
  else
  let str := str +++ ("AMOUNT=" +++ Fmt.f2 (Amount p) +++ Fmt.nl) in
  if Time.IsZero (ExpirationTime p)
  then (p, Some (errorString "Expiration time is invalid"))
  else
  let str :=
    str +++ ("EXP_TIME=" +++ Time.Format (ExpirationTime p) +++ Fmt.nl) in
  let str := if negb (Currency p =? "")%string
             then str +++ ("CURRENCY=" +++ Currency p +++ Fmt.nl) else str in
  let str := if negb (Language p =? "")%string
             then str +++ ("LANGUAGE=" +++ Language p +++ Fmt.nl) else str in
  let str := if negb (Description p =? "")%string
             then str +++ ("LANGUAGE=" +++ Description p +++ Fmt.nl) else str in
  (set_encoded p (Base64.EncodeToString (Bytes.of_string str)), None).

(** [func (p *PaymentRequest) CalcChecksum(secret string) error] *)
Definition CalcChecksum (p : t) (secret : string) : t * option error :=
  let '(p1, failure) :=
    if (encoded p =? "")%string then
      match encode p with
      | (p', Some err) =>
          (p', Some (errorString ("encoding error: " +++ Error err)))
      | (p', None) => (p', None)
      end
    else (p, None) in
  match failure with
  | Some err => (p1, Some err)
  | None => (set_checksum p1 (sign (encoded p1) secret), None)
  end.

Definition URL (p : t) : string := url p.
Definition Page (p : t) : string := page p.
Definition CIN (p : t) : string := cin p.
Definition Encoded (p : t) : string := encoded p.
Definition Checksum (p : t) : string := checksum p.

End PaymentRequest.

Module API.

Record t := mk {
  url : string;
  cin : string;
  secret : string;
  defaultLanguage : Language
}.

End API.

(** [type PaymentOption]: a function on a pointer to a [PaymentRequest]
    that returns an [error]; here, the request after the call and the
    error. *)
Definition PaymentOption : Type :=
  PaymentRequest.t -> PaymentRequest.t * option error.

Definition WithExpirationTime (t : Time.t) : PaymentOption :=
  fun p =>
    if Time.IsZero t then (p, Some (errorString "invalid time"))
    else (PaymentRequest.set_ExpirationTime p t, None).

Definition WithLanguage (l : Language) : PaymentOption :=
  fun p => (PaymentRequest.set_Language p l, None).

Definition WithCurrency (c : Currency) : PaymentOption :=
  fun p => (PaymentRequest.set_Currency p c, None).

Definition WithPage (pg : PaymentPage) : PaymentOption :=
  fun p => (PaymentRequest.set_page p pg, None).

(** [for _, option := range options { if err := option(&p); err != nil
    { return nil, err } }] *)
Fixpoint applyOptions (options : list PaymentOption) (p : PaymentRequest.t)
  : PaymentRequest.t * option error :=
  match options with
  | [] => (p, None)
  | option :: rest =>
      match option p with
      | (p', Some err) => (p', Some err)
      | (p', None) => applyOptions rest p'
      end
  end.

(** [func (api *API) NewPaymentRequest(amount, description, invoice,
    options...)], with the value of [time.Now()] as [now]. *)
Definition NewPaymentRequest (api : API.t) (now : Time.t)
    (amount : spec_float) (description : string) (invoice : Z)
    (options : list PaymentOption)
  : option PaymentRequest.t * option error :=
  let p :=
    {| PaymentRequest.page := "credit_paydirect";
       PaymentRequest.cin := API.cin api;
       PaymentRequest.url := API.url api;
       PaymentRequest.ExpirationTime := Time.AddDate now 0 0 7;
       PaymentRequest.Language := English;
       PaymentRequest.Currency := EUR;
       PaymentRequest.Amount := amount;
       PaymentRequest.Description := description;
       PaymentRequest.Invoice := invoice;
       PaymentRequest.encoded := "";
       PaymentRequest.checksum := "";
       PaymentRequest.URLOk := "";
       PaymentRequest.URLCancel := "" |} in
  match applyOptions options p with
  | (_, Some err) => (None, Some err)
  | (p', None) => (Some p', None)
  end.

(** What a function body does with a call: it returns, or control reaches
    the end of the body with no [return] executed. *)
Inductive outcome (A : Type) :=
| Return (a : A)
| NoReturn.
Arguments Return {A} a.
Arguments NoReturn {A}.

Section EnumParsers.

(** [strings.Map(unicode.ToLower, s)], for the strings that are not
    ASCII. *)
Variable mapUnicodeToLower : string -> string.

(** [func LanguageFromString(l string) (Language, error)].  A [case] of a
    Go [switch] does not fall through: the cases with an empty body leave
    the [switch], after which the body ends with no [return].  The first
    label, which the source writes without its colon, is read as a [case]
    like the others. *)
Definition LanguageFromString (l : string)
  : outcome (Language * option error) :=
  let lang := Strings.Trim (Strings.ToLower mapUnicodeToLower l) " " in
  if (lang =? "english")%string then NoReturn
  else if (lang =? "eng")%string then NoReturn
  else if (lang =? "en")%string then Return (English, None)
  else if (lang =? "български")%string then NoReturn
  else if (lang =? "бг")%string then NoReturn
  else if (lang =? "bulgarian")%string then NoReturn
  else if (lang =? "bul")%string then NoReturn
  else if (lang =? "bg")%string then Return (Bulgarian, None)
  else Return ("", Some (errorString "unsupported language")).

(** [func CurrencyFromString(c string) (Currency, error)] *)
Definition CurrencyFromString (c : string)
  : outcome (Currency * option error) :=
  let curr := Strings.Trim (Strings.ToLower mapUnicodeToLower c) " " in
  if (curr =? "euro")%string then NoReturn
  else if (curr =? "eur")%string then Return (EUR, None)
  else if (curr =? "bgn")%string then Return (BGN, None)
  else if (curr =? "usd")%string then Return (USD, None)
  else Return ("", Some (errorString "unsupported currrency")).

End EnumParsers.

(* ----------------------------------------------------------------- *)
(** *** The callback processor *)

Module Payment.

Record t := mk {
  Invoice : Z;
  Status : PaymentStatus;
  PayDate : Time.t;
  Stan : Z;
  Bcode : string
}.

(** [Payment{}] *)
Definition zero : t := mk 0 "" Time.zero 0 "".

Definition set_Invoice (p : t) (v : Z) : t :=
  mk v (Status p) (PayDate p) (Stan p) (Bcode p).
Definition set_Status (p : t) (v : PaymentStatus) : t :=
  mk (Invoice p) v (PayDate p) (Stan p) (Bcode p).
Definition set_PayDate (p : t) (v : Time.t) : t :=
  mk (Invoice p) (Status p) v (Stan p) (Bcode p).
Definition set_Stan (p : t) (v : Z) : t :=
  mk (Invoice p) (Status p) (PayDate p) v (Bcode p).
Definition set_Bcode (p : t) (v : string) : t :=
  mk (Invoice p) (Status p) (PayDate p) (Stan p) v.

End Payment.

(** [type PaymentHandlerFunc func(p Payment) error]: the error that the
    handler returns for a payment.  That it was called is recorded in the
    state of the callback. *)
Definition PaymentHandlerFunc : Type := Payment.t -> option error.

Module Http.

Definition MethodPost : string := "POST".
Definition StatusOK : Z := 200.
Definition StatusBadRequest : Z := 400.
Definition StatusInternalServerError : Z := 500.

(** The part of [*http.Request] that the processor reads: the method, the
    error of [ParseForm], and the form, in which [FormValue] finds the
    first value of a key. *)
Record Request := mkRequest {
  Method : string;
  ParseForm : option string;
  Form : list (string * string)
}.

Fixpoint FormValue_in (form : list (string * string)) (key : string)
  : string :=
  match form with
  | [] => ""
  | (k, v) :: rest => if (k =? key)%string then v else FormValue_in rest key
  end.

Definition FormValue (r : Request) (key : string) : string :=
  FormValue_in (Form r) key.

(** An [http.ResponseWriter]: the status code, once written, and the
    body. *)
Record ResponseWriter := mkResponse {
  code : option Z;
  body : string
}.

End Http.

(** The state that one callback works on: the response, the lines logged
    and the payments that the handler was called with. *)
Record World := mkWorld {
  response : Http.ResponseWriter;
  logged : list string;
  handled : list Payment.t
}.

Definition World0 : World := mkWorld (Http.mkResponse None "") [] [].

(** A run ends normally or in a [panic]. *)
Inductive result (A : Type) :=
| Done (a : A) (w : World)
| Panic (msg : string) (w : World).
Arguments Done {A} a w.
Arguments Panic {A} msg w.

Definition M (A : Type) : Type := World -> result A.

Definition ret {A} (a : A) : M A := fun w => Done a w.

Definition bind {A B} (m : M A) (k : A -> M B) : M B :=
  fun w =>
    match m w with
    | Done a w' => k a w'
    | Panic msg w' => Panic msg w'
    end.

Definition panic {A} (msg : string) : M A := fun w => Panic msg w.

Notation "x <- m ;; k" := (bind m (fun x => k))
  (at level 61, m at next level, right associativity).
Notation "m ;;; k" := (bind m (fun _ => k))
  (at level 61, right associativity).

(** [w.WriteHeader(code)] *)
Definition WriteHeader (c : Z) : M unit :=
  fun w =>
    let r := response w in
    let r' := match Http.code r with
              | None => Http.mkResponse (Some c) (Http.body r)
              | Some _ => r
              end in
    Done tt (mkWorld r' (logged w) (handled w)).

(** [w.Write([]byte(data))] *)
Definition Write (data : string) : M unit :=
  fun w =>
    let r := response w in
    let c := match Http.code r with
             | None => Some Http.StatusOK
             | Some c => Some c
             end in
    Done tt (mkWorld (Http.mkResponse c (Http.body r +++ data))
                     (logged w) (handled w)).

(** [http.Error(w, error, code)] *)
Definition http_Error (msg : string) (c : Z) : M unit :=
  WriteHeader c ;;; Write (msg +++ Fmt.nl).

(** [log.Printf], by the message. *)
Definition log_Printf (msg : string) : M unit :=
  fun w => Done tt (mkWorld (response w) (logged w ++ [msg]) (handled w)).

(** [f(payment)] *)
Definition call (f : PaymentHandlerFunc) (payment : Payment.t)
  : M (option error) :=
  fun w =>
    Done (f payment)
         (mkWorld (response w) (logged w) (handled w ++ [payment])).

(** [e[i]] *)
Definition index (e : list string) (i : nat) : M string :=
  match nth_error e i with
  | Some x => ret x
  | None =>
      panic ("runtime error: index out of range [" +++ Fmt.d (Z.of_nat i)
             +++ "] with length " +++ Fmt.d (Z.of_nat (List.length e)))
  end.

Section Callback.

(** [strconv.Quote], the [%q] of [fmt]. *)
Variable Quote : string -> string.

(** [time.Parse("02.01.2006 15:04:05", value)]: the time and the message
    of the error. *)
Variable time_Parse : string -> Time.t * option string.

(** The body of [for _, part := range parts], on the payment and the
    status so far. *)
Definition processPart (st : Payment.t * string) (part : string)
  : M (Payment.t * string) :=
  let '(payment, status) := st in
  let e := Strings.Split part "=" in
  e0 <- index e 0 ;;
  if (e0 =? "INVOICE")%string then
    e1 <- index e 1 ;;
    let '(i, err) := Strconv.ParseUint e1 in
    status <- match err with
              | Some err =>
                  log_Printf ("failed to parse invoice " +++ e1 +++ ": "
                              +++ Strconv.NumError_Error Quote err) ;;;
                  ret "ERR"
              | None => ret status
              end ;;
    ret (Payment.set_Invoice payment i, status)
  else if (e0 =? "STATUS")%string then
    e1 <- index e 1 ;;
    ret (Payment.set_Status payment e1, status)
  else if (e0 =? "PAY_TIME")%string then
    e1 <- index e 1 ;;
    let '(t, err) := time_Parse e1 in
    status <- match err with
              | Some err =>
                  log_Printf ("failed to arse dateTime " +++ Quote e1
                              +++ ": " +++ err) ;;;
                  ret "ERR"
              | None => ret status
              end ;;
    ret (Payment.set_PayDate payment t, status)
  else if (e0 =? "STAN")%string then
    e1 <- index e 1 ;;
    let '(s, err) := Strconv.ParseInt e1 in
    status <- match err with
              | Some err =>
                  log_Printf ("failed to parse stan " +++ e1 +++ ": "
                              +++ Strconv.NumError_Error Quote err) ;;;
                  ret "ERR"
              | None => ret status
              end ;;
    ret (Payment.set_Stan payment s, status)
  else if (e0 =? "BCODE")%string then
    e1 <- index e 1 ;;
    ret (Payment.set_Bcode payment e1, status)
  else ret (payment, status).

Fixpoint processParts (parts : list string) (st : Payment.t * string)
  : M (Payment.t * string) :=
  match parts with
  | [] => ret st
  | part :: rest => st' <- processPart st part ;; processParts rest st'
  end.

(** [if status != "ERR" { ... }]: the call of the handler and the status
    that its result gives. *)
Definition reconcile (f : PaymentHandlerFunc) (payment : Payment.t)
    (status : string) : M string :=
  if negb (status =? "ERR")%string then
    err <- call f payment ;;
    match err with
    | Some err =>
        if is_ErrInvalidInvoice err then ret "NO"
        else
          log_Printf ("payment handler error: " +++ Error err) ;;;
          ret "ERR"
    | None => ret "OK"
    end
  else ret status.

(** The [http.HandlerFunc] that [PaymentCallbackHandler(f)] returns, run
    on the request [r]. *)
Definition PaymentCallbackHandler (api : API.t) (f : PaymentHandlerFunc)
    (r : Http.Request) : M unit :=
  if negb (Http.Method r =? Http.MethodPost)%string then
    http_Error "invalid method" Http.StatusBadRequest
  else
  match Http.ParseForm r with
  | Some err => http_Error err Http.StatusInternalServerError
  | None =>
  let encoded := Http.FormValue r "encoded" in
  let checksum := Http.FormValue r "checksum" in
  let h := HMAC.New (Bytes.of_string (API.secret api)) in
  let h := HMAC.Write h (Bytes.of_string encoded) in
  let expected := Hex.EncodeToString (HMAC.Sum_nil h) in
  if negb (checksum =? expected)%string then
    http_Error ("invalid checksum " +++ Quote checksum)
               Http.StatusBadRequest ;;;
    log_Printf ("expected checksum " +++ Quote expected +++ ", but got "
                +++ Quote checksum)
  else
  match Base64.DecodeString encoded with
  | (_, Some (Base64.CorruptInputError off)) =>
      http_Error ("decoding error: " +++ "illegal base64 data at input byte "
                  +++ Fmt.d off) Http.StatusBadRequest
  | (d, None) =>
  let data := Bytes.to_string d in
  let status := "" in
  let parts := Strings.Split data "010" in
  let payment := Payment.zero in
  st <- processParts parts (payment, status) ;;
  let '(payment, status) := st in
  status <- reconcile f payment status ;;
  let answer := "INVOICE=" +++ Fmt.d (Payment.Invoice payment)
                +++ ":STATUS=" +++ status +++ Fmt.nl in
  WriteHeader Http.StatusOK ;;;
  Write answer
  end
  end.

End Callback.


(* ================================================================= *)
(** ** Definitions that the properties are stated with *)

(** A digit of lowercase hexadecimal: [0-9a-f]. *)
Definition isLowerHex (c : ascii) : bool :=
  let b := Bytes.byte_of c in
  ((48 <=? b) && (b <=? 57)) || ((97 <=? b) && (b <=? 102)).

(** The four checks of [encode] on the mandatory fields. *)
Definition mandatoryValid (p : PaymentRequest.t) : bool :=
  negb (PaymentRequest.cin p =? "")%string
  && (0 <? PaymentRequest.Invoice p)
  && negb (Float64.lt (PaymentRequest.Amount p) Float64.c0_01)
  && negb (Time.IsZero (PaymentRequest.ExpirationTime p)).

(** One line of the encoding: [KEY=value] and a newline. *)
Definition line (key value : string) : string :=
  key +++ "=" +++ value +++ Fmt.nl.

(** An optional line, left out for the empty value. *)
Definition optionalLine (key value : string) : string :=
  if (value =? "")%string then "" else line key value.

(** The text that [encode] has in [str] when it reaches its last line: the
    description comes under the key [LANGUAGE]. *)
Definition encodedText (p : PaymentRequest.t) : string :=
  line "MIN" (PaymentRequest.cin p)
  +++ line "INVOICE" (Fmt.d (PaymentRequest.Invoice p))
  +++ line "AMOUNT" (Fmt.f2 (PaymentRequest.Amount p))
  +++ line "EXP_TIME" (Time.Format (PaymentRequest.ExpirationTime p))
  +++ optionalLine "CURRENCY" (PaymentRequest.Currency p)
  +++ optionalLine "LANGUAGE" (PaymentRequest.Language p)
  +++ optionalLine "LANGUAGE" (PaymentRequest.Description p).

(** The canonical text of the specification: MIN, INVOICE, AMOUNT, EXP_TIME,
    then the optional CURRENCY, LANGUAGE and DESCRIPTION. *)
Definition canonicalText (p : PaymentRequest.t) : string :=
  line "MIN" (PaymentRequest.cin p)
  +++ line "INVOICE" (Fmt.d (PaymentRequest.Invoice p))
  +++ line "AMOUNT" (Fmt.f2 (PaymentRequest.Amount p))
  +++ line "EXP_TIME" (Time.Format (PaymentRequest.ExpirationTime p))
  +++ optionalLine "CURRENCY" (PaymentRequest.Currency p)
  +++ optionalLine "LANGUAGE" (PaymentRequest.Language p)
  +++ optionalLine "DESCRIPTION" (PaymentRequest.Description p).

(** ** Example values *)

Definition api0 : API.t := API.mk ePayURL "123" "secret" English.

(** March 5, 2024, 14:30:00 UTC. *)
Definition instant0 : Time.t := Time.Date 2024 3 5 14 30 0 0 Time.UTC.

(** A location where summer time ends: three hours east of UTC until
    October 27, 2024, 01:00:00 UTC, and two hours from then on. *)
Definition sofia : Time.Location :=
  Time.mkLocation
    (fun unix =>
       if unix <? 1729990800 then (10800, Time.alpha, 1729990800)
       else (7200, 1729990800, Time.omega)).

(** October 24, 2024, 12:00:00 in that location. *)
Definition instantSummer : Time.t := Time.Date 2024 10 24 12 0 0 0 sofia.

(** A request for 12.50 EUR on invoice 55, with the description [x]. *)
Definition request55 : PaymentRequest.t :=
  {| PaymentRequest.page := "credit_paydirect";
     PaymentRequest.url := ePayURL;
     PaymentRequest.cin := "123";
     PaymentRequest.encoded := "";
     PaymentRequest.checksum := "";
     PaymentRequest.Currency := EUR;
     PaymentRequest.Amount := Float64.of_scaled 25 (-1);
     PaymentRequest.Description := "x";
     PaymentRequest.Invoice := 55;
     PaymentRequest.ExpirationTime := instant0;
     PaymentRequest.URLOk := "";
     PaymentRequest.URLCancel := "";
     PaymentRequest.Language := English |}.

(** The same request for an amount that is not a number. *)
Definition requestNaN : PaymentRequest.t :=
  {| PaymentRequest.page := "credit_paydirect";
     PaymentRequest.url := ePayURL;
     PaymentRequest.cin := "123";
     PaymentRequest.encoded := "";
     PaymentRequest.checksum := "";
     PaymentRequest.Currency := EUR;
     PaymentRequest.Amount := S754_nan;
     PaymentRequest.Description := "x";
     PaymentRequest.Invoice := 55;
     PaymentRequest.ExpirationTime := instant0;
     PaymentRequest.URLOk := "";
     PaymentRequest.URLCancel := "";
     PaymentRequest.Language := English |}.

(** The same request of a client with no identification number. *)
Definition requestNoCIN : PaymentRequest.t :=
  {| PaymentRequest.page := "credit_paydirect";
     PaymentRequest.url := ePayURL;
     PaymentRequest.cin := "";
     PaymentRequest.encoded := "";
     PaymentRequest.checksum := "";
     PaymentRequest.Currency := EUR;
     PaymentRequest.Amount := Float64.of_scaled 25 (-1);
     PaymentRequest.Description := "x";
     PaymentRequest.Invoice := 55;
     PaymentRequest.ExpirationTime := instant0;
     PaymentRequest.URLOk := "";
     PaymentRequest.URLCancel := "";
     PaymentRequest.Language := English |}.

(** The request of [NewPaymentRequest] before any option applies. *)
Definition defaultRequest (api : API.t) (now : Time.t) (amount : spec_float)
    (description : string) (invoice : Z) : PaymentRequest.t :=
  {| PaymentRequest.page := Direct;
     PaymentRequest.url := API.url api;
     PaymentRequest.cin := API.cin api;
     PaymentRequest.encoded := "";
     PaymentRequest.checksum := "";
     PaymentRequest.Currency := EUR;
     PaymentRequest.Amount := amount;
     PaymentRequest.Description := description;
     PaymentRequest.Invoice := invoice;
     PaymentRequest.ExpirationTime := Time.AddDate now 0 0 7;
     PaymentRequest.URLOk := "";
     PaymentRequest.URLCancel := "";
     PaymentRequest.Language := English |}.

(** A record of the payload that makes the processor panic: a recognised
    key with no equal sign after it. *)
Definition recordPanics (part : string) : bool :=
  match Strings.Split part "=" with
  | [key] =>
      (key =? "INVOICE")%string || (key =? "STATUS")%string
      || (key =? "PAY_TIME")%string || (key =? "STAN")%string
      || (key =? "BCODE")%string
  | _ => false
  end.

(** A record of the payload whose value does not parse: an INVOICE that is
    no unsigned integer, a PAY_TIME that is no time, a STAN that is no
    signed integer. *)
Definition recordFails (time_Parse : string -> Time.t * option string)
    (part : string) : bool :=
  match Strings.Split part "=" with
  | key :: value :: _ =>
      if (key =? "INVOICE")%string then
        match snd (Strconv.ParseUint value) with Some _ => true | None => false end
      else if (key =? "PAY_TIME")%string then
        match snd (time_Parse value) with Some _ => true | None => false end
      else if (key =? "STAN")%string then
        match snd (Strconv.ParseInt value) with Some _ => true | None => false end
      else false
  | _ => false
  end.

(** A parse error occurred in the payload [data]. *)
Definition parseError (time_Parse : string -> Time.t * option string)
    (data : string) : bool :=
  existsb (recordFails time_Parse) (Strings.Split data "010").

(** A decimal digit. *)
Definition decimalDigit (k : Z) : ascii :=
  match k with
  | 0 => "0" | 1 => "1" | 2 => "2" | 3 => "3" | 4 => "4"
  | 5 => "5" | 6 => "6" | 7 => "7" | 8 => "8" | _ => "9"
  end%char.

(** The digits of a natural number, the last digit after the digits of the
    tenth of the number; [fuel] bounds their number. *)
Fixpoint decimalDigits (fuel : nat) (n : Z) : string :=
  match fuel with
  | O => ""
  | S fuel' =>
      (if n <? 10 then "" else decimalDigits fuel' (n / 10))
      +++ String (decimalDigit (n mod 10)) ""
  end.

(** The decimal numeral of an integer: its digits, with no zero in front,
    after a minus sign for a negative one.  A number has no more decimal
    digits than binary ones. *)
Definition decimal (n : Z) : string :=
  if n <? 0
  then String "-" (decimalDigits (S (Z.to_nat (Z.log2 (- n)))) (- n))
  else decimalDigits (S (Z.to_nat (Z.log2 n))) n.

(** [h] is the integer nearest to a hundred times [m * 2 ^ e], the even
    one of the two when they are as near: the distance, taken twice and
    scaled by the denominator, is below the denominator, or equal to it
    with [h] even. *)
Definition nearestHundredths (m : positive) (e h : Z) : bool :=
  let num := 100 * Z.pos m * 2 ^ Z.max e 0 in
  let den := 2 ^ Z.max (- e) 0 in
  let dist := 2 * Z.abs (h * den - num) in
  (dist <? den) || ((dist =? den) && Z.even h).

(** The numeral of [h] hundredths: the units, a point and two digits. *)
Definition twoDecimals (h : Z) : string :=
  decimal (h / 100) +++ "."
  +++ String (decimalDigit (h mod 100 / 10)) (String (decimalDigit (h mod 10)) "").

(** The newline that ends a line on the wire. *)
Definition newline : string := String "010" EmptyString.

(** The status of the reply, in the words of the specification: [ERR] after
    a parse error; otherwise [OK] when the handler succeeds, [NO] when it
    returns the sentinel, [ERR] for any other error. *)
Definition replyStatus (parseErr : bool) (handlerResult : option error)
  : string :=
  if parseErr then "ERR"
  else match handlerResult with
       | None => "OK"
       | Some ErrInvalidInvoice => "NO"
       | Some (errorString _) => "ERR"
       end.

(** The reply body [INVOICE=<n>:STATUS=<status>] and a newline. *)
Definition replyBody (invoice : Z) (status : string) : string :=
  "INVOICE=" +++ Fmt.d invoice +++ ":STATUS=" +++ status +++ Fmt.nl.

(** The POST that carries the payload [data], signed with [secret]. *)
Definition callbackOf (secret data : string) : Http.Request :=
  let encoded := Base64.EncodeToString (Bytes.of_string data) in
  Http.mkRequest Http.MethodPost None
    [("encoded", encoded); ("checksum", sign encoded secret)].

(** A POST with a checksum that is not the signature of its payload. *)
Definition tamperedCallback : Http.Request :=
  Http.mkRequest Http.MethodPost None
    [("encoded", "SU5WT0lDRT01NQo="); ("checksum", "bad")].

(** The payload of the specification's example. *)
Definition payload55 : string :=
  line "MIN" "123" +++ line "INVOICE" "55" +++ line "AMOUNT" "10.00"
  +++ line "EXP_TIME" "05.03.2024 14:30:00" +++ line "STATUS" "PAID"
  +++ line "STAN" "99" +++ line "BCODE" "ABC".

(** The payment that [payload55] describes. *)
Definition payment55 : Payment.t := Payment.mk 55 Paid Time.zero 99 "ABC".

(** A handler that accepts every payment. *)
Definition acceptAll : PaymentHandlerFunc := fun _ => None.

(** The model of [time.Parse] with the quoting of ASCII. *)
Definition parseTime : string -> Time.t * option string :=
  Time.Parse Strconv.QuoteASCII.

(* ================================================================= *)
(** ** The rest of epay.go *)

(** [type Option]: a function on a pointer to an [API] that returns an
    [error]; here, the API after the call and the error. *)
Definition Option : Type := API.t -> API.t * option error.

Definition WithDemoURL : Option :=
  fun api =>
    (API.mk ePayDemoURL (API.cin api) (API.secret api)
            (API.defaultLanguage api), None).

(** [for _, option := range options { if err := option(&api); err != nil
    { return nil, fmt.Errorf("option error: %v", err) } }] *)
Fixpoint applyAPIOptions (options : list Option) (api : API.t)
  : API.t * option error :=
  match options with
  | [] => (api, None)
  | option :: rest =>
      match option api with
      | (api', Some err) => (api', Some err)
      | (api', None) => applyAPIOptions rest api'
      end
  end.

(** [func New(cin, secret string, options ...Option)].  The language of the
    struct literal is the zero value. *)
Definition New (cin secret : string) (options : list Option)
  : option API.t * option error :=
  let api := API.mk ePayURL cin secret "" in
  match applyAPIOptions options api with
  | (_, Some err) =>
      (None, Some (errorString ("option error: " +++ Error err)))
  | (api', None) => (Some api', None)
  end.

(** The options that the package provides for a payment request. *)
Inductive packageOption : PaymentOption -> Prop :=
| package_WithExpirationTime (t : Time.t) :
    packageOption (WithExpirationTime t)
| package_WithLanguage (l : Language) : packageOption (WithLanguage l)
| package_WithCurrency (c : Currency) : packageOption (WithCurrency c)
| package_WithPage (pg : PaymentPage) : packageOption (WithPage pg).

(** The byte [c] does not occur in [s]. *)
Fixpoint noByte (c : ascii) (s : string) : bool :=
  match s with
  | EmptyString => true
  | String d rest => negb (Ascii.eqb d c) && noByte c rest
  end.

(** A value that a record can carry: no equal sign and no newline. *)
Definition plainValue (s : string) : bool := noByte "=" s && noByte "010" s.

(** The payload that describes a payment, one record for each field. *)
Definition payloadOf (p : Payment.t) : string :=
  line "INVOICE" (Fmt.d (Payment.Invoice p))
  +++ line "STATUS" (Payment.Status p)
  +++ line "PAY_TIME" (Time.Format (Payment.PayDate p))
  +++ line "STAN" (Fmt.d (Payment.Stan p))
  +++ line "BCODE" (Payment.Bcode p).

(** The keys that the callback processor reads. *)
Definition recognisedKey (key : string) : bool :=
  (key =? "INVOICE")%string || (key =? "STATUS")%string
  || (key =? "PAY_TIME")%string || (key =? "STAN")%string
  || (key =? "BCODE")%string.

(** The key of a record: what stands before its first equal sign. *)
Definition recordKey (part : string) : string :=
  match Strings.Split part "=" with
  | key :: _ => key
  | [] => ""
  end.

Section RequestHandler.

(** [strings.Map(unicode.ToLower, s)], for the strings that are not
    ASCII. *)
Variable mapUnicodeToLower : string -> string.

(** [strconv.ParseFloat(s, 64)]: the value and the message of the error. *)
Variable ParseFloat : string -> spec_float * option string.

(** The error of [template.ParseFiles("templates/simplepaymentrequest.html")],
    if any. *)
Variable template_ParseFiles : option string.

(** [tpl.Execute(w, data)]: what it writes to [w], one string for each
    call of [w.Write], and the message of its error. *)
Variable template_Execute : PaymentRequest.t -> list string * option string.

(** [for each chunk: w.Write(chunk)] *)
Fixpoint writeAll (chunks : list string) : M unit :=
  match chunks with
  | [] => ret tt
  | chunk :: rest => Write chunk ;;; writeAll rest
  end.

(** The end of [PaymentRequestHandler], from [template.ParseFiles] on, for
    the request [data]. *)
Definition executeTemplate (data : PaymentRequest.t) : M unit :=
  match template_ParseFiles with
  | Some err => http_Error err Http.StatusInternalServerError
  | None =>
      let '(chunks, err) := template_Execute data in
      writeAll chunks ;;;
      match err with
      | Some err => http_Error err Http.StatusInternalServerError
      | None => ret tt
      end
  end.

(** [data, err := api.NewPaymentRequest(...); data.CalcChecksum(api.secret)]
    and the rest.  The errors of [NewPaymentRequest] and of [CalcChecksum]
    are not looked at; [CalcChecksum] on the nil request of a failed
    construction is a nil pointer dereference. *)
Definition renderRequest (api : API.t) (now : Time.t) (amount : spec_float)
    (description : string) (invoice : Z) (options : list PaymentOption)
  : M unit :=
  let '(data, _) :=
    NewPaymentRequest api now amount description invoice options in
  match data with
  | None =>
      panic "runtime error: invalid memory address or nil pointer dereference"
  | Some data =>
      let '(data, _) := PaymentRequest.CalcChecksum data (API.secret api) in
      executeTemplate data
  end.

(** [func (api *API) PaymentRequestHandler(w, r)], with the value of
    [time.Now()] as [now].  The result of [r.ParseForm()] is not looked at.
    The source calls [append(options, WithLanguage(lang))] without
    assigning its result, so the option is not in [options]; where
    [LanguageFromString] or [CurrencyFromString] executes no [return], this
    body has no value to go on with. *)
Definition PaymentRequestHandler (api : API.t) (now : Time.t)
    (r : Http.Request) : outcome (M unit) :=
  match ParseFloat (Http.FormValue r "amount") with
  | (_, Some _) =>
      Return (http_Error "amount is invalid or missing"
                         Http.StatusInternalServerError)
  | (amount, None) =>
  let description := Http.FormValue r "description" in
  if (description =? "")%string then
    Return (http_Error "description is empty"
                       Http.StatusInternalServerError)
  else
  match Strconv.ParseUint (Http.FormValue r "invoice") with
  | (_, Some _) =>
      Return (http_Error "invoice is invalid or missing"
                         Http.StatusInternalServerError)
  | (invoice, None) =>
  let options : list PaymentOption := [] in
  let l := Http.FormValue r "language" in
  let l := if (l =? "")%string then "en" else l in
  match LanguageFromString mapUnicodeToLower l with
  | NoReturn => NoReturn
  | Return (_, Some _) =>
      Return (http_Error "invalid language" Http.StatusInternalServerError)
  | Return (lang, None) =>
  let _ := options ++ [WithLanguage lang] in
  let c := Http.FormValue r "currency" in
  let c := if (c =? "")%string then "eur" else c in
  match CurrencyFromString mapUnicodeToLower c with
  | NoReturn => NoReturn
  | Return (_, Some _) =>
      Return (http_Error "invalid currency" Http.StatusInternalServerError)
  | Return (curr, None) =>
  let options := options ++ [WithCurrency curr] in
  let type := Strings.ToLower mapUnicodeToLower (Http.FormValue r "type") in
  if (type =? "")%string then
    Return (renderRequest api now amount description invoice options)
  else if (type =? "direct")%string then
    Return (renderRequest api now amount description invoice
              (options ++ [WithPage Direct]))
  else if (type =? "request")%string then
    Return (renderRequest api now amount description invoice
              (options ++ [WithPage Login]))
  else
    Return (http_Error "invalid type" Http.StatusInternalServerError)
  end
  end
  end
  end.

End RequestHandler.

(** The number that the decimal digits [u] continue, after the digits that
    gave [acc]. *)
Fixpoint uintValue (u : Decimal.uint) (acc : Z) : Z :=
  match u with
  | Decimal.Nil => acc
  | Decimal.D0 l => uintValue l (acc * 10 + 0)
  | Decimal.D1 l => uintValue l (acc * 10 + 1)
  | Decimal.D2 l => uintValue l (acc * 10 + 2)
  | Decimal.D3 l => uintValue l (acc * 10 + 3)
  | Decimal.D4 l => uintValue l (acc * 10 + 4)
  | Decimal.D5 l => uintValue l (acc * 10 + 5)
  | Decimal.D6 l => uintValue l (acc * 10 + 6)
  | Decimal.D7 l => uintValue l (acc * 10 + 7)
  | Decimal.D8 l => uintValue l (acc * 10 + 8)
  | Decimal.D9 l => uintValue l (acc * 10 + 9)
  end.

(** A byte of a formatted time: a digit, a minus sign or a separator of the
    layout. *)
Definition timeByte (c : ascii) : bool :=
  Strconv.isDigit c || Ascii.eqb c "-" || Ascii.eqb c "." || Ascii.eqb c " "
  || Ascii.eqb c ":".

(** The state in which a run ends. *)
Definition finalWorld {A} (r : result A) : World :=
  match r with
  | Done _ w => w
  | Panic _ w => w
  end.

(** The POST that carries the payload and the checksum of a request. *)
Definition callbackWith (p : PaymentRequest.t) : Http.Request :=
  Http.mkRequest Http.MethodPost None
    [("encoded", PaymentRequest.Encoded p);
     ("checksum", PaymentRequest.Checksum p)].

(** ** Further example values *)

(** A POST whose payload is no base64 and whose checksum is its
    signature. *)
Definition undecodableCallback : Http.Request :=
  Http.mkRequest Http.MethodPost None
    [("encoded", "a"); ("checksum", sign "a" "secret")].

(** A GET with the form of [tamperedCallback]. *)
Definition getCallback : Http.Request :=
  Http.mkRequest "GET" None (Http.Form tamperedCallback).

(** A payment of invoice 55, paid at [instant0]. *)
Definition paidPayment : Payment.t := Payment.mk 55 Paid instant0 (-7) "ABC".

(** A [strconv.ParseFloat] for the examples: 12.5 for the literal [12.5],
    the error of a syntax error for any other string. *)
Definition parseFloatExample (s : string) : spec_float * option string :=
  if (s =? "12.5")%string then (Float64.of_scaled 25 (-1), None)
  else (S754_zero false,
        Some ("strconv.ParseFloat: parsing " +++ Strconv.QuoteASCII s
              +++ ": invalid syntax")).

(** A template for the examples: it writes the payload and the checksum of
    the request. *)
Definition templateExample (data : PaymentRequest.t)
  : list string * option string :=
  ([PaymentRequest.Encoded data +++ Fmt.nl;
    PaymentRequest.Checksum data +++ Fmt.nl], None).

(** The form of a payment request for 12.5 on invoice 55, in Bulgarian. *)
Definition requestForm : Http.Request :=
  Http.mkRequest "GET" None
    [("amount", "12.5"); ("description", "x"); ("invoice", "55");
     ("language", "bg"); ("type", "request")].
(* ================================================================= *)
(** * Properties *)

(** ** Bits *)

Lemma lor_low_add (x lo n : Z) :
  0 <= n -> 0 <= lo < 2 ^ n -> x mod 2 ^ n = 0 -> Z.lor x lo = x + lo.
Proof.
  intros Hn Hlo Hx.
  assert (Hland : Z.land x lo = 0).
  { apply Z.bits_inj'. intros k Hk.
    rewrite Z.land_spec, Z.bits_0.
    destruct (Z_lt_le_dec k n) as [Hlt | Hge].
    - rewrite <- (Z.mod_pow2_bits_low x n k) by lia.
      rewrite Hx, Z.bits_0. reflexivity.
    - rewrite <- (Z.mod_small lo (2 ^ n)) by lia.
      rewrite Z.mod_pow2_bits_high by lia.
      apply andb_false_r. }
  rewrite <- Z.lxor_lor by exact Hland.
  symmetry. apply Z.add_nocarry_lxor. exact Hland.
Qed.

Lemma land_63 (x : Z) : Z.land x 63 = x mod 64.
Proof. change 63 with (Z.ones 6). rewrite Z.land_ones by lia. reflexivity. Qed.

Lemma land_255 (x : Z) : Z.land x 255 = x mod 256.
Proof. change 255 with (Z.ones 8). rewrite Z.land_ones by lia. reflexivity. Qed.

Lemma land_15 (x : Z) : Z.land x 15 = x mod 16.
Proof. change 15 with (Z.ones 4). rewrite Z.land_ones by lia. reflexivity. Qed.

Ltac shifts_to_arith :=
  repeat rewrite Z.shiftl_mul_pow2 by lia;
  repeat rewrite Z.shiftr_div_pow2 by lia;
  repeat rewrite land_63; repeat rewrite land_255; repeat rewrite land_15;
  change (2 ^ 0) with 1; change (2 ^ 4) with 16; change (2 ^ 6) with 64;
  change (2 ^ 8) with 256; change (2 ^ 12) with 4096;
  change (2 ^ 16) with 65536; change (2 ^ 18) with 262144.

(** The 24 bits of three bytes. *)
Lemma pack3 (b0 b1 b2 : Z) :
  0 <= b0 < 256 -> 0 <= b1 < 256 -> 0 <= b2 < 256 ->
  Z.lor (Z.lor (Z.shiftl b0 16) (Z.shiftl b1 8)) b2
  = b0 * 65536 + b1 * 256 + b2.
Proof.
  intros H0 H1 H2. shifts_to_arith.
  rewrite (lor_low_add (b0 * 65536) (b1 * 256) 16) by
    (try lia; change (2 ^ 16) with 65536; rewrite Z.mod_mul; lia).
  rewrite (lor_low_add _ b2 8); try lia.
  change (2 ^ 8) with 256. Z.div_mod_to_equations. lia.
Qed.

(** The 24 bits of four sextets. *)
Lemma pack4 (s0 s1 s2 s3 : Z) :
  0 <= s0 < 64 -> 0 <= s1 < 64 -> 0 <= s2 < 64 -> 0 <= s3 < 64 ->
  Z.lor (Z.lor (Z.lor (Z.shiftl s0 18) (Z.shiftl s1 12)) (Z.shiftl s2 6)) s3
  = s0 * 262144 + s1 * 4096 + s2 * 64 + s3.
Proof.
  intros H0 H1 H2 H3. shifts_to_arith.
  rewrite (lor_low_add (s0 * 262144) (s1 * 4096) 18) by
    (try lia; change (2 ^ 18) with 262144; rewrite Z.mod_mul; lia).
  rewrite (lor_low_add _ (s2 * 64) 12);
    [ | lia | lia | change (2 ^ 12) with 4096; Z.div_mod_to_equations; lia ].
  rewrite (lor_low_add _ s3 6);
    [ | lia | lia | change (2 ^ 6) with 64; Z.div_mod_to_equations; lia ].
  reflexivity.
Qed.

(** ** encoding/base64: decoding inverts encoding *)

Lemma list_ind3 {A} (P : list A -> Prop) :
  P [] -> (forall a, P [a]) -> (forall a b, P [a; b]) ->
  (forall a b c l, P l -> P (a :: b :: c :: l)) ->
  forall l, P l.
Proof.
  intros H0 H1 H2 H3.
  fix IH 1. intros [ | a [ | b [ | c l]]].
  - exact H0.
  - apply H1.
  - apply H2.
  - apply H3, IH.
Qed.

Lemma decodeMap_encode (i : Z) :
  0 <= i < 64 -> Base64.decodeMap (Base64.encode i) = i.
Proof.
  intros Hi.
  assert (H : forallb (fun n => Base64.decodeMap (Base64.encode (Z.of_nat n))
                                 =? Z.of_nat n) (seq 0 64) = true)
    by (vm_compute; reflexivity).
  rewrite forallb_forall in H.
  specialize (H (Z.to_nat i)). rewrite Z2Nat.id in H by lia.
  apply Z.eqb_eq, H, in_seq. lia.
Qed.

Lemma decodeLoop_sextet (s : Z) (rest : list ascii) (si : Z) (dbuf : list Z) :
  0 <= s < 64 ->
  Base64.decodeLoop (Base64.encode s :: rest) si dbuf
  = if (List.length (dbuf ++ [s]) =? 4)%nat
    then let '(bs, e) := Base64.decodeLoop rest (si + 1) [] in
         (Base64.quantumBytes (dbuf ++ [s]) 4 ++ bs, e)
    else Base64.decodeLoop rest (si + 1) (dbuf ++ [s]).
Proof.
  intros Hs. cbn [Base64.decodeLoop].
  rewrite decodeMap_encode by exact Hs.
  replace (s =? 255) with false by (symmetry; apply Z.eqb_neq; lia).
  reflexivity.
Qed.

Lemma decodeLoop_quad (s0 s1 s2 s3 : Z) (rest : list ascii) (si : Z) :
  0 <= s0 < 64 -> 0 <= s1 < 64 -> 0 <= s2 < 64 -> 0 <= s3 < 64 ->
  Base64.decodeLoop
    (Base64.encode s0 :: Base64.encode s1 :: Base64.encode s2
       :: Base64.encode s3 :: rest) si []
  = let '(bs, e) := Base64.decodeLoop rest (si + 1 + 1 + 1 + 1) [] in
    (Base64.quantumBytes [s0; s1; s2; s3] 4 ++ bs, e).
Proof.
  intros H0 H1 H2 H3.
  rewrite !decodeLoop_sextet by assumption. reflexivity.
Qed.

Lemma decodeLoop_pad1 (s0 s1 s2 : Z) (si : Z) :
  0 <= s0 < 64 -> 0 <= s1 < 64 -> 0 <= s2 < 64 ->
  Base64.decodeLoop
    [Base64.encode s0; Base64.encode s1; Base64.encode s2; Base64.padChar]
    si []
  = (Base64.quantumBytes [s0; s1; s2] 3, None).
Proof.
  intros H0 H1 H2.
  rewrite !decodeLoop_sextet by assumption. reflexivity.
Qed.

Lemma decodeLoop_pad2 (s0 s1 : Z) (si : Z) :
  0 <= s0 < 64 -> 0 <= s1 < 64 ->
  Base64.decodeLoop
    [Base64.encode s0; Base64.encode s1; Base64.padChar; Base64.padChar]
    si []
  = (Base64.quantumBytes [s0; s1] 2, None).
Proof.
  intros H0 H1.
  rewrite !decodeLoop_sextet by assumption. reflexivity.
Qed.

Lemma quantum_full (b0 b1 b2 : Z) :
  0 <= b0 < 256 -> 0 <= b1 < 256 -> 0 <= b2 < 256 ->
  let val := Z.lor (Z.lor (Z.shiftl b0 16) (Z.shiftl b1 8)) b2 in
  Base64.quantumBytes
    [Z.land (Z.shiftr val 18) 63; Z.land (Z.shiftr val 12) 63;
     Z.land (Z.shiftr val 6) 63; Z.land (Z.shiftr val 0) 63] 4
  = [b0; b1; b2].
Proof.
  intros H0 H1 H2 val. subst val. rewrite pack3 by assumption.
  unfold Base64.quantumBytes. cbn [nth firstn Nat.sub].
  rewrite pack4 by (rewrite land_63; apply Z.mod_pos_bound; lia).
  shifts_to_arith.
  repeat f_equal; Z.div_mod_to_equations; lia.
Qed.

Lemma quantum_two (b0 b1 : Z) :
  0 <= b0 < 256 -> 0 <= b1 < 256 ->
  let val := Z.lor (Z.shiftl b0 16) (Z.shiftl b1 8) in
  Base64.quantumBytes
    [Z.land (Z.shiftr val 18) 63; Z.land (Z.shiftr val 12) 63;
     Z.land (Z.shiftr val 6) 63] 3
  = [b0; b1].
Proof.
  intros H0 H1 val.
  assert (Hval : val = b0 * 65536 + b1 * 256 + 0).
  { subst val. rewrite <- pack3 by lia. rewrite Z.lor_0_r. reflexivity. }
  rewrite Hval.
  unfold Base64.quantumBytes. cbn [nth firstn Nat.sub].
  rewrite pack4 by (try (rewrite land_63; apply Z.mod_pos_bound); lia).
  shifts_to_arith.
  repeat f_equal; Z.div_mod_to_equations; lia.
Qed.

Lemma quantum_one (b0 : Z) :
  0 <= b0 < 256 ->
  let val := Z.shiftl b0 16 in
  Base64.quantumBytes
    [Z.land (Z.shiftr val 18) 63; Z.land (Z.shiftr val 12) 63] 2
  = [b0].
Proof.
  intros H0 val.
  assert (Hval : val = b0 * 65536 + 0 * 256 + 0).
  { subst val. rewrite <- pack3 by lia.
    rewrite Z.shiftl_0_l, !Z.lor_0_r. reflexivity. }
  rewrite Hval.
  unfold Base64.quantumBytes. cbn [nth firstn Nat.sub].
  rewrite pack4 by (try (rewrite land_63; apply Z.mod_pos_bound); lia).
  shifts_to_arith.
  repeat f_equal; Z.div_mod_to_equations; lia.
Qed.

Lemma sextet_range (val k : Z) : 0 <= Z.land (Z.shiftr val k) 63 < 64.
Proof. rewrite land_63. apply Z.mod_pos_bound. lia. Qed.

Lemma decodeLoop_Encode (src : list Z) :
  Forall Bytes.is_byte src ->
  forall si, Base64.decodeLoop (Base64.Encode src) si [] = (src, None).
Proof.
  induction src as [ | b0 | b0 b1 | b0 b1 b2 rest IH] using list_ind3;
    intros Hb si.
  - reflexivity.
  - inversion Hb as [ | ? ? Hb0 _]; subst.
    cbn [Base64.Encode]. unfold Base64.sextet.
    rewrite decodeLoop_pad2 by apply sextet_range.
    rewrite quantum_one by exact Hb0. reflexivity.
  - inversion Hb as [ | ? ? Hb0 Hb']; subst.
    inversion Hb' as [ | ? ? Hb1 _]; subst.
    cbn [Base64.Encode]. unfold Base64.sextet.
    rewrite decodeLoop_pad1 by apply sextet_range.
    rewrite quantum_two by assumption. reflexivity.
  - inversion Hb as [ | ? ? Hb0 Hb']; subst.
    inversion Hb' as [ | ? ? Hb1 Hb'']; subst.
    inversion Hb'' as [ | ? ? Hb2 Hrest]; subst.
    cbn [Base64.Encode]. unfold Base64.sextet.
    rewrite decodeLoop_quad by apply sextet_range.
    rewrite IH by exact Hrest.
    rewrite quantum_full by assumption. reflexivity.
Qed.

Lemma DecodeString_EncodeToString (src : list Z) :
  Forall Bytes.is_byte src ->
  Base64.DecodeString (Base64.EncodeToString src) = (src, None).
Proof.
  intros Hb. unfold Base64.DecodeString, Base64.EncodeToString.
  rewrite list_ascii_of_string_of_list_ascii.
  rewrite decodeLoop_Encode by exact Hb. reflexivity.
Qed.

(** ** Bytes *)

Lemma byte_of_range (c : ascii) : Bytes.is_byte (Bytes.byte_of c).
Proof.
  unfold Bytes.is_byte, Bytes.byte_of.
  pose proof (N_ascii_bounded c). lia.
Qed.

Lemma of_string_bytes (s : string) : Forall Bytes.is_byte (Bytes.of_string s).
Proof.
  unfold Bytes.of_string. apply Forall_forall. intros b Hin.
  apply in_map_iff in Hin. destruct Hin as [c [<- _]]. apply byte_of_range.
Qed.

Lemma char_of_byte_of (c : ascii) : Bytes.char_of (Bytes.byte_of c) = c.
Proof.
  unfold Bytes.char_of, Bytes.byte_of.
  rewrite N2Z.id. apply ascii_N_embedding.
Qed.

Lemma to_string_of_string (s : string) : Bytes.to_string (Bytes.of_string s) = s.
Proof.
  unfold Bytes.to_string, Bytes.of_string.
  rewrite map_map.
  rewrite (map_ext _ (fun c => c)) by (intros c; apply char_of_byte_of).
  rewrite map_id. apply string_of_list_ascii_of_string.
Qed.

(** ** crypto/hmac computes the HMAC of RFC 2104 *)

Lemma hmac_is_rfc2104 (key data : list Z) :
  HMAC.Sum_nil (HMAC.Write (HMAC.New key) data) = HMAC.rfc2104 key data.
Proof.
  unfold HMAC.Sum_nil, HMAC.Write, HMAC.New, HMAC.rfc2104.
  unfold SHA1.Write, SHA1.New, SHA1.Sum_nil.
  destruct (SHA1.BlockSize <? Z.of_nat (List.length key));
    cbn [HMAC.inner HMAC.opad HMAC.ipad HMAC.outer app]; reflexivity.
Qed.

(** ** encoding/hex and the digest of SHA-1 *)

Lemma hex_digit_lower (i : Z) :
  0 <= i < 16 -> isLowerHex (Hex.digit i) = true.
Proof.
  intros Hi.
  assert (H : forallb (fun n => isLowerHex (Hex.digit (Z.of_nat n)))
                (seq 0 16) = true) by (vm_compute; reflexivity).
  rewrite forallb_forall in H.
  specialize (H (Z.to_nat i)). rewrite Z2Nat.id in H by lia.
  apply H, in_seq. lia.
Qed.

Lemma Hex_Encode_lower (src : list Z) :
  Forall Bytes.is_byte src ->
  Forall (fun c => isLowerHex c = true) (Hex.Encode src).
Proof.
  induction 1 as [ | v rest Hv _ IH]; cbn [Hex.Encode].
  - constructor.
  - unfold Bytes.is_byte in Hv.
    constructor; [ | constructor; [ | exact IH ] ]; apply hex_digit_lower.
    + rewrite Z.shiftr_div_pow2 by lia. change (2 ^ 4) with 16.
      Z.div_mod_to_equations. lia.
    + rewrite land_15. apply Z.mod_pos_bound. lia.
Qed.

Lemma Hex_Encode_length (src : list Z) :
  List.length (Hex.Encode src) = (2 * List.length src)%nat.
Proof.
  induction src as [ | v rest IH]; cbn [Hex.Encode List.length].
  - reflexivity.
  - rewrite IH. lia.
Qed.

Lemma be_bytes4 (x : Z) :
  SHA1.be_bytes 4 x
  = [Z.land (Z.shiftr x 24) 255; Z.land (Z.shiftr x 16) 255;
     Z.land (Z.shiftr x 8) 255; Z.land (Z.shiftr x 0) 255].
Proof. reflexivity. Qed.

Lemma SHA1_Sum_shape (msg : list Z) :
  Forall Bytes.is_byte (SHA1.Sum msg) /\ List.length (SHA1.Sum msg) = 20%nat.
Proof.
  unfold SHA1.Sum.
  destruct (SHA1.blocks _ _ _) as [[[[h0 h1] h2] h3] h4].
  cbn [flat_map]. rewrite !be_bytes4. cbn [app]. split.
  - repeat constructor; rewrite land_255; apply Z.mod_pos_bound; lia.
  - reflexivity.
Qed.

Lemma sign_rfc2104 (data secret : string) :
  sign data secret
  = Hex.EncodeToString
      (HMAC.rfc2104 (Bytes.of_string secret) (Bytes.of_string data)).
Proof. unfold sign. rewrite hmac_is_rfc2104. reflexivity. Qed.

Lemma length_string_of_list_ascii (l : list ascii) :
  String.length (string_of_list_ascii l) = List.length l.
Proof.
  induction l as [ | c l IH]; cbn; [ reflexivity | rewrite IH; reflexivity ].
Qed.

Lemma rfc2104_shape (key text : list Z) :
  Forall Bytes.is_byte (HMAC.rfc2104 key text)
  /\ List.length (HMAC.rfc2104 key text) = 20%nat.
Proof. unfold HMAC.rfc2104. apply SHA1_Sum_shape. Qed.

(** C4.  The signature of [data] under [secret] is the hexadecimal encoding,
    in 40 lowercase digits, of the HMAC of RFC 2104 with SHA-1 as the hash,
    [secret] as the key and [data] as the message; the comparison of the
    callback processor accepts the signature itself and no other string. *)
Theorem C4_sign_is_hex_hmac_sha1_and_verify_is_equality
    (data secret candidate : string) :
  sign data secret
  = Hex.EncodeToString
      (HMAC.rfc2104 (Bytes.of_string secret) (Bytes.of_string data))
  /\ String.length (sign data secret) = 40%nat
  /\ Forall (fun c => isLowerHex c = true)
            (list_ascii_of_string (sign data secret))
  /\ verify data secret (sign data secret) = true
  /\ (verify data secret candidate = true <-> candidate = sign data secret).
Proof.
  destruct (rfc2104_shape (Bytes.of_string secret) (Bytes.of_string data))
    as [Hbytes Hlen].
  split; [ apply sign_rfc2104 | ].
  unfold verify. rewrite sign_rfc2104. unfold Hex.EncodeToString.
  repeat split.
  - rewrite length_string_of_list_ascii, Hex_Encode_length, Hlen. reflexivity.
  - rewrite list_ascii_of_string_of_list_ascii.
    apply Hex_Encode_lower, Hbytes.
  - apply String.eqb_refl.
  - apply String.eqb_eq.
  - apply String.eqb_eq.
Qed.

Lemma C4_witness :
  verify "encoded" "secret" "72acc627ba401e4077e0f19af69c52b9b7b35491" = true.
Proof.
  apply (C4_sign_is_hex_hmac_sha1_and_verify_is_equality
           "encoded" "secret" "72acc627ba401e4077e0f19af69c52b9b7b35491").
  vm_compute. reflexivity.
Defined.

(** ** The request encoder *)

Lemma append_assoc (a b c : string) : (a +++ b) +++ c = a +++ (b +++ c).
Proof.
  induction a as [ | x a IH]; cbn; [ reflexivity | rewrite IH; reflexivity ].
Qed.

Lemma append_nil_r (a : string) : a +++ "" = a.
Proof.
  induction a as [ | x a IH]; cbn; [ reflexivity | rewrite IH; reflexivity ].
Qed.

(** With valid mandatory fields, [encode] stores the base64 of
    [encodedText] and returns no error. *)
Lemma encode_valid (p : PaymentRequest.t) :
  mandatoryValid p = true ->
  PaymentRequest.encode p
  = (PaymentRequest.set_encoded p
       (Base64.EncodeToString (Bytes.of_string (encodedText p))), None).
Proof.
  unfold mandatoryValid, PaymentRequest.encode. intros H.
  apply andb_prop in H. destruct H as [H Htime].
  apply andb_prop in H. destruct H as [H Hamount].
  apply andb_prop in H. destruct H as [Hcin Hinv].
  apply negb_true_iff in Hcin, Hamount, Htime.
  apply Z.ltb_lt in Hinv.
  rewrite Hcin, Hamount, Htime.
  replace (PaymentRequest.Invoice p <=? 0) with false
    by (symmetry; apply Z.leb_gt; exact Hinv).
  cbv zeta. do 3 f_equal.
  unfold encodedText, optionalLine, line.
  destruct (PaymentRequest.Currency p =? "")%string;
    destruct (PaymentRequest.Language p =? "")%string;
    destruct (PaymentRequest.Description p =? "")%string;
    cbn [negb]; rewrite ?append_assoc, ?append_nil_r; reflexivity.
Qed.

(** With an invalid mandatory field, [encode] returns the error of the
    first check that fails and the request as it was. *)
Lemma encode_invalid (p : PaymentRequest.t) :
  mandatoryValid p = false ->
  exists msg,
    PaymentRequest.encode p = (p, Some (errorString msg))
    /\ In msg ["CIN is empty"; "Invoice is invalid"; "Amount is invalid";
               "Expiration time is invalid"].
Proof.
  unfold mandatoryValid, PaymentRequest.encode. intros H.
  destruct (PaymentRequest.cin p =? "")%string;
    [ eexists; split; [ reflexivity | cbn; tauto ] | ].
  destruct (Z.leb_spec (PaymentRequest.Invoice p) 0) as [Hle | Hgt];
    [ eexists; split; [ reflexivity | cbn; tauto ] | ].
  destruct (Float64.lt (PaymentRequest.Amount p) Float64.c0_01);
    [ eexists; split; [ reflexivity | cbn; tauto ] | ].
  destruct (Time.IsZero (PaymentRequest.ExpirationTime p));
    [ eexists; split; [ reflexivity | cbn; tauto ] | ].
  apply Z.ltb_lt in Hgt. rewrite Hgt in H. discriminate H.
Qed.

Lemma mandatoryValid_false_iff (p : PaymentRequest.t) :
  mandatoryValid p = false <->
  (PaymentRequest.cin p = ""
   \/ PaymentRequest.Invoice p <= 0
   \/ Float64.lt (PaymentRequest.Amount p) Float64.c0_01 = true
   \/ Time.IsZero (PaymentRequest.ExpirationTime p) = true).
Proof.
  unfold mandatoryValid.
  rewrite !andb_false_iff, !negb_false_iff, String.eqb_eq, Z.ltb_ge.
  tauto.
Qed.

(** Decoding what [encode] stored gives back the text. *)
Lemma encode_roundtrip (p : PaymentRequest.t) :
  mandatoryValid p = true ->
  exists p',
    PaymentRequest.encode p = (p', None)
    /\ Base64.DecodeString (PaymentRequest.encoded p')
       = (Bytes.of_string (encodedText p), None)
    /\ Bytes.to_string (fst (Base64.DecodeString (PaymentRequest.encoded p')))
       = encodedText p.
Proof.
  intros Hv. eexists. split; [ apply encode_valid, Hv | ].
  cbn [PaymentRequest.set_encoded PaymentRequest.encoded].
  rewrite DecodeString_EncodeToString by apply of_string_bytes.
  split; [ reflexivity | apply to_string_of_string ].
Qed.

(** Without a description the text is the canonical one. *)
Lemma encodedText_canonical (p : PaymentRequest.t) :
  PaymentRequest.Description p = "" -> encodedText p = canonicalText p.
Proof.
  intros Hd. unfold encodedText, canonicalText. rewrite Hd. reflexivity.
Qed.

Lemma append_cancel_l (a b c : string) : a +++ b = a +++ c -> b = c.
Proof.
  induction a as [ | x a IH]; cbn; intros H.
  - exact H.
  - injection H as H. apply IH, H.
Qed.

(** A description makes the text differ from the canonical one. *)
Lemma encodedText_not_canonical (p : PaymentRequest.t) :
  PaymentRequest.Description p <> "" -> encodedText p <> canonicalText p.
Proof.
  intros Hd Heq. unfold encodedText, canonicalText in Heq.
  do 6 apply append_cancel_l in Heq.
  unfold optionalLine in Heq.
  destruct (PaymentRequest.Description p =? "")%string eqn:E.
  - apply String.eqb_eq in E. contradiction.
  - cbn in Heq. discriminate Heq.
Qed.

(** C3.  For a request with valid mandatory fields and a description,
    [encode] succeeds and the base64 decoding of what it stores is the text
    with the description under the key [LANGUAGE]: it is not the canonical
    text, which has the description under [DESCRIPTION]. *)
Theorem C3_description_written_under_LANGUAGE (p : PaymentRequest.t) :
  mandatoryValid p = true ->
  PaymentRequest.Description p <> "" ->
  exists p',
    PaymentRequest.encode p = (p', None)
    /\ Bytes.to_string (fst (Base64.DecodeString (PaymentRequest.encoded p')))
       = encodedText p
    /\ encodedText p <> canonicalText p.
Proof.
  intros Hv Hd.
  destruct (encode_roundtrip p Hv) as [p' [He [_ Ht]]].
  exists p'. repeat split; [ exact He | exact Ht | ].
  apply encodedText_not_canonical, Hd.
Qed.

Lemma C3_failing_request :
  exists p',
    PaymentRequest.encode request55 = (p', None)
    /\ Bytes.to_string (fst (Base64.DecodeString (PaymentRequest.encoded p')))
       = line "MIN" "123" +++ line "INVOICE" "55" +++ line "AMOUNT" "12.50"
         +++ line "EXP_TIME" "05.03.2024 14:30:00" +++ line "CURRENCY" "EUR"
         +++ line "LANGUAGE" "en" +++ line "LANGUAGE" "x"
    /\ encodedText request55 <> canonicalText request55.
Proof.
  apply (C3_description_written_under_LANGUAGE request55).
  - vm_compute. reflexivity.
  - discriminate.
Defined.

(** ** strconv: parsing what was formatted *)

Lemma uintValue_le (u : Decimal.uint) (acc : Z) :
  0 <= acc -> acc <= uintValue u acc.
Proof.
  revert acc. induction u; intros acc Hacc; cbn [uintValue];
    [ lia | .. ];
    match goal with
    | |- _ <= uintValue _ ?a => specialize (IHu a); lia
    end.
Qed.

Lemma parseDigits_step (c : ascii) (rest : string) (n k : Z) :
  Strconv.isDigit c = true ->
  Bytes.byte_of c - 48 = k ->
  0 <= n -> 0 <= k -> n * 10 + k <= Strconv.maxUint64 ->
  Strconv.parseDigits (String c rest) n
  = Strconv.parseDigits rest (n * 10 + k).
Proof.
  intros Hc Hk Hn Hk0 Hmax. cbn [Strconv.parseDigits].
  rewrite Hc, Hk.
  assert (Hcut : (Strconv.maxUint64 / 10 + 1 <=? n) = false).
  { apply Z.leb_gt. unfold Strconv.maxUint64 in *.
    change (2 ^ 64 - 1) with 18446744073709551615 in *.
    Z.div_mod_to_equations. lia. }
  rewrite Hcut.
  replace (Strconv.maxUint64 <? n * 10 + k) with false
    by (symmetry; apply Z.ltb_ge; exact Hmax).
  reflexivity.
Qed.

Lemma parseDigits_uint (u : Decimal.uint) (n : Z) :
  0 <= n -> uintValue u n <= Strconv.maxUint64 ->
  Strconv.parseDigits (NilEmpty.string_of_uint u) n = (uintValue u n, None).
Proof.
  revert n.
  induction u; intros n Hn Hmax;
    cbn [uintValue NilEmpty.string_of_uint] in *;
    [ reflexivity | .. ];
    match goal with
    | H : uintValue _ (_ * 10 + ?k) <= _ |- _ =>
        pose proof (uintValue_le u (n * 10 + k) ltac:(lia));
        rewrite (parseDigits_step _ _ n k);
          [ apply IHu; lia | reflexivity | reflexivity | lia | lia | lia ]
    end.
Qed.

Lemma uintValue_pos (u : Decimal.uint) (acc : positive) :
  uintValue u (Z.pos acc) = Z.pos (Pos.of_uint_acc u acc).
Proof.
  revert acc. induction u; intros acc; cbn [uintValue Pos.of_uint_acc];
    [ reflexivity | .. ];
    match goal with
    | |- uintValue _ ?a = Z.pos (Pos.of_uint_acc _ ?b) =>
        replace a with (Z.pos b) by lia; apply IHu
    end.
Qed.

Lemma uintValue_N (u : Decimal.uint) :
  uintValue u 0 = Z.of_N (Pos.of_uint u).
Proof.
  induction u; cbn [uintValue Pos.of_uint]; [ reflexivity | exact IHu | .. ];
    match goal with
    | |- uintValue _ ?a = Z.of_N (N.pos (Pos.of_uint_acc _ ?b)) =>
        change a with (Z.pos b); apply uintValue_pos
    end.
Qed.

Lemma to_uint_value (p : positive) : uintValue (Pos.to_uint p) 0 = Z.pos p.
Proof. rewrite uintValue_N, DecimalPos.Unsigned.of_to. reflexivity. Qed.

Lemma to_uint_not_Nil (p : positive) : Pos.to_uint p <> Decimal.Nil.
Proof.
  intros H. pose proof (DecimalPos.Unsigned.of_to p) as E.
  rewrite H in E. discriminate E.
Qed.

Lemma FormatInt_pos (p : positive) :
  Strconv.FormatInt (Z.pos p) = NilEmpty.string_of_uint (Pos.to_uint p).
Proof.
  unfold Strconv.FormatInt.
  cbn [Z.to_int NilZero.string_of_int]. unfold NilZero.string_of_uint.
  pose proof (to_uint_not_Nil p).
  destruct (Pos.to_uint p); [ contradiction | reflexivity .. ].
Qed.

Lemma FormatInt_neg (p : positive) :
  Strconv.FormatInt (Z.neg p)
  = String "-" (NilEmpty.string_of_uint (Pos.to_uint p)).
Proof.
  unfold Strconv.FormatInt.
  cbn [Z.to_int NilZero.string_of_int]. unfold NilZero.string_of_uint.
  pose proof (to_uint_not_Nil p).
  destruct (Pos.to_uint p); [ contradiction | reflexivity .. ].
Qed.

(** The digits of a positive number: a string that is not empty and starts
    with a digit. *)
Lemma string_of_uint_head (u : Decimal.uint) :
  u <> Decimal.Nil ->
  exists c rest,
    NilEmpty.string_of_uint u = String c rest /\ Strconv.isDigit c = true.
Proof.
  intros Hu. destruct u; [ contradiction | .. ];
    cbn [NilEmpty.string_of_uint]; do 2 eexists; split; reflexivity.
Qed.

Lemma ParseUint_digits (p : positive) :
  Z.pos p <= Strconv.maxUint64 ->
  Strconv.ParseUint (NilEmpty.string_of_uint (Pos.to_uint p))
  = (Z.pos p, None).
Proof.
  intros Hmax. unfold Strconv.ParseUint.
  destruct (string_of_uint_head _ (to_uint_not_Nil p)) as [c [rest [E _]]].
  rewrite E at 1. cbn [String.eqb].
  rewrite parseDigits_uint; rewrite ?to_uint_value; try lia.
  reflexivity.
Qed.

(** [ParseUint] reads back what [%d] printed of a [uint64]. *)
Lemma ParseUint_FormatInt (n : Z) :
  0 <= n <= Strconv.maxUint64 ->
  Strconv.ParseUint (Strconv.FormatInt n) = (n, None).
Proof.
  intros Hn. destruct n as [ | p | p]; [ reflexivity | | lia ].
  rewrite FormatInt_pos. apply ParseUint_digits. lia.
Qed.

(** [ParseInt] reads back what [%d] printed of an [int64]. *)
Lemma ParseInt_FormatInt (n : Z) :
  - 2 ^ 63 <= n < 2 ^ 63 ->
  Strconv.ParseInt (Strconv.FormatInt n) = (n, None).
Proof.
  intros Hn. destruct n as [ | p | p]; [ reflexivity | | ].
  - rewrite FormatInt_pos.
    destruct (string_of_uint_head _ (to_uint_not_Nil p)) as [c [rest [E Hc]]].
    unfold Strconv.ParseInt. rewrite E.
    assert (Hplus : Ascii.eqb c "+" = false).
    { destruct (Ascii.eqb_spec c "+") as [-> | ]; [ discriminate Hc | reflexivity ]. }
    assert (Hminus : Ascii.eqb c "-" = false).
    { destruct (Ascii.eqb_spec c "-") as [-> | ]; [ discriminate Hc | reflexivity ]. }
    rewrite Hplus, Hminus. rewrite <- E.
    rewrite ParseUint_digits by (unfold Strconv.maxUint64; lia).
    cbn [negb andb].
    replace (2 ^ 63 <=? Z.pos p) with false
      by (symmetry; apply Z.leb_gt; lia).
    reflexivity.
  - rewrite FormatInt_neg. unfold Strconv.ParseInt.
    change (Ascii.eqb "-" "+") with false.
    change (Ascii.eqb "-" "-") with true. cbv iota.
    rewrite ParseUint_digits by (unfold Strconv.maxUint64; lia).
    cbn [negb andb].
    replace (2 ^ 63 <? Z.pos p) with false
      by (symmetry; apply Z.ltb_ge; lia).
    reflexivity.
Qed.


(** ** The decimal numeral that [%d] prints *)

Lemma pow2_succ (k : nat) : 2 ^ Z.of_nat (S k) = 2 * 2 ^ Z.of_nat k.
Proof. rewrite Nat2Z.inj_succ, Z.pow_succ_r by lia. reflexivity. Qed.

(** More fuel than the number has binary digits changes nothing. *)
Lemma decimalDigits_fuel (f f' : nat) (n : Z) :
  0 <= n < 2 ^ Z.of_nat (S f) -> n < 2 ^ Z.of_nat (S f') ->
  decimalDigits (S f) n = decimalDigits (S f') n.
Proof.
  revert f' n. induction f as [ | f IH]; intros f' n Hn Hn'.
  - change (2 ^ Z.of_nat 1) with 2 in Hn.
    cbn [decimalDigits].
    replace (n <? 10) with true by (symmetry; apply Z.ltb_lt; lia).
    reflexivity.
  - cbn [decimalDigits].
    destruct (Z.ltb_spec n 10) as [Hlt | Hge]; [ reflexivity | ].
    f_equal.
    destruct f' as [ | f''].
    + change (2 ^ Z.of_nat 1) with 2 in Hn'. lia.
    + rewrite pow2_succ in Hn, Hn'.
      pose proof (Z.pow_pos_nonneg 2 (Z.of_nat (S f)) ltac:(lia) ltac:(lia)).
      pose proof (Z.pow_pos_nonneg 2 (Z.of_nat (S f'')) ltac:(lia) ltac:(lia)).
      apply IH; Z.div_mod_to_equations; lia.
Qed.

Lemma decimalDigits_small (f : nat) (n : Z) :
  0 <= n < 10 -> decimalDigits (S f) n = String (decimalDigit n) "".
Proof.
  intros Hn. cbn [decimalDigits].
  replace (n <? 10) with true by (symmetry; apply Z.ltb_lt; lia).
  rewrite Z.mod_small by lia. reflexivity.
Qed.

(** The numeral of a number of two digits or more: the numeral of its
    tenth, and its last digit. *)
Lemma decimalDigits_step (n : Z) :
  10 <= n ->
  decimalDigits (S (Z.to_nat (Z.log2 n))) n
  = decimalDigits (S (Z.to_nat (Z.log2 (n / 10)))) (n / 10)
    +++ String (decimalDigit (n mod 10)) "".
Proof.
  intros Hn.
  pose proof (Z.log2_spec n ltac:(lia)) as [Hlo Hhi].
  assert (Hq : 1 <= n / 10) by (Z.div_mod_to_equations; lia).
  pose proof (Z.log2_spec (n / 10) ltac:(lia)) as [Hqlo Hqhi].
  assert (Hl : 3 <= Z.log2 n).
  { apply Z.log2_le_pow2; [ lia | ]. change (2 ^ 3) with 8. lia. }
  pose proof (Z.log2_nonneg (n / 10)) as Hql.
  destruct (Z.to_nat (Z.log2 n)) as [ | k] eqn:Ek; [ lia | ].
  cbn [decimalDigits].
  replace (n <? 10) with false by (symmetry; apply Z.ltb_ge; lia).
  f_equal.
  assert (Hk : Z.of_nat (S k) = Z.log2 n) by lia.
  apply decimalDigits_fuel.
  - rewrite Hk. replace (Z.succ (Z.log2 n)) with (Z.log2 n + 1) in Hhi by lia.
    rewrite Z.pow_add_r in Hhi by lia. change (2 ^ 1) with 2 in Hhi.
    Z.div_mod_to_equations. lia.
  - rewrite Nat2Z.inj_succ, Z2Nat.id by lia. exact Hqhi.
Qed.

(** The numeral of the value of a numeral: the digits read so far, then
    the digits that follow. *)
Lemma decimalDigits_uint (u : Decimal.uint) (acc : Z) :
  0 < acc ->
  decimalDigits (S (Z.to_nat (Z.log2 (uintValue u acc)))) (uintValue u acc)
  = decimalDigits (S (Z.to_nat (Z.log2 acc))) acc
    +++ NilEmpty.string_of_uint u.
Proof.
  revert acc.
  induction u; intros acc Hacc; cbn [uintValue NilEmpty.string_of_uint];
    [ symmetry; apply append_nil_r | .. ];
    match goal with
    | |- context [uintValue _ (acc * 10 + ?k)] =>
        rewrite IHu by lia;
        rewrite (decimalDigits_step (acc * 10 + k)) by lia;
        replace ((acc * 10 + k) / 10) with acc
          by (Z.div_mod_to_equations; lia);
        replace ((acc * 10 + k) mod 10) with k
          by (Z.div_mod_to_equations; lia);
        rewrite append_assoc; reflexivity
    end.
Qed.

(** The numeral of a positive number has no zero in front. *)
Lemma to_uint_head (p : positive) :
  match Pos.to_uint p with
  | Decimal.Nil | Decimal.D0 _ => False
  | _ => True
  end.
Proof.
  pose proof (DecimalPos.Unsigned.to_of (Pos.to_uint p)) as Hnorm.
  rewrite DecimalPos.Unsigned.of_to in Hnorm. cbn [N.to_uint] in Hnorm.
  pose proof (DecimalPos.Unsigned.to_uint_nonzero p) as Hnz.
  pose proof (to_uint_not_Nil p) as Hnil.
  destruct (Pos.to_uint p) as [ | u | u | u | u | u | u | u | u | u | u ];
    try exact I; [ contradiction | ].
  unfold Decimal.unorm in Hnorm. cbn [Decimal.nzhead] in Hnorm.
  pose proof (DecimalFacts.nzhead_nonzero u u) as Hhead.
  destruct (Decimal.nzhead u); try discriminate;
    injection Hnorm as Hu; subst u;
    first [ apply Hnz; reflexivity | apply Hhead; reflexivity ].
Qed.

Lemma FormatInt_decimalDigits (p : positive) :
  NilEmpty.string_of_uint (Pos.to_uint p)
  = decimalDigits (S (Z.to_nat (Z.log2 (Z.pos p)))) (Z.pos p).
Proof.
  pose proof (to_uint_value p) as Hv. pose proof (to_uint_head p) as Hh.
  rewrite <- Hv.
  destruct (Pos.to_uint p) as [ | u | u | u | u | u | u | u | u | u | u ];
    try contradiction;
    cbn [uintValue NilEmpty.string_of_uint];
    rewrite decimalDigits_uint by lia; reflexivity.
Qed.

(** [%d] prints the decimal numeral. *)
Lemma Fmt_d_decimal (n : Z) : Fmt.d n = decimal n.
Proof.
  unfold Fmt.d, decimal. destruct n as [ | p | p].
  - reflexivity.
  - rewrite FormatInt_pos. cbn [Z.ltb Z.compare]. apply FormatInt_decimalDigits.
  - rewrite FormatInt_neg. cbn [Z.ltb Z.compare Z.opp]. f_equal.
    apply FormatInt_decimalDigits.
Qed.

(** ** The amount *)

Lemma hundredths_nonneg (m : positive) (e : Z) : 0 <= Fmt.hundredths m e.
Proof.
  unfold Fmt.hundredths.
  destruct (Z.leb_spec 0 e) as [He | He].
  - pose proof (Z.pow_nonneg 2 e). nia.
  - assert (Hden : 0 < 2 ^ (- e)) by (apply Z.pow_pos_nonneg; lia).
    assert (Hq : 0 <= Z.pos m * 100 / 2 ^ (- e))
      by (apply Z.div_pos; lia).
    destruct (2 * ((Z.pos m * 100) mod 2 ^ (- e)) ?= 2 ^ (- e));
      [ destruct (Z.even _) | | ]; lia.
Qed.

Lemma digit_char (k : Z) :
  0 <= k <= 9 -> Strconv.isDigit (Bytes.char_of (48 + k)) = true.
Proof.
  intros Hk.
  assert (H : forallb (fun n => Strconv.isDigit
                                  (Bytes.char_of (48 + Z.of_nat n)))
                (seq 0 10) = true) by (vm_compute; reflexivity).
  rewrite forallb_forall in H.
  specialize (H (Z.to_nat k)). rewrite Z2Nat.id in H by lia.
  apply H, in_seq. lia.
Qed.

Lemma string_of_uint_digits (u : Decimal.uint) :
  Forall (fun c => Strconv.isDigit c = true)
    (list_ascii_of_string (NilEmpty.string_of_uint u)).
Proof.
  induction u; cbn [NilEmpty.string_of_uint list_ascii_of_string];
    constructor; (reflexivity || assumption).
Qed.

Lemma FormatInt_digits (n : Z) :
  0 <= n ->
  Forall (fun c => Strconv.isDigit c = true)
    (list_ascii_of_string (Strconv.FormatInt n)).
Proof.
  intros Hn. unfold Strconv.FormatInt.
  destruct n as [ | q | q]; [ | | lia ].
  - repeat constructor.
  - cbn [Z.to_int NilZero.string_of_int].
    unfold NilZero.string_of_uint.
    destruct (Pos.to_uint q); try apply string_of_uint_digits.
    repeat constructor.
Qed.

(** [%.2f] of a finite number: a sign for a negative one, digits, a point
    and two digits. *)
Lemma f2_finite_shape (s : bool) (m : positive) (e : Z) :
  exists (n : Z) (d1 d2 : ascii),
    0 <= n
    /\ Forall (fun c => Strconv.isDigit c = true)
         (list_ascii_of_string (Fmt.d n))
    /\ Strconv.isDigit d1 = true /\ Strconv.isDigit d2 = true
    /\ Fmt.f2 (S754_finite s m e)
       = (if s then "-" else "") +++ Fmt.d n +++ "."
         +++ String d1 (String d2 "").
Proof.
  pose proof (hundredths_nonneg m e) as Hh.
  set (h := Fmt.hundredths m e) in *.
  assert (Hr : 0 <= h mod 100 < 100) by (apply Z.mod_pos_bound; lia).
  exists (h / 100), (Bytes.char_of (48 + h mod 100 / 10)),
         (Bytes.char_of (48 + (h mod 100) mod 10)).
  assert (Hn : 0 <= h / 100) by (apply Z.div_pos; lia).
  split; [ exact Hn | ].
  split; [ apply FormatInt_digits, Hn | ].
  split; [ apply digit_char; Z.div_mod_to_equations; lia | ].
  split; [ apply digit_char; Z.div_mod_to_equations; lia | ].
  reflexivity.
Qed.

(** [%.2f] rounds to the nearest hundredth, a tie to the even one. *)
Lemma hundredths_nearest (m : positive) (e : Z) :
  nearestHundredths m e (Fmt.hundredths m e) = true.
Proof.
  unfold nearestHundredths, Fmt.hundredths. cbv zeta.
  destruct (Z.leb_spec 0 e) as [He | He].
  - rewrite (Z.max_l e 0), (Z.max_r (- e) 0) by lia.
    change (2 ^ 0) with 1.
    replace (Z.pos m * 2 ^ e * 100 * 1 - 100 * Z.pos m * 2 ^ e) with 0
      by ring.
    reflexivity.
  - rewrite (Z.max_r e 0), (Z.max_l (- e) 0) by lia.
    change (2 ^ 0) with 1.
    assert (Hden : 0 < 2 ^ (- e)) by (apply Z.pow_pos_nonneg; lia).
    set (den := 2 ^ (- e)) in *.
    pose proof (Z.div_mod (Z.pos m * 100) den ltac:(lia)) as Hdm.
    pose proof (Z.mod_pos_bound (Z.pos m * 100) den Hden) as Hr.
    set (q := Z.pos m * 100 / den) in *.
    set (r := (Z.pos m * 100) mod den) in *.
    destruct (Z.compare_spec (2 * r) den) as [Heq | Hlt | Hgt].
    + destruct (Z.even q) eqn:Hq.
      * replace (q * den - 100 * Z.pos m * 1) with (- r) by lia.
        rewrite Z.abs_opp, Z.abs_eq by lia.
        rewrite Heq, Z.eqb_refl, Hq. apply orb_true_r.
      * replace ((q + 1) * den - 100 * Z.pos m * 1) with (den - r) by lia.
        rewrite Z.abs_eq by lia.
        replace (2 * (den - r)) with den by lia.
        rewrite Z.eqb_refl.
        replace (Z.even (q + 1)) with true; [ apply orb_true_r | ].
        rewrite Z.even_add, Hq. reflexivity.
    + replace (q * den - 100 * Z.pos m * 1) with (- r) by lia.
      rewrite Z.abs_opp, Z.abs_eq by lia.
      replace (2 * r <? den) with true by (symmetry; apply Z.ltb_lt; lia).
      reflexivity.
    + replace ((q + 1) * den - 100 * Z.pos m * 1) with (den - r) by lia.
      rewrite Z.abs_eq by lia.
      replace (2 * (den - r) <? den) with true
        by (symmetry; apply Z.ltb_lt; lia).
      reflexivity.
Qed.

Lemma char_of_decimalDigit (k : Z) :
  0 <= k <= 9 -> Bytes.char_of (48 + k) = decimalDigit k.
Proof.
  intros Hk.
  assert (H : k = 0 \/ k = 1 \/ k = 2 \/ k = 3 \/ k = 4 \/ k = 5 \/ k = 6
              \/ k = 7 \/ k = 8 \/ k = 9) by lia.
  repeat (destruct H as [-> | H]; [ reflexivity | ]). subst k. reflexivity.
Qed.

(** [%.2f] of a positive finite number: the numeral of its hundredths. *)
Lemma f2_twoDecimals (m : positive) (e : Z) :
  Fmt.f2 (S754_finite false m e) = twoDecimals (Fmt.hundredths m e).
Proof.
  pose proof (hundredths_nonneg m e) as Hh.
  unfold Fmt.f2, Fmt.fixed2, Fmt.two_digits, twoDecimals.
  set (h := Fmt.hundredths m e) in *.
  rewrite Fmt_d_decimal.
  rewrite !char_of_decimalDigit by (Z.div_mod_to_equations; lia).
  replace ((h mod 100) mod 10) with (h mod 10)
    by (Z.div_mod_to_equations; lia).
  reflexivity.
Qed.

(** [encode] succeeds on the requests with valid mandatory fields only. *)
Lemma encode_success (p p' : PaymentRequest.t) :
  PaymentRequest.encode p = (p', None) ->
  mandatoryValid p = true
  /\ Bytes.to_string (fst (Base64.DecodeString (PaymentRequest.encoded p')))
     = encodedText p.
Proof.
  intros He. destruct (mandatoryValid p) eqn:Hv.
  - split; [ reflexivity | ].
    destruct (encode_roundtrip p Hv) as [q [Hq [_ Hd]]].
    rewrite Hq in He. injection He as <-. exact Hd.
  - destruct (encode_invalid p Hv) as [msg [Hm _]].
    rewrite Hm in He. discriminate He.
Qed.




(** A failed [encode] has an invalid mandatory field and returns the
    request as it was. *)
Lemma encode_error_unchanged (p p' : PaymentRequest.t) (err : error) :
  PaymentRequest.encode p = (p', Some err) ->
  mandatoryValid p = false /\ p' = p.
Proof.
  intros He.
  destruct (mandatoryValid p) eqn:Hv.
  - rewrite (encode_valid p Hv) in He. discriminate He.
  - split; [ reflexivity | ].
    destruct (encode_invalid p Hv) as [msg [Hm _]].
    rewrite Hm in He. injection He as <- _. reflexivity.
Qed.

(** C10.  When [encode] returns an error, a mandatory field is invalid and
    the request is as it was: [encoded] and [checksum] are unchanged. *)
Theorem C10_failed_encode_leaves_request
    (p p' : PaymentRequest.t) (err : error) :
  PaymentRequest.encode p = (p', Some err) ->
  (PaymentRequest.cin p = ""
   \/ PaymentRequest.Invoice p <= 0
   \/ Float64.lt (PaymentRequest.Amount p) Float64.c0_01 = true
   \/ Time.IsZero (PaymentRequest.ExpirationTime p) = true)
  /\ p' = p
  /\ PaymentRequest.encoded p' = PaymentRequest.encoded p
  /\ PaymentRequest.checksum p' = PaymentRequest.checksum p.
Proof.
  intros He.
  destruct (encode_error_unchanged p p' err He) as [Hv ->].
  split; [ apply mandatoryValid_false_iff, Hv | ].
  repeat split.
Qed.

Lemma C10_witness :
  (PaymentRequest.cin requestNoCIN = ""
   \/ PaymentRequest.Invoice requestNoCIN <= 0
   \/ Float64.lt (PaymentRequest.Amount requestNoCIN) Float64.c0_01 = true
   \/ Time.IsZero (PaymentRequest.ExpirationTime requestNoCIN) = true)
  /\ requestNoCIN = requestNoCIN
  /\ PaymentRequest.encoded requestNoCIN = PaymentRequest.encoded requestNoCIN
  /\ PaymentRequest.checksum requestNoCIN
     = PaymentRequest.checksum requestNoCIN.
Proof.
  apply (C10_failed_encode_leaves_request
           requestNoCIN requestNoCIN (errorString "CIN is empty")).
  reflexivity.
Defined.

(** C9.  On a request with no encoded payload, [CalcChecksum] first runs
    [encode].  When that fails, the result is the error of [encode] behind
    the prefix [encoding error: ] and the request as it was, its checksum
    not written; when it succeeds, the checksum is the signature of the new
    payload. *)
Theorem C9_checksum_encodes_first
    (p p' : PaymentRequest.t) (secret : string) :
  PaymentRequest.encoded p = "" ->
  (forall err,
     PaymentRequest.encode p = (p', Some err) ->
     PaymentRequest.CalcChecksum p secret
     = (p, Some (errorString ("encoding error: " +++ Error err)))
     /\ PaymentRequest.checksum
          (fst (PaymentRequest.CalcChecksum p secret))
        = PaymentRequest.checksum p)
  /\ (PaymentRequest.encode p = (p', None) ->
      PaymentRequest.CalcChecksum p secret
      = (PaymentRequest.set_checksum p'
           (sign (Base64.EncodeToString (Bytes.of_string (encodedText p)))
                 secret), None)
      /\ PaymentRequest.encoded p'
         = Base64.EncodeToString (Bytes.of_string (encodedText p))).
Proof.
  intros Hempty. unfold PaymentRequest.CalcChecksum. rewrite Hempty.
  cbn [String.eqb]. split.
  - intros err He.
    destruct (encode_error_unchanged p p' err He) as [_ ->].
    rewrite He. split; reflexivity.
  - intros He. rewrite He.
    destruct (mandatoryValid p) eqn:Hv.
    + rewrite (encode_valid p Hv) in He. injection He as <-.
      split; reflexivity.
    + destruct (encode_invalid p Hv) as [msg [Hm _]].
      rewrite Hm in He. discriminate He.
Qed.

Lemma C9_witness :
  PaymentRequest.CalcChecksum requestNoCIN "secret"
  = (requestNoCIN, Some (errorString "encoding error: CIN is empty"))
  /\ PaymentRequest.checksum
       (fst (PaymentRequest.CalcChecksum requestNoCIN "secret"))
     = "".
Proof.
  apply (proj1 (C9_checksum_encodes_first
                  requestNoCIN requestNoCIN "secret" eq_refl)
               (errorString "CIN is empty")).
  reflexivity.
Defined.

(** ** time: dates and instants *)

Lemma yoe_range (doe : Z) :
  0 <= doe < 146097 ->
  let yoe := (doe - doe / 1460 + doe / 36524 - doe / 146096) / 365 in
  let doy := doe - (365 * yoe + yoe / 4 - yoe / 100) in
  0 <= yoe < 400 /\ 0 <= doy < 366.
Proof.
  intros H. cbv zeta. Z.div_mod_to_equations. lia.
Qed.

(** The month of a date is a month of the year. *)
Lemma civil_month (n : Z) :
  let '(y, m, d) := Time.civil n in 1 <= m <= 12.
Proof.
  unfold Time.civil. cbv zeta.
  set (z := n + 306). set (era := z / 146097).
  set (doe := z - era * 146097).
  assert (Hdoe : 0 <= doe < 146097)
    by (subst doe era; Z.div_mod_to_equations; lia).
  pose proof (yoe_range doe Hdoe) as H. cbv zeta in H.
  set (yoe := (doe - doe / 1460 + doe / 36524 - doe / 146096) / 365) in *.
  set (doy := doe - (365 * yoe + yoe / 4 - yoe / 100)) in *.
  set (mp := (5 * doy + 2) / 153).
  assert (Hmp : 0 <= mp < 12) by (subst mp; Z.div_mod_to_equations; lia).
  destruct (Z.ltb_spec mp 10); lia.
Qed.

(** The day number of the date of a day is that day, and a day of the
    month moved by [k] is the day [k] days later. *)
Lemma dayNumber_civil (n k : Z) :
  let '(y, m, d) := Time.civil n in Time.dayNumber y m (d + k) = n + k.
Proof.
  unfold Time.civil. cbv zeta.
  set (z := n + 306). set (era := z / 146097).
  set (doe := z - era * 146097).
  assert (Hdoe : 0 <= doe < 146097)
    by (subst doe era; Z.div_mod_to_equations; lia).
  pose proof (yoe_range doe Hdoe) as H. cbv zeta in H.
  set (yoe := (doe - doe / 1460 + doe / 36524 - doe / 146096) / 365) in *.
  set (doy := doe - (365 * yoe + yoe / 4 - yoe / 100)) in *.
  set (mp := (5 * doy + 2) / 153).
  assert (Hmp : 0 <= mp < 12) by (subst mp; Z.div_mod_to_equations; lia).
  set (m := if mp <? 10 then mp + 3 else mp - 9).
  assert (Hm : (if 2 <? m then m - 3 else m + 9) = mp).
  { subst m. destruct (Z.ltb_spec mp 10).
    - destruct (Z.ltb_spec 2 (mp + 3)); lia.
    - destruct (Z.ltb_spec 2 (mp - 9)); lia. }
  unfold Time.dayNumber. cbv zeta. rewrite Hm.
  set (y' := if m <=? 2 then yoe + era * 400 + (if m <=? 2 then 1 else 0) - 1
             else yoe + era * 400 + (if m <=? 2 then 1 else 0)).
  assert (Hy : y' = yoe + era * 400)
    by (subst y'; destruct (m <=? 2); lia).
  rewrite Hy.
  assert (He : (yoe + era * 400) / 400 = era)
    by (Z.div_mod_to_equations; lia).
  rewrite He.
  replace (yoe + era * 400 - era * 400) with yoe by lia.
  subst doy doe z. lia.
Qed.

Lemma norm_in_range (hi lo base : Z) :
  0 <= lo < base -> Time.norm hi lo base = (hi, lo).
Proof.
  intros H. unfold Time.norm.
  rewrite Z.div_small, Z.mod_small by exact H. f_equal. lia.
Qed.

(** [Date] of values in their ranges: nothing is carried over. *)
Lemma Date_in_range (year month day hour min ss ns : Z) (l : Time.Location) :
  1 <= month <= 12 -> 0 <= hour < 24 -> 0 <= min < 60 -> 0 <= ss < 60 ->
  0 <= ns < 1000000000 ->
  Time.Date year month day hour min ss ns l
  = let unix := Time.dayNumber year month day * 86400
                + hour * 3600 + min * 60 + ss - Time.unixToInternal in
    Time.mk (unix - Time.dateOffset l unix + Time.unixToInternal) ns l.
Proof.
  intros Hmonth Hhour Hmin Hss Hns. unfold Time.Date.
  rewrite (norm_in_range year (month - 1) 12) by lia.
  rewrite (norm_in_range ss ns) by lia.
  rewrite (norm_in_range min ss) by lia.
  rewrite (norm_in_range hour min) by lia.
  rewrite (norm_in_range day hour) by lia.
  cbv zeta. replace (month - 1 + 1) with month by lia. reflexivity.
Qed.

(** [AddDate(0, 0, days)]: the instant at which the wall clock of the
    location shows the time of day of [x], [days] calendar days later. *)
Lemma AddDays_wall (x : Time.t) (days : Z) :
  0 <= Time.nsec x < 1000000000 ->
  let wall := Time.abs x + days * 86400 in
  Time.AddDays x days
  = Time.mk (wall - Time.dateOffset (Time.loc x)
                      (wall - Time.unixToInternal))
            (Time.nsec x) (Time.loc x).
Proof.
  intros Hns wall. unfold Time.AddDays, Time.AddDate.
  pose proof (civil_month (Time.abs x / 86400)) as Hm.
  pose proof (dayNumber_civil (Time.abs x / 86400) days) as Hd.
  destruct (Time.civil (Time.abs x / 86400)) as [[y m] d].
  cbv zeta.
  assert (Hs : 0 <= Time.abs x mod 86400 < 86400)
    by (apply Z.mod_pos_bound; lia).
  set (s := Time.abs x mod 86400) in *.
  rewrite Date_in_range;
    [ | lia | Z.div_mod_to_equations; lia | Z.div_mod_to_equations; lia
      | Z.div_mod_to_equations; lia | exact Hns ].
  cbv zeta. rewrite !Z.add_0_r, Hd.
  assert (Hw : (Time.abs x / 86400 + days) * 86400 + s / 3600 * 3600
               + s mod 3600 / 60 * 60 + s mod 60 - Time.unixToInternal
               = wall - Time.unixToInternal).
  { subst wall s. Z.div_mod_to_equations. lia. }
  rewrite Hw. f_equal. lia.
Qed.

Lemma dateOffset_FixedZone (offset unix : Z) :
  Time.dateOffset (Time.FixedZone offset) unix = offset.
Proof.
  unfold Time.dateOffset, Time.FixedZone. cbn [Time.lookup].
  destruct (Z.eqb_spec offset 0) as [-> | _]; [ reflexivity | ].
  destruct (_ || _); reflexivity.
Qed.

(** In a zone of a fixed offset, [AddDate(0, 0, days)] is [days] times 24
    hours later. *)
Lemma AddDays_FixedZone (x : Time.t) (days offset : Z) :
  0 <= Time.nsec x < 1000000000 ->
  Time.loc x = Time.FixedZone offset ->
  Time.AddDays x days
  = Time.mk (Time.sec x + days * 86400) (Time.nsec x) (Time.loc x).
Proof.
  intros Hns Hloc. rewrite AddDays_wall by exact Hns. cbv zeta.
  unfold Time.abs, Time.offset. rewrite Hloc, dateOffset_FixedZone.
  cbn [Time.lookup Time.FixedZone fst]. f_equal. lia.
Qed.

(** ** The request builder *)

Lemma applyOptions_app (a b : list PaymentOption) (p : PaymentRequest.t) :
  applyOptions (a ++ b) p
  = match applyOptions a p with
    | (p', None) => applyOptions b p'
    | (p', Some err) => (p', Some err)
    end.
Proof.
  revert p. induction a as [ | o a IH]; intros p; cbn [applyOptions app].
  - reflexivity.
  - destruct (o p) as [p' [err | ]]; [ reflexivity | apply IH ].
Qed.

Lemma applyOptions_all_succeed (options : list PaymentOption)
    (p : PaymentRequest.t) :
  (forall o q, In o options -> snd (o q) = None) ->
  applyOptions options p
  = (fold_left (fun q o => fst (o q)) options p, None).
Proof.
  revert p. induction options as [ | o rest IH]; intros p Hall.
  - reflexivity.
  - cbn [applyOptions fold_left].
    pose proof (Hall o p (or_introl eq_refl)) as Ho.
    destruct (o p) as [p' e]. cbn in Ho. subst e. cbn [fst].
    apply IH. intros o' q Hin. apply Hall. right. exact Hin.
Qed.

Lemma NewPaymentRequest_unfold (api : API.t) (now : Time.t)
    (amount : spec_float) (description : string) (invoice : Z)
    (options : list PaymentOption) :
  NewPaymentRequest api now amount description invoice options
  = match applyOptions options
            (defaultRequest api now amount description invoice) with
    | (_, Some err) => (None, Some err)
    | (p', None) => (Some p', None)
    end.
Proof. reflexivity. Qed.



(** Across the end of summer time the seven days are 169 hours: the
    wall clock shows noon on October 24 and noon on October 31. *)
Example expiration_across_the_end_of_summer_time :
  let expiration :=
    PaymentRequest.ExpirationTime
      (defaultRequest api0 instantSummer (Float64.of_scaled 25 (-1)) "x" 55)
  in
  Time.Format instantSummer = "24.10.2024 12:00:00"
  /\ Time.Format expiration = "31.10.2024 12:00:00"
  /\ Time.sec expiration - Time.sec instantSummer = 169 * 60 * 60.
Proof.
  cbv zeta. repeat split; vm_compute; reflexivity.
Qed.

(** ** The enum parsers *)

(** The only strings for which [LanguageFromString] returns English are the
    ones that are [en] once in lower case and without the spaces around. *)
Lemma LanguageFromString_English (mapUnicodeToLower : string -> string)
    (l : string) :
  LanguageFromString mapUnicodeToLower l = Return (English, None)
  <-> Strings.Trim (Strings.ToLower mapUnicodeToLower l) " " = "en".
Proof.
  unfold LanguageFromString.
  set (lang := Strings.Trim (Strings.ToLower mapUnicodeToLower l) " ").
  split.
  - repeat match goal with
           | |- context [String.eqb lang ?k] =>
               destruct (String.eqb_spec lang k) as [-> | _]
           end; (discriminate || reflexivity || idtac).
  - intros ->. reflexivity.
Qed.

(** The only strings for which [CurrencyFromString] returns EUR are the
    ones that are [eur] once in lower case and without the spaces around. *)
Lemma CurrencyFromString_EUR (mapUnicodeToLower : string -> string)
    (c : string) :
  CurrencyFromString mapUnicodeToLower c = Return (EUR, None)
  <-> Strings.Trim (Strings.ToLower mapUnicodeToLower c) " " = "eur".
Proof.
  unfold CurrencyFromString.
  set (curr := Strings.Trim (Strings.ToLower mapUnicodeToLower c) " ").
  split.
  - repeat match goal with
           | |- context [String.eqb curr ?k] =>
               destruct (String.eqb_spec curr k) as [-> | _]
           end; (discriminate || reflexivity || idtac).
  - intros ->. reflexivity.
Qed.

(** C8.  [LanguageFromString] and [CurrencyFromString] return the value of
    an alias only when it stands in the last [case] before a [return]:
    [en], [bg], [eur], [bgn] and [usd], in any case and between spaces, and
    an error for a string that is no alias.  For the aliases [english],
    [eng], [bulgarian], [bul] and [euro] no [return] is executed. *)
Theorem C8_aliases_with_empty_case_return_nothing
    (mapUnicodeToLower : string -> string) :
  LanguageFromString mapUnicodeToLower "eng" = NoReturn
  /\ LanguageFromString mapUnicodeToLower "english" = NoReturn
  /\ LanguageFromString mapUnicodeToLower "Bulgarian" = NoReturn
  /\ LanguageFromString mapUnicodeToLower "bul" = NoReturn
  /\ CurrencyFromString mapUnicodeToLower "euro" = NoReturn
  /\ LanguageFromString mapUnicodeToLower " EN " = Return (English, None)
  /\ LanguageFromString mapUnicodeToLower "bg" = Return (Bulgarian, None)
  /\ CurrencyFromString mapUnicodeToLower "Eur" = Return (EUR, None)
  /\ CurrencyFromString mapUnicodeToLower "bgn" = Return (BGN, None)
  /\ CurrencyFromString mapUnicodeToLower "USD" = Return (USD, None)
  /\ LanguageFromString mapUnicodeToLower "fr"
     = Return ("", Some (errorString "unsupported language"))
  /\ CurrencyFromString mapUnicodeToLower "gbp"
     = Return ("", Some (errorString "unsupported currrency")).
Proof. repeat split; vm_compute; reflexivity. Qed.

(** ** The callback processor *)

Section CallbackProperties.

Variable Quote : string -> string.
Variable time_Parse : string -> Time.t * option string.

(** After a POST whose form parses, the processor compares the checksum
    with the signature of the payload, decodes, reads the records, calls the
    handler and replies. *)
Lemma handler_post (api : API.t) (f : PaymentHandlerFunc) (r : Http.Request)
    (w : World) :
  Http.Method r = Http.MethodPost ->
  Http.ParseForm r = None ->
  PaymentCallbackHandler Quote time_Parse api f r w
  = if verify (Http.FormValue r "encoded") (API.secret api)
              (Http.FormValue r "checksum")
    then
      match Base64.DecodeString (Http.FormValue r "encoded") with
      | (_, Some (Base64.CorruptInputError off)) =>
          http_Error ("decoding error: "
                      +++ "illegal base64 data at input byte " +++ Fmt.d off)
                     Http.StatusBadRequest w
      | (d, None) =>
          (st <- processParts Quote time_Parse
                   (Strings.Split (Bytes.to_string d) "010")
                   (Payment.zero, "") ;;
           status <- reconcile f (fst st) (snd st) ;;
           WriteHeader Http.StatusOK ;;;
           Write (replyBody (Payment.Invoice (fst st)) status)) w
      end
    else
      (http_Error ("invalid checksum "
                   +++ Quote (Http.FormValue r "checksum"))
                  Http.StatusBadRequest ;;;
       log_Printf ("expected checksum "
                   +++ Quote (sign (Http.FormValue r "encoded")
                                   (API.secret api))
                   +++ ", but got " +++ Quote (Http.FormValue r "checksum")))
      w.
Proof.
  intros Hm Hp. unfold PaymentCallbackHandler, verify, sign.
  rewrite Hm, Hp. cbv zeta.
  change (negb (Http.MethodPost =? Http.MethodPost)%string) with false.
  cbv iota.
  destruct (String.eqb _ _); cbv iota; cbn [negb]; [ | reflexivity ].
  destruct (Base64.DecodeString _) as [d [[off] | ]]; [ reflexivity | ].
  unfold bind.
  destruct (processParts _ _ _ _ w) as [[payment status] w1 | ];
    reflexivity.
Qed.

(** A record that is read without a panic leaves the response and the
    calls of the handler as they were, and sets the status to [ERR] exactly
    when its value fails to parse. *)
Lemma processPart_status (payment : Payment.t) (status part : string)
    (w : World) (payment' : Payment.t) (status' : string) (w' : World) :
  processPart Quote time_Parse (payment, status) part w
  = Done (payment', status') w' ->
  status' = (if recordFails time_Parse part then "ERR" else status)
  /\ response w' = response w
  /\ handled w' = handled w.
Proof.
  unfold processPart, recordFails.
  destruct (Strings.Split part "=") as [ | key [ | value rest]];
    unfold bind, index, ret, panic, log_Printf; cbn [nth_error].
  - discriminate.
  - repeat (destruct (String.eqb key _); [ discriminate | ]).
    intros [= _ <- <-]. repeat split.
  - destruct (String.eqb_spec key "INVOICE") as [-> | _].
    { destruct (Strconv.ParseUint value) as [i [err | ]]; cbn [snd];
        intros [= _ <- <-]; repeat split. }
    destruct (String.eqb_spec key "STATUS") as [-> | _].
    { intros [= _ <- <-]; repeat split. }
    destruct (String.eqb_spec key "PAY_TIME") as [-> | _].
    { destruct (time_Parse value) as [t [err | ]]; cbn [snd];
        intros [= _ <- <-]; repeat split. }
    destruct (String.eqb_spec key "STAN") as [-> | _].
    { destruct (Strconv.ParseInt value) as [i [err | ]]; cbn [snd];
        intros [= _ <- <-]; repeat split. }
    destruct (String.eqb_spec key "BCODE") as [-> | _];
      intros [= _ <- <-]; repeat split.
Qed.

Lemma processParts_status (parts : list string) (payment : Payment.t)
    (status : string) (w : World) (payment' : Payment.t) (status' : string)
    (w' : World) :
  processParts Quote time_Parse parts (payment, status) w
  = Done (payment', status') w' ->
  status' = (if existsb (recordFails time_Parse) parts then "ERR" else status)
  /\ response w' = response w
  /\ handled w' = handled w.
Proof.
  revert payment status w.
  induction parts as [ | part rest IH]; intros payment status w;
    cbn [processParts existsb].
  - unfold ret. intros [= <- <- <-]. repeat split.
  - unfold bind.
    destruct (processPart Quote time_Parse (payment, status) part w)
      as [[payment1 status1] w1 | msg w1] eqn:Hpart; [ | discriminate ].
    intros Hrest.
    apply processPart_status in Hpart. destruct Hpart as [-> [Hr Hh]].
    apply IH in Hrest. destruct Hrest as [-> [Hr' Hh']].
    rewrite Hr', Hr, Hh', Hh.
    destruct (recordFails time_Parse part);
      destruct (existsb (recordFails time_Parse) rest); repeat split.
Qed.

Lemma Split_nonempty (s : string) (sep : ascii) : Strings.Split s sep <> [].
Proof.
  destruct s as [ | c rest]; cbn [Strings.Split]; [ discriminate | ].
  destruct (Ascii.eqb c sep); [ discriminate | ].
  destruct (Strings.Split rest sep); discriminate.
Qed.

(** A record with a recognised key and no equal sign makes the processor
    panic, and no other record does. *)
Lemma processPart_panics (payment : Payment.t) (status part : string)
    (w : World) :
  recordPanics part = true ->
  processPart Quote time_Parse (payment, status) part w
  = Panic "runtime error: index out of range [1] with length 1" w.
Proof.
  unfold processPart, recordPanics.
  destruct (Strings.Split part "=") as [ | key [ | value rest]];
    try discriminate.
  unfold bind, index, ret, panic; cbn [nth_error].
  repeat (destruct (String.eqb key _); [ reflexivity | ]).
  discriminate.
Qed.

Lemma processPart_returns (payment : Payment.t) (status part : string)
    (w : World) :
  recordPanics part = false ->
  exists payment' status' w',
    processPart Quote time_Parse (payment, status) part w
    = Done (payment', status') w'.
Proof.
  unfold processPart, recordPanics.
  pose proof (Split_nonempty part "=") as Hne.
  destruct (Strings.Split part "=") as [ | key [ | value rest]];
    [ contradiction | | ];
    unfold bind, index, ret, panic, log_Printf; cbn [nth_error].
  - repeat (destruct (String.eqb key _); [ discriminate | ]).
    intros _. do 3 eexists. reflexivity.
  - intros _.
    destruct (String.eqb key "INVOICE").
    { destruct (Strconv.ParseUint value) as [i [err | ]];
        do 3 eexists; reflexivity. }
    destruct (String.eqb key "STATUS"); [ do 3 eexists; reflexivity | ].
    destruct (String.eqb key "PAY_TIME").
    { destruct (time_Parse value) as [t [err | ]];
        do 3 eexists; reflexivity. }
    destruct (String.eqb key "STAN").
    { destruct (Strconv.ParseInt value) as [i [err | ]];
        do 3 eexists; reflexivity. }
    destruct (String.eqb key "BCODE"); do 3 eexists; reflexivity.
Qed.

(** The records are read to the end exactly when none of them panics. *)
Lemma processParts_panics_iff (parts : list string) (payment : Payment.t)
    (status : string) (w : World) :
  if existsb recordPanics parts
  then exists w',
         processParts Quote time_Parse parts (payment, status) w
         = Panic "runtime error: index out of range [1] with length 1" w'
  else exists payment' status' w',
         processParts Quote time_Parse parts (payment, status) w
         = Done (payment', status') w'.
Proof.
  revert payment status w.
  induction parts as [ | part rest IH]; intros payment status w;
    cbn [processParts existsb].
  - do 3 eexists. reflexivity.
  - unfold bind. destruct (recordPanics part) eqn:Hp; cbn [orb].
    + rewrite processPart_panics by exact Hp. eexists. reflexivity.
    + destruct (processPart_returns payment status part w Hp)
        as [payment1 [status1 [w1 H1]]].
      rewrite H1. apply IH.
Qed.

(** The call of the handler: none after a parse error, one otherwise, with
    the status of the specification. *)
Lemma reconcile_status (f : PaymentHandlerFunc) (payment : Payment.t)
    (parseErr : bool) (w : World) :
  exists w',
    reconcile f payment (if parseErr then "ERR" else "") w
    = Done (replyStatus parseErr (f payment)) w'
    /\ response w' = response w
    /\ handled w'
       = (if parseErr then handled w else handled w ++ [payment]).
Proof.
  unfold reconcile, replyStatus.
  destruct parseErr; cbn [String.eqb Ascii.eqb negb].
  - eexists. repeat split.
  - unfold bind, call, ret, log_Printf.
    destruct (f payment) as [[ | msg] | ]; cbn [is_ErrInvalidInvoice];
      eexists; repeat split.
Qed.

(** The callback that [callbackOf] builds passes the checksum gate and the
    decoder. *)
Lemma handler_callbackOf (api : API.t) (f : PaymentHandlerFunc)
    (data : string) (w : World) :
  PaymentCallbackHandler Quote time_Parse api f
    (callbackOf (API.secret api) data) w
  = (st <- processParts Quote time_Parse (Strings.Split data "010")
             (Payment.zero, "") ;;
     status <- reconcile f (fst st) (snd st) ;;
     WriteHeader Http.StatusOK ;;;
     Write (replyBody (Payment.Invoice (fst st)) status)) w.
Proof.
  rewrite handler_post by reflexivity.
  change (Http.FormValue (callbackOf (API.secret api) data) "encoded")
    with (Base64.EncodeToString (Bytes.of_string data)).
  change (Http.FormValue (callbackOf (API.secret api) data) "checksum")
    with (sign (Base64.EncodeToString (Bytes.of_string data))
               (API.secret api)).
  unfold verify. rewrite String.eqb_refl.
  rewrite DecodeString_EncodeToString by apply of_string_bytes.
  rewrite to_string_of_string. reflexivity.
Qed.

(** A callback that passes the checksum gate makes the processor panic
    exactly when one of its records has a recognised key and no equal
    sign. *)
Lemma handler_panics_iff (api : API.t) (f : PaymentHandlerFunc)
    (data : string) (w : World) :
  (exists msg w',
     PaymentCallbackHandler Quote time_Parse api f
       (callbackOf (API.secret api) data) w
     = Panic msg w')
  <-> existsb recordPanics (Strings.Split data "010") = true.
Proof.
  rewrite handler_callbackOf. unfold bind at 1.
  pose proof (processParts_panics_iff (Strings.Split data "010")
                Payment.zero "" w) as H.
  destruct (existsb recordPanics (Strings.Split data "010")).
  - destruct H as [w' H]. rewrite H. split; [ reflexivity | ].
    intros _. do 2 eexists. reflexivity.
  - destruct H as [payment' [status' [w' H]]]. rewrite H. cbn [fst snd].
    split; [ | discriminate ].
    intros [msg [w2 Hpanic]]. exfalso.
    unfold reconcile, bind, call, ret, log_Printf, WriteHeader, Write
      in Hpanic.
    destruct (negb (status' =? "ERR")%string);
      [ destruct (f payment') as [[ | m] | ] | ];
      cbn [is_ErrInvalidInvoice] in Hpanic; discriminate Hpanic.
Qed.

(** C1, as the code has it.  For a POST whose checksum is not the signature
    of its payload, the processor does not call the handler and replies
    with the status 400 and the body [invalid checksum], the checksum
    quoted, and a newline. *)
Theorem C1_wrong_checksum_rejected_with_400
    (api : API.t) (f : PaymentHandlerFunc) (r : Http.Request) (w : World) :
  Http.Method r = Http.MethodPost ->
  Http.ParseForm r = None ->
  response w = Http.mkResponse None "" ->
  Http.FormValue r "checksum"
  <> sign (Http.FormValue r "encoded") (API.secret api) ->
  exists w',
    PaymentCallbackHandler Quote time_Parse api f r w = Done tt w'
    /\ handled w' = handled w
    /\ response w'
       = Http.mkResponse (Some Http.StatusBadRequest)
           ("invalid checksum " +++ Quote (Http.FormValue r "checksum")
            +++ Fmt.nl).
Proof.
  intros Hm Hp Hw Hne.
  rewrite handler_post by assumption.
  unfold verify. apply String.eqb_neq in Hne. rewrite Hne.
  unfold http_Error, bind, WriteHeader, Write, log_Printf.
  rewrite Hw. cbn [Http.code Http.body response logged handled].
  eexists. split; [ reflexivity | ].
  cbn [Http.code Http.body response logged handled String.append].
  split; reflexivity.
Qed.

(** C5.  For a POST that passes the checksum gate, whose payload decodes
    and whose records are read without a panic, the reply has the status
    200 and the body [INVOICE=<n>:STATUS=<status>] and a newline, where
    [<n>] is the decimal numeral of the invoice of the payment read.  After
    a parse error the handler is not called and the status is [ERR];
    otherwise the handler is called once, with the payment read, and the
    status is [OK] when it succeeds, [NO] when it returns
    [ErrInvalidInvoice] and [ERR] for any other error. *)
Theorem C5_reply_after_parsing
    (api : API.t) (f : PaymentHandlerFunc) (r : Http.Request) (w : World)
    (d : list Z) (payment : Payment.t) (status : string) (w1 : World) :
  Http.Method r = Http.MethodPost ->
  Http.ParseForm r = None ->
  response w = Http.mkResponse None "" ->
  verify (Http.FormValue r "encoded") (API.secret api)
         (Http.FormValue r "checksum") = true ->
  Base64.DecodeString (Http.FormValue r "encoded") = (d, None) ->
  processParts Quote time_Parse (Strings.Split (Bytes.to_string d) "010")
    (Payment.zero, "") w
  = Done (payment, status) w1 ->
  let parseErr := parseError time_Parse (Bytes.to_string d) in
  exists w',
    PaymentCallbackHandler Quote time_Parse api f r w = Done tt w'
    /\ response w'
       = Http.mkResponse (Some 200)
           ("INVOICE=" +++ decimal (Payment.Invoice payment) +++ ":STATUS="
            +++ replyStatus parseErr (f payment) +++ newline)
    /\ handled w'
       = (if parseErr then handled w else handled w ++ [payment])
    /\ replyStatus parseErr (f payment)
       = (if parseErr then "ERR"
          else match f payment with
               | None => "OK"
               | Some ErrInvalidInvoice => "NO"
               | Some (errorString _) => "ERR"
               end).
Proof.
  intros Hm Hp Hw Hv Hd Hparts parseErr.
  rewrite handler_post by assumption.
  rewrite Hv, Hd. unfold bind at 1. rewrite Hparts. cbn [fst snd].
  apply processParts_status in Hparts. destruct Hparts as [-> [Hr Hh]].
  fold (parseError time_Parse (Bytes.to_string d)). fold parseErr.
  destruct (reconcile_status f payment parseErr w1) as [w2 [Hrec [Hr2 Hh2]]].
  unfold bind. rewrite Hrec.
  unfold WriteHeader, Write. rewrite Hr2, Hr, Hw.
  cbn [Http.code Http.body response logged handled String.append].
  eexists. split; [ reflexivity | ].
  cbn [response handled]. rewrite Hh2, Hh.
  split; [ | repeat split ].
  unfold replyBody. rewrite Fmt_d_decimal. reflexivity.
Qed.

(** C2.  A record [INVOICE] with no equal sign is split into one piece, and
    reading its second piece panics: the processor does not reply.  A
    record [BCODE=A=B] is split at both equal signs: the payment that the
    handler receives has the code [A], and the status of the reply is the
    one of the handler. *)
Theorem C2_record_without_value_panics
    (api : API.t) (f : PaymentHandlerFunc) (w : World) :
  PaymentCallbackHandler Quote time_Parse api f
    (callbackOf (API.secret api) "INVOICE") w
  = Panic "runtime error: index out of range [1] with length 1" w
  /\ (response w = Http.mkResponse None "" ->
      f (Payment.set_Bcode Payment.zero "A") = None ->
      exists w',
        PaymentCallbackHandler Quote time_Parse api f
          (callbackOf (API.secret api) "BCODE=A=B") w
        = Done tt w'
        /\ handled w' = handled w ++ [Payment.set_Bcode Payment.zero "A"]
        /\ response w'
           = Http.mkResponse (Some Http.StatusOK) (replyBody 0 "OK")).
Proof.
  split.
  - rewrite handler_callbackOf. reflexivity.
  - intros Hw Hf. rewrite handler_callbackOf.
    assert (Hparts :
              processParts Quote time_Parse (Strings.Split "BCODE=A=B" "010")
                (Payment.zero, "") w
              = Done (Payment.set_Bcode Payment.zero "A", "") w)
      by reflexivity.
    unfold bind at 1. rewrite Hparts. cbn [fst snd].
    destruct (reconcile_status f (Payment.set_Bcode Payment.zero "A") false w)
      as [w2 [Hrec [Hr Hh]]].
    cbv iota in Hrec. unfold bind. rewrite Hrec.
    unfold replyStatus. rewrite Hf.
    unfold WriteHeader, Write. rewrite Hr, Hw.
    cbn [Http.code Http.body response logged handled String.append].
    eexists. split; [ reflexivity | ].
    cbn [response handled]. rewrite Hh. split; reflexivity.
Qed.

End CallbackProperties.

(** ** The processor on example callbacks *)

Lemma C1_witness :
  exists w',
    PaymentCallbackHandler Strconv.QuoteASCII parseTime api0 acceptAll
      tamperedCallback World0
    = Done tt w'
    /\ handled w' = handled World0
    /\ response w'
       = Http.mkResponse (Some Http.StatusBadRequest)
           ("invalid checksum "
            +++ Strconv.QuoteASCII (Http.FormValue tamperedCallback "checksum")
            +++ Fmt.nl).
Proof.
  apply (C1_wrong_checksum_rejected_with_400
           Strconv.QuoteASCII parseTime api0 acceptAll tamperedCallback World0).
  - reflexivity.
  - reflexivity.
  - reflexivity.
  - vm_compute. discriminate.
Defined.

(** C1, as the claim has it, fails: the payload of [tamperedCallback] is the
    record [INVOICE=55], its checksum is not the signature, and the body of
    the reply is not [INVOICE=<n>:STATUS=ERR] for any [n]. *)
Lemma C1_counterexample :
  Http.Method tamperedCallback = Http.MethodPost
  /\ Http.FormValue tamperedCallback "checksum"
     <> sign (Http.FormValue tamperedCallback "encoded") (API.secret api0)
  /\ exists w',
       PaymentCallbackHandler Strconv.QuoteASCII parseTime api0 acceptAll
         tamperedCallback World0
       = Done tt w'
       /\ forall n : Z,
            Http.body (response w') <> replyBody n "ERR".
Proof.
  split; [ reflexivity | ].
  split; [ vm_compute; discriminate | ].
  eexists. split; [ vm_compute; reflexivity | ].
  intros n H. cbn in H. discriminate H.
Qed.

Lemma C5_witness :
  exists w',
    PaymentCallbackHandler Strconv.QuoteASCII parseTime api0 acceptAll
      (callbackOf "secret" payload55) World0
    = Done tt w'
    /\ response w'
       = Http.mkResponse (Some 200)
           (String.append "INVOICE=55:STATUS=OK" (String "010" EmptyString))
    /\ handled w' = [payment55].
Proof.
  assert (Hv : verify (Http.FormValue (callbackOf "secret" payload55) "encoded")
                 (API.secret api0)
                 (Http.FormValue (callbackOf "secret" payload55) "checksum")
               = true) by (vm_compute; reflexivity).
  assert (Hd : Base64.DecodeString
                 (Http.FormValue (callbackOf "secret" payload55) "encoded")
               = (Bytes.of_string payload55, None))
    by (vm_compute; reflexivity).
  assert (Hparts : processParts Strconv.QuoteASCII parseTime
                     (Strings.Split
                        (Bytes.to_string (Bytes.of_string payload55)) "010")
                     (Payment.zero, "") World0
                   = Done (payment55, "") World0)
    by (vm_compute; reflexivity).
  destruct (C5_reply_after_parsing
              Strconv.QuoteASCII parseTime api0 acceptAll
              (callbackOf "secret" payload55) World0
              (Bytes.of_string payload55) payment55 "" World0
              eq_refl eq_refl eq_refl Hv Hd Hparts)
    as [w' [Hrun [Hresp [Hhandled _]]]].
  exists w'. split; [ exact Hrun | ].
  split.
  - rewrite Hresp. vm_compute. reflexivity.
  - rewrite Hhandled. vm_compute. reflexivity.
Defined.

(** The example of the specification: the reply to [payload55] is
    [INVOICE=55:STATUS=OK]. *)
Example reply_payload55 :
  PaymentCallbackHandler Strconv.QuoteASCII parseTime api0 acceptAll
    (callbackOf "secret" payload55) World0
  = Done tt
      (mkWorld (Http.mkResponse (Some 200) ("INVOICE=55:STATUS=OK" +++ Fmt.nl))
               [] [payment55]).
Proof. vm_compute. reflexivity. Qed.

Lemma C2_witness :
  exists w',
    PaymentCallbackHandler Strconv.QuoteASCII parseTime api0 acceptAll
      (callbackOf (API.secret api0) "BCODE=A=B") World0
    = Done tt w'
    /\ handled w' = handled World0 ++ [Payment.set_Bcode Payment.zero "A"]
    /\ response w'
       = Http.mkResponse (Some Http.StatusOK) (replyBody 0 "OK").
Proof.
  apply (proj2 (C2_record_without_value_panics
                  Strconv.QuoteASCII parseTime api0 acceptAll World0)).
  - reflexivity.
  - reflexivity.
Defined.

(** ** The library functions on known values *)

Example sha1_abc :
  Hex.EncodeToString (SHA1.Sum (Bytes.of_string "abc"))
  = "a9993e364706816aba3e25717850c26c9cd0d89d".
Proof. vm_compute. reflexivity. Qed.

Example hmac_rfc2202_2 :
  sign "what do ya want for nothing?" "Jefe"
  = "effcdf6ae5eb2fa2d27416d5f184df9c259a7c79".
Proof. vm_compute. reflexivity. Qed.

Example hmac_rfc2202_6 :
  Hex.EncodeToString
    (HMAC.Sum_nil
       (HMAC.Write (HMAC.New (repeat 170 80))
          (Bytes.of_string
             "Test Using Larger Than Block-Size Key - Hash Key First")))
  = "aa4ae5e15272d00e95705637ce8a3b55ed402112".
Proof. vm_compute. reflexivity. Qed.

Example base64_hello :
  Base64.EncodeToString (Bytes.of_string "hello") = "aGVsbG8="
  /\ Base64.DecodeString "aGVsbG8=" = (Bytes.of_string "hello", None)
  /\ Base64.DecodeString "aGVsbG8"
     = ([104; 101; 108], Some (Base64.CorruptInputError 4)).
Proof. repeat split; vm_compute; reflexivity. Qed.

Example format_instant0 : Time.Format instant0 = "05.03.2024 14:30:00".
Proof. vm_compute. reflexivity. Qed.

Example parse_instant0 : parseTime "05.03.2024 14:30:00" = (instant0, None).
Proof. vm_compute. reflexivity. Qed.

(** What [time.Parse] reports: the element of the layout that it could not
    read and what was left of the value there, a number out of its range,
    a day that the month does not have, or the text after the seconds. *)
Example parse_errors :
  snd (parseTime "5.03.2024 14:30:00")
  = Some ("parsing time " +++ Strconv.QuoteASCII "5.03.2024 14:30:00"
          +++ " as " +++ Strconv.QuoteASCII "02.01.2006 15:04:05"
          +++ ": cannot parse " +++ Strconv.QuoteASCII "5.03.2024 14:30:00"
          +++ " as " +++ Strconv.QuoteASCII "02")
  /\ snd (parseTime "05.03.24 14:30:00")
     = Some ("parsing time " +++ Strconv.QuoteASCII "05.03.24 14:30:00"
             +++ " as " +++ Strconv.QuoteASCII "02.01.2006 15:04:05"
             +++ ": cannot parse " +++ Strconv.QuoteASCII "24 14:30:00"
             +++ " as " +++ Strconv.QuoteASCII "2006")
  /\ snd (parseTime "05.13.2024 14:30:00")
     = Some ("parsing time " +++ Strconv.QuoteASCII "05.13.2024 14:30:00"
             +++ ": month out of range")
  /\ snd (parseTime "31.02.2024 14:30:00")
     = Some ("parsing time " +++ Strconv.QuoteASCII "31.02.2024 14:30:00"
             +++ ": day out of range")
  /\ snd (parseTime "05.03.2024 14:30:00x")
     = Some ("parsing time " +++ Strconv.QuoteASCII "05.03.2024 14:30:00x"
             +++ ": extra text: " +++ Strconv.QuoteASCII "x")
  /\ parseTime "05.03.2024 4:30:00.25"
     = (Time.Date 2024 3 5 4 30 0 250000000 Time.UTC, None).
Proof. repeat split; vm_compute; reflexivity. Qed.

(** The constant [0.01] is the [float64] nearest to 1/100: it is within
    half a unit in the last place, [2 ^ (-60)], of it. *)
Example c0_01_nearest :
  Float64.valid Float64.c0_01 = true
  /\ Float64.valid Float64.c0_005 = true
  /\ Z.abs (100 * 5764607523034235 - 2 ^ 59) * 2 <= 100.
Proof. repeat split; vm_compute; congruence. Qed.

Example f2_half_to_even :
  Fmt.f2 (Float64.of_scaled 1 (-3)) = "0.12"
  /\ Fmt.f2 (Float64.of_scaled 3 (-3)) = "0.38"
  /\ Fmt.f2 Float64.c0_01 = "0.01".
Proof. repeat split; vm_compute; reflexivity. Qed.

(* ================================================================= *)
(** * Further properties *)

(** ** strings: splitting what was joined *)

Lemma noByte_append (c : ascii) (a b : string) :
  noByte c (a +++ b) = noByte c a && noByte c b.
Proof.
  induction a as [ | d a IH]; cbn [String.append noByte].
  - reflexivity.
  - rewrite IH. apply andb_assoc.
Qed.

Lemma Split_noByte (s : string) (sep : ascii) :
  noByte sep s = true -> Strings.Split s sep = [s].
Proof.
  induction s as [ | d s IH]; cbn [noByte Strings.Split]; intros H.
  - reflexivity.
  - apply andb_prop in H. destruct H as [Hd Hs].
    apply negb_true_iff in Hd. rewrite Hd, (IH Hs). reflexivity.
Qed.

Lemma Split_append (s rest : string) (sep : ascii) :
  noByte sep s = true ->
  Strings.Split (s +++ String sep rest) sep = s :: Strings.Split rest sep.
Proof.
  induction s as [ | d s IH]; cbn [noByte String.append Strings.Split];
    intros H.
  - rewrite Ascii.eqb_refl. reflexivity.
  - apply andb_prop in H. destruct H as [Hd Hs].
    apply negb_true_iff in Hd. rewrite Hd, (IH Hs). reflexivity.
Qed.

(** A record [key=value] splits into its key and its value. *)
Lemma Split_record (key value : string) :
  noByte "=" key = true -> noByte "=" value = true ->
  Strings.Split (key +++ "=" +++ value) "=" = [key; value].
Proof.
  intros Hk Hv. change ("=" +++ value) with (String "=" value).
  rewrite Split_append by exact Hk.
  rewrite Split_noByte by exact Hv. reflexivity.
Qed.

(** A payload that starts with a line splits into the record of the line
    and the records of the rest. *)
Lemma Split_line (key value rest : string) :
  noByte "010" key = true -> noByte "010" value = true ->
  Strings.Split (line key value +++ rest) "010"
  = (key +++ "=" +++ value) :: Strings.Split rest "010".
Proof.
  intros Hk Hv. unfold line, Fmt.nl.
  replace ((key +++ "=" +++ value +++ String "010" "") +++ rest)
    with ((key +++ "=" +++ value) +++ String "010" rest).
  - apply Split_append. rewrite !noByte_append, Hk, Hv. reflexivity.
  - rewrite !append_assoc. reflexivity.
Qed.

Lemma noByte_Forall (P : ascii -> bool) (c : ascii) (s : string) :
  P c = false ->
  Forall (fun d => P d = true) (list_ascii_of_string s) ->
  noByte c s = true.
Proof.
  intros Hc. induction s as [ | d s IH];
    cbn [list_ascii_of_string noByte]; intros H.
  - reflexivity.
  - inversion H as [ | ? ? Hd Hs]; subst.
    rewrite (IH Hs), andb_true_r. apply negb_true_iff.
    destruct (Ascii.eqb_spec d c) as [-> | ]; [ congruence | reflexivity ].
Qed.

Lemma list_ascii_of_append (a b : string) :
  list_ascii_of_string (a +++ b)
  = list_ascii_of_string a ++ list_ascii_of_string b.
Proof.
  induction a as [ | d a IH]; cbn [String.append list_ascii_of_string app].
  - reflexivity.
  - rewrite IH. reflexivity.
Qed.

(** The bytes of a formatted integer: digits, after a minus sign for a
    negative one. *)
Lemma FormatInt_timeBytes (n : Z) :
  Forall (fun c => timeByte c = true)
    (list_ascii_of_string (Strconv.FormatInt n)).
Proof.
  assert (Hd : forall l, Forall (fun c => Strconv.isDigit c = true) l ->
                         Forall (fun c => timeByte c = true) l).
  { intros l. apply Forall_impl. intros c Hc. unfold timeByte.
    rewrite Hc. reflexivity. }
  destruct n as [ | p | p].
  - apply Hd, FormatInt_digits. lia.
  - apply Hd, FormatInt_digits. lia.
  - rewrite FormatInt_neg. cbn [list_ascii_of_string].
    constructor; [ reflexivity | ].
    apply Hd. rewrite <- FormatInt_pos. apply FormatInt_digits. lia.
Qed.

Lemma appendInt_timeBytes (x : Z) (width : nat) :
  Forall (fun c => timeByte c = true)
    (list_ascii_of_string (Time.appendInt x width)).
Proof.
  unfold Time.appendInt. rewrite !list_ascii_of_append.
  rewrite list_ascii_of_string_of_list_ascii.
  apply Forall_app; split; [ | apply Forall_app; split ].
  - destruct (x <? 0); repeat constructor.
  - apply Forall_forall. intros c Hc. apply repeat_spec in Hc. subst c.
    reflexivity.
  - apply FormatInt_timeBytes.
Qed.

Lemma Format_timeBytes (t : Time.t) :
  Forall (fun c => timeByte c = true) (list_ascii_of_string (Time.Format t)).
Proof.
  unfold Time.Format.
  destruct (Time.civil _) as [[y m] d].
  rewrite !list_ascii_of_append.
  repeat (apply Forall_app; split;
          [ first [ apply appendInt_timeBytes | repeat constructor ] | ]).
  apply appendInt_timeBytes.
Qed.

(** A formatted time and a formatted integer have no equal sign and no
    newline. *)
Lemma Format_plain (t : Time.t) : plainValue (Time.Format t) = true.
Proof.
  unfold plainValue.
  rewrite (noByte_Forall timeByte "=") by (reflexivity || apply Format_timeBytes).
  rewrite (noByte_Forall timeByte "010")
    by (reflexivity || apply Format_timeBytes).
  reflexivity.
Qed.

Lemma FormatInt_plain (n : Z) : plainValue (Strconv.FormatInt n) = true.
Proof.
  unfold plainValue.
  rewrite (noByte_Forall timeByte "=")
    by (reflexivity || apply FormatInt_timeBytes).
  rewrite (noByte_Forall timeByte "010")
    by (reflexivity || apply FormatInt_timeBytes).
  reflexivity.
Qed.

(** ** The callback processor: what every run keeps *)

Section CallbackInvariants.

Variable Quote : string -> string.
Variable time_Parse : string -> Time.t * option string.

(** Reading a record changes neither the response nor the calls of the
    handler, whether it ends in a panic or not. *)
Lemma processPart_keeps (st : Payment.t * string) (part : string) (w : World) :
  let w' := finalWorld (processPart Quote time_Parse st part w) in
  response w' = response w /\ handled w' = handled w.
Proof.
  destruct st as [payment status].
  destruct (recordPanics part) eqn:Hp.
  - rewrite processPart_panics by exact Hp. split; reflexivity.
  - destruct (processPart_returns Quote time_Parse payment status part w Hp)
      as [payment' [status' [w' H]]].
    rewrite H. cbn [finalWorld].
    apply processPart_status in H. tauto.
Qed.

Lemma processParts_keeps (parts : list string) (st : Payment.t * string)
    (w : World) :
  let w' := finalWorld (processParts Quote time_Parse parts st w) in
  response w' = response w /\ handled w' = handled w.
Proof.
  revert st w. induction parts as [ | part rest IH]; intros st w;
    cbn [processParts].
  - split; reflexivity.
  - unfold bind.
    pose proof (processPart_keeps st part w) as Hk. cbv zeta in Hk.
    destruct (processPart Quote time_Parse st part w) as [st1 w1 | msg w1];
      cbn [finalWorld] in *.
    + specialize (IH st1 w1). cbv zeta in IH.
      destruct IH as [Hr Hh]. rewrite Hr, Hh. exact Hk.
    + exact Hk.
Qed.

(** The reply after the records: the handler is called once or not at
    all, and the reply is written. *)
Lemma reconcile_any (f : PaymentHandlerFunc) (payment : Payment.t)
    (status : string) (w : World) :
  exists status' w',
    reconcile f payment status w = Done status' w'
    /\ response w' = response w
    /\ (handled w' = handled w \/ handled w' = handled w ++ [payment])
    /\ In status' ["OK"; "NO"; "ERR"].
Proof.
  unfold reconcile.
  destruct (String.eqb_spec status "ERR") as [-> | Hne]; cbn [negb].
  - do 2 eexists. unfold ret. repeat split; cbn; tauto.
  - unfold bind, call, ret, log_Printf.
    destruct (f payment) as [[ | msg] | ]; cbn [is_ErrInvalidInvoice];
      do 2 eexists; repeat split; cbn; tauto.
Qed.


(** A request that is no POST is answered [invalid method]. *)
Lemma handler_not_post (api : API.t) (f : PaymentHandlerFunc)
    (r : Http.Request) (w : World) :
  Http.Method r <> Http.MethodPost ->
  PaymentCallbackHandler Quote time_Parse api f r w
  = http_Error "invalid method" Http.StatusBadRequest w.
Proof.
  intros Hm. unfold PaymentCallbackHandler.
  apply String.eqb_neq in Hm. rewrite Hm. reflexivity.
Qed.

(** A POST whose form does not parse is answered with the error. *)
Lemma handler_bad_form (api : API.t) (f : PaymentHandlerFunc)
    (r : Http.Request) (w : World) (err : string) :
  Http.Method r = Http.MethodPost ->
  Http.ParseForm r = Some err ->
  PaymentCallbackHandler Quote time_Parse api f r w
  = http_Error err Http.StatusInternalServerError w.
Proof.
  intros Hm Hp. unfold PaymentCallbackHandler. rewrite Hm, Hp. reflexivity.
Qed.

Lemma http_Error_run (msg : string) (c : Z) (w : World) :
  http_Error msg c w
  = Done tt
      (mkWorld
         (Http.mkResponse
            (match Http.code (response w) with
             | None => Some c
             | Some c' => Some c'
             end)
            (Http.body (response w) +++ msg +++ Fmt.nl))
         (logged w) (handled w)).
Proof.
  unfold http_Error, bind, WriteHeader, Write.
  destruct w as [[[c' | ] body] lg hd]; reflexivity.
Qed.

(** Behind the gate and the decoder: a panic of the records is the panic
    of the processor; otherwise the handler is asked and the reply
    written. *)
Lemma handler_passed (api : API.t) (f : PaymentHandlerFunc)
    (r : Http.Request) (w : World) (d : list Z) :
  Http.Method r = Http.MethodPost ->
  Http.ParseForm r = None ->
  verify (Http.FormValue r "encoded") (API.secret api)
         (Http.FormValue r "checksum") = true ->
  Base64.DecodeString (Http.FormValue r "encoded") = (d, None) ->
  match processParts Quote time_Parse
          (Strings.Split (Bytes.to_string d) "010") (Payment.zero, "") w with
  | Panic msg w1 =>
      PaymentCallbackHandler Quote time_Parse api f r w = Panic msg w1
  | Done (payment, status) w1 =>
      exists status' w2,
        reconcile f payment status w1 = Done status' w2
        /\ PaymentCallbackHandler Quote time_Parse api f r w
           = Done tt
               (mkWorld
                  (Http.mkResponse
                     (match Http.code (response w2) with
                      | None => Some Http.StatusOK
                      | Some c => Some c
                      end)
                     (Http.body (response w2)
                      +++ replyBody (Payment.Invoice payment) status'))
                  (logged w2) (handled w2))
  end.
Proof.
  intros Hm Hp Hv Hd.
  rewrite handler_post by assumption. rewrite Hv, Hd.
  destruct (processParts Quote time_Parse
              (Strings.Split (Bytes.to_string d) "010") (Payment.zero, "") w)
    as [[payment status] w1 | msg w1] eqn:E;
    unfold bind at 1; rewrite E; [ | reflexivity ].
  cbn [fst snd].
  destruct (reconcile_any f payment status w1) as [status' [w2 [Hrec _]]].
  exists status', w2. split; [ exact Hrec | ].
  unfold bind. rewrite Hrec. unfold WriteHeader, Write.
  destruct w2 as [[[c' | ] body] lg hd]; reflexivity.
Qed.

(** X1.  Whatever the request, the callback processor calls the payment
    handler at most once, and it calls it only for a POST whose form
    parsed, whose checksum is the signature of its payload under the secret
    and whose payload is valid base64. *)
Theorem handler_called_at_most_once_behind_the_gate
    (api : API.t) (f : PaymentHandlerFunc) (r : Http.Request) (w : World) :
  let w' := finalWorld (PaymentCallbackHandler Quote time_Parse api f r w) in
  handled w' = handled w
  \/ ((exists payment, handled w' = handled w ++ [payment])
      /\ Http.Method r = Http.MethodPost
      /\ Http.ParseForm r = None
      /\ Http.FormValue r "checksum"
         = sign (Http.FormValue r "encoded") (API.secret api)
      /\ snd (Base64.DecodeString (Http.FormValue r "encoded")) = None).
Proof.
  intros w'. subst w'.
  destruct (String.eqb_spec (Http.Method r) Http.MethodPost) as [Hm | Hm].
  2: { rewrite handler_not_post by exact Hm. rewrite http_Error_run.
       left. reflexivity. }
  destruct (Http.ParseForm r) as [err | ] eqn:Hp.
  { rewrite (handler_bad_form api f r w err) by assumption.
    rewrite http_Error_run. left. reflexivity. }
  destruct (verify (Http.FormValue r "encoded") (API.secret api)
              (Http.FormValue r "checksum")) eqn:Hv.
  2: { rewrite handler_post by assumption. rewrite Hv.
       unfold bind, log_Printf. rewrite http_Error_run. left. reflexivity. }
  destruct (Base64.DecodeString (Http.FormValue r "encoded"))
    as [d [[off] | ]] eqn:Hd.
  { rewrite handler_post by assumption. rewrite Hv, Hd.
    rewrite http_Error_run. left. reflexivity. }
  pose proof (handler_passed api f r w d Hm Hp Hv Hd) as H.
  pose proof (processParts_keeps (Strings.Split (Bytes.to_string d) "010")
                (Payment.zero, "") w) as Hk.
  cbv zeta in Hk.
  destruct (processParts _ _ _ _ w) as [[payment status] w1 | msg w1];
    cbn [finalWorld] in Hk.
  - destruct H as [status' [w2 [Hrec H]]]. rewrite H. cbn [finalWorld handled].
    destruct (reconcile_any f payment status w1)
      as [s2 [w3 [Hrec' [_ [Hh _]]]]].
    rewrite Hrec in Hrec'. injection Hrec' as <- <-.
    destruct Hk as [_ Hk]. rewrite Hk in Hh.
    destruct Hh as [Hh | Hh]; [ left; exact Hh | right ].
    split; [ exists payment; exact Hh | ].
    split; [ exact Hm | ]. split; [ reflexivity | ].
    split; [ apply String.eqb_eq; exact Hv | reflexivity ].
  - rewrite H. cbn [finalWorld]. left. apply Hk.
Qed.


(** X2.  A request that is no POST is answered with the status 400 and the
    body [invalid method]; a POST whose form does not parse is answered with
    the status 500 and the error of the parser.  In both cases the handler
    is not called and nothing is logged. *)
Theorem refused_before_the_checksum
    (api : API.t) (f : PaymentHandlerFunc) (r : Http.Request) (w : World) :
  response w = Http.mkResponse None "" ->
  Http.Method r <> Http.MethodPost \/ Http.ParseForm r <> None ->
  exists code msg,
    PaymentCallbackHandler Quote time_Parse api f r w
    = Done tt
        (mkWorld (Http.mkResponse (Some code) (msg +++ Fmt.nl))
                 (logged w) (handled w))
    /\ (Http.Method r <> Http.MethodPost ->
        code = Http.StatusBadRequest /\ msg = "invalid method")
    /\ (Http.Method r = Http.MethodPost ->
        code = Http.StatusInternalServerError
        /\ Http.ParseForm r = Some msg).
Proof.
  intros Hw Hbad.
  destruct (String.eqb_spec (Http.Method r) Http.MethodPost) as [Hm | Hm].
  - destruct (Http.ParseForm r) as [err | ] eqn:Hp; [ | tauto ].
    exists Http.StatusInternalServerError, err.
    rewrite (handler_bad_form api f r w err) by assumption.
    rewrite http_Error_run, Hw. cbn [Http.code Http.body String.append].
    split; [ reflexivity | ]. split; [ contradiction | ].
    intros _. split; reflexivity.
  - exists Http.StatusBadRequest, "invalid method".
    rewrite handler_not_post by exact Hm.
    rewrite http_Error_run, Hw. cbn [Http.code Http.body String.append].
    split; [ reflexivity | ]. split; [ | contradiction ].
    intros _. split; reflexivity.
Qed.

(** X3.  A POST that passes the checksum gate with a payload that is not
    valid base64 is answered with the status 400 and the body
    [decoding error: illegal base64 data at input byte <offset>]; the
    handler is not called and nothing is logged. *)
Theorem undecodable_payload_rejected
    (api : API.t) (f : PaymentHandlerFunc) (r : Http.Request) (w : World)
    (d : list Z) (off : Z) :
  Http.Method r = Http.MethodPost ->
  Http.ParseForm r = None ->
  response w = Http.mkResponse None "" ->
  Http.FormValue r "checksum"
  = sign (Http.FormValue r "encoded") (API.secret api) ->
  Base64.DecodeString (Http.FormValue r "encoded")
  = (d, Some (Base64.CorruptInputError off)) ->
  PaymentCallbackHandler Quote time_Parse api f r w
  = Done tt
      (mkWorld
         (Http.mkResponse (Some Http.StatusBadRequest)
            ("decoding error: illegal base64 data at input byte "
             +++ Fmt.d off +++ Fmt.nl))
         (logged w) (handled w)).
Proof.
  intros Hm Hp Hw Hc Hd.
  rewrite handler_post by assumption.
  unfold verify. rewrite Hc, String.eqb_refl, Hd.
  rewrite http_Error_run, Hw. reflexivity.
Qed.

(** X4.  Every reply of the callback processor on a fresh response has the
    status 200, 400 or 500.  A reply with the status 200 is given only
    behind the checksum gate and its body is [INVOICE=<n>:STATUS=<status>]
    and a newline with the status [OK], [NO] or [ERR]; with a reply of
    status 400 or 500 the handler was not called. *)
Theorem every_reply_has_a_status
    (api : API.t) (f : PaymentHandlerFunc) (r : Http.Request) (w w' : World) :
  response w = Http.mkResponse None "" ->
  PaymentCallbackHandler Quote time_Parse api f r w = Done tt w' ->
  (Http.code (response w') = Some Http.StatusOK
   /\ Http.FormValue r "checksum"
      = sign (Http.FormValue r "encoded") (API.secret api)
   /\ exists n status,
        Http.body (response w') = replyBody n status
        /\ In status ["OK"; "NO"; "ERR"])
  \/ ((Http.code (response w') = Some Http.StatusBadRequest
       \/ Http.code (response w') = Some Http.StatusInternalServerError)
      /\ handled w' = handled w).
Proof.
  intros Hw Hrun.
  destruct (String.eqb_spec (Http.Method r) Http.MethodPost) as [Hm | Hm].
  2: { rewrite handler_not_post, http_Error_run, Hw in Hrun by exact Hm.
       injection Hrun as <-. right. split; [ left | ]; reflexivity. }
  destruct (Http.ParseForm r) as [err | ] eqn:Hp.
  { rewrite (handler_bad_form api f r w err), http_Error_run, Hw in Hrun
      by assumption.
    injection Hrun as <-. right. split; [ right | ]; reflexivity. }
  destruct (verify (Http.FormValue r "encoded") (API.secret api)
              (Http.FormValue r "checksum")) eqn:Hv.
  2: { rewrite handler_post in Hrun by assumption. rewrite Hv in Hrun.
       unfold bind, log_Printf in Hrun. rewrite http_Error_run, Hw in Hrun.
       injection Hrun as <-. right. split; [ left | ]; reflexivity. }
  destruct (Base64.DecodeString (Http.FormValue r "encoded"))
    as [d [[off] | ]] eqn:Hd.
  { rewrite handler_post in Hrun by assumption. rewrite Hv, Hd in Hrun.
    rewrite http_Error_run, Hw in Hrun.
    injection Hrun as <-. right. split; [ left | ]; reflexivity. }
  pose proof (handler_passed api f r w d Hm Hp Hv Hd) as H.
  pose proof (processParts_keeps (Strings.Split (Bytes.to_string d) "010")
                (Payment.zero, "") w) as Hk.
  cbv zeta in Hk.
  destruct (processParts _ _ _ _ w) as [[payment status] w1 | msg w1];
    cbn [finalWorld] in Hk.
  2: { rewrite H in Hrun. discriminate Hrun. }
  destruct H as [status' [w2 [Hrec H]]].
  rewrite H in Hrun. injection Hrun as <-.
  destruct (reconcile_any f payment status w1)
    as [s2 [w3 [Hrec' [Hr [_ Hin]]]]].
  rewrite Hrec in Hrec'. injection Hrec' as <- <-.
  destruct Hk as [Hk _]. rewrite Hr, Hk, Hw.
  cbn [response Http.code Http.body String.append].
  left. split; [ reflexivity | ].
  split; [ apply String.eqb_eq; exact Hv | ].
  exists (Payment.Invoice payment), status'. split; [ reflexivity | exact Hin ].
Qed.

(** X5.  The callback processor panics exactly for a POST behind the
    checksum gate whose decoded payload has a record that is one of the
    keys INVOICE, STATUS, PAY_TIME, STAN or BCODE with no equal sign after
    it; no other request makes it panic. *)
Theorem panics_exactly_on_a_key_without_value
    (api : API.t) (f : PaymentHandlerFunc) (r : Http.Request) (w : World) :
  (exists msg w',
     PaymentCallbackHandler Quote time_Parse api f r w = Panic msg w')
  <-> (Http.Method r = Http.MethodPost
       /\ Http.ParseForm r = None
       /\ Http.FormValue r "checksum"
          = sign (Http.FormValue r "encoded") (API.secret api)
       /\ exists d,
            Base64.DecodeString (Http.FormValue r "encoded") = (d, None)
            /\ existsb recordPanics
                 (Strings.Split (Bytes.to_string d) "010") = true).
Proof.
  destruct (String.eqb_spec (Http.Method r) Http.MethodPost) as [Hm | Hm].
  2: { rewrite handler_not_post, http_Error_run by exact Hm.
       split; [ intros [msg [w' H]]; discriminate H | tauto ]. }
  destruct (Http.ParseForm r) as [err | ] eqn:Hp.
  { rewrite (handler_bad_form api f r w err), http_Error_run by assumption.
    split; [ intros [msg [w' H]]; discriminate H | ].
    intros [_ [H _]]. discriminate H. }
  destruct (verify (Http.FormValue r "encoded") (API.secret api)
              (Http.FormValue r "checksum")) eqn:Hv.
  2: { rewrite handler_post by assumption. rewrite Hv.
       unfold bind, log_Printf. rewrite http_Error_run.
       split; [ intros [msg [w' H]]; discriminate H | ].
       intros [_ [_ [H _]]]. apply String.eqb_neq in Hv. contradiction. }
  destruct (Base64.DecodeString (Http.FormValue r "encoded"))
    as [d [[off] | ]] eqn:Hd.
  { rewrite handler_post by assumption. rewrite Hv, Hd.
    rewrite http_Error_run.
    split; [ intros [msg [w' H]]; discriminate H | ].
    intros [_ [_ [_ [d' [H _]]]]]. discriminate H. }
  pose proof (handler_passed api f r w d Hm Hp Hv Hd) as H.
  pose proof (processParts_panics_iff Quote time_Parse
                (Strings.Split (Bytes.to_string d) "010")
                Payment.zero "" w) as Hiff.
  destruct (existsb recordPanics (Strings.Split (Bytes.to_string d) "010"))
    eqn:Hany.
  - destruct Hiff as [w1 E]. rewrite E in H. rewrite H.
    split; [ intros _ | intros _; do 2 eexists; reflexivity ].
    split; [ exact Hm | ]. split; [ reflexivity | ].
    split; [ apply String.eqb_eq; exact Hv | ].
    exists d. split; [ reflexivity | exact Hany ].
  - destruct Hiff as [payment [status [w1 E]]]. rewrite E in H.
    destruct H as [status' [w2 [_ H]]]. rewrite H.
    split; [ intros [msg [w' H']]; discriminate H' | ].
    intros [_ [_ [_ [d' [Hd' Hex]]]]].
    injection Hd' as <-. rewrite Hany in Hex. discriminate Hex.
Qed.

End CallbackInvariants.

(** ** The callback processor: the records *)

Section CallbackRecords.

Variable Quote : string -> string.
Variable time_Parse : string -> Time.t * option string.

(** A record with a key that the processor does not read changes
    nothing. *)
Lemma processPart_unrecognised (st : Payment.t * string) (part : string)
    (w : World) :
  recognisedKey (recordKey part) = false ->
  processPart Quote time_Parse st part w = Done st w.
Proof.
  destruct st as [payment status].
  unfold processPart, recordKey, recognisedKey.
  pose proof (Split_nonempty part "=") as Hne.
  destruct (Strings.Split part "=") as [ | key rest]; [ contradiction | ].
  intros H. repeat (apply orb_false_elim in H; destruct H as [H ?]).
  unfold bind, index, ret. cbn [nth_error].
  repeat match goal with
         | E : String.eqb key _ = false |- _ => rewrite E; clear E
         end.
  reflexivity.
Qed.

Lemma processParts_filter (parts : list string) (st : Payment.t * string)
    (w : World) :
  processParts Quote time_Parse
    (filter (fun part => recognisedKey (recordKey part)) parts) st w
  = processParts Quote time_Parse parts st w.
Proof.
  revert st w. induction parts as [ | part rest IH]; intros st w;
    cbn [filter processParts].
  - reflexivity.
  - destruct (recognisedKey (recordKey part)) eqn:Hk; cbn [processParts].
    + unfold bind.
      destruct (processPart Quote time_Parse st part w) as [st1 w1 | ];
        [ apply IH | reflexivity ].
    + unfold bind. rewrite processPart_unrecognised by exact Hk. apply IH.
Qed.

(** X6.  The records of a payload whose key is not INVOICE, STATUS,
    PAY_TIME, STAN or BCODE are ignored: two signed payloads with the same
    records of these keys, in the same order, get the same run of the
    processor, with the same payment for the handler, the same reply and
    the same log. *)
Theorem unrecognised_records_are_ignored
    (api : API.t) (f : PaymentHandlerFunc) (data1 data2 : string)
    (w : World) :
  filter (fun part => recognisedKey (recordKey part))
    (Strings.Split data1 "010")
  = filter (fun part => recognisedKey (recordKey part))
      (Strings.Split data2 "010") ->
  PaymentCallbackHandler Quote time_Parse api f
    (callbackOf (API.secret api) data1) w
  = PaymentCallbackHandler Quote time_Parse api f
      (callbackOf (API.secret api) data2) w.
Proof.
  intros Hsame. rewrite !handler_callbackOf.
  unfold bind at 1. unfold bind at 3.
  rewrite <- (processParts_filter (Strings.Split data1 "010")).
  rewrite <- (processParts_filter (Strings.Split data2 "010")).
  rewrite Hsame. reflexivity.
Qed.


Lemma processParts_app (a b : list string) (st : Payment.t * string)
    (w : World) :
  processParts Quote time_Parse (a ++ b) st w
  = match processParts Quote time_Parse a st w with
    | Done st1 w1 => processParts Quote time_Parse b st1 w1
    | Panic msg w1 => Panic msg w1
    end.
Proof.
  revert st w. induction a as [ | part rest IH]; intros st w;
    cbn [app processParts].
  - reflexivity.
  - unfold bind.
    destruct (processPart Quote time_Parse st part w) as [st1 w1 | ];
      [ apply IH | reflexivity ].
Qed.

Lemma Split_join (a b : string) (sep : ascii) :
  Strings.Split (a +++ String sep b) sep
  = Strings.Split a sep ++ Strings.Split b sep.
Proof.
  induction a as [ | d a IH]; cbn [String.append Strings.Split].
  - rewrite Ascii.eqb_refl. reflexivity.
  - destruct (Ascii.eqb d sep); [ rewrite IH; reflexivity | ].
    rewrite IH. pose proof (Split_nonempty a sep).
    destruct (Strings.Split a sep); [ contradiction | reflexivity ].
Qed.

(** What a record of each key does to the payment and the status. *)
Lemma processPart_INVOICE (payment : Payment.t) (status value : string)
    (w : World) :
  noByte "=" value = true ->
  processPart Quote time_Parse (payment, status) ("INVOICE" +++ "=" +++ value) w
  = match Strconv.ParseUint value with
    | (i, None) => Done (Payment.set_Invoice payment i, status) w
    | (i, Some err) =>
        Done (Payment.set_Invoice payment i, "ERR")
          (mkWorld (response w)
             (logged w ++ ["failed to parse invoice " +++ value +++ ": "
                           +++ Strconv.NumError_Error Quote err])
             (handled w))
    end.
Proof.
  intros Hv. unfold processPart.
  rewrite Split_record by (reflexivity || exact Hv).
  destruct (Strconv.ParseUint value) as [i [err | ]] eqn:E;
    unfold bind, index, ret, log_Printf; cbn [nth_error String.eqb];
    rewrite ?Ascii.eqb_refl; rewrite E; reflexivity.
Qed.

Lemma processPart_STATUS (payment : Payment.t) (status value : string)
    (w : World) :
  noByte "=" value = true ->
  processPart Quote time_Parse (payment, status) ("STATUS" +++ "=" +++ value) w
  = Done (Payment.set_Status payment value, status) w.
Proof.
  intros Hv. unfold processPart.
  rewrite Split_record by (reflexivity || exact Hv). reflexivity.
Qed.

Lemma processPart_PAY_TIME (payment : Payment.t) (status value : string)
    (w : World) (t : Time.t) :
  noByte "=" value = true ->
  time_Parse value = (t, None) ->
  processPart Quote time_Parse (payment, status)
    ("PAY_TIME" +++ "=" +++ value) w
  = Done (Payment.set_PayDate payment t, status) w.
Proof.
  intros Hv Ht. unfold processPart.
  rewrite Split_record by (reflexivity || exact Hv).
  unfold bind, index, ret; cbn [nth_error String.eqb Ascii.eqb Bool.eqb].
  rewrite Ht. reflexivity.
Qed.

Lemma processPart_STAN (payment : Payment.t) (status value : string)
    (w : World) (n : Z) :
  noByte "=" value = true ->
  Strconv.ParseInt value = (n, None) ->
  processPart Quote time_Parse (payment, status) ("STAN" +++ "=" +++ value) w
  = Done (Payment.set_Stan payment n, status) w.
Proof.
  intros Hv Hn. unfold processPart.
  rewrite Split_record by (reflexivity || exact Hv).
  unfold bind, index, ret; cbn [nth_error String.eqb Ascii.eqb Bool.eqb].
  rewrite Hn. reflexivity.
Qed.

Lemma processPart_BCODE (payment : Payment.t) (status value : string)
    (w : World) :
  noByte "=" value = true ->
  processPart Quote time_Parse (payment, status) ("BCODE" +++ "=" +++ value) w
  = Done (Payment.set_Bcode payment value, status) w.
Proof.
  intros Hv. unfold processPart.
  rewrite Split_record by (reflexivity || exact Hv). reflexivity.
Qed.


Lemma parseDigits_error_value (s : string) (n i : Z) (e : Strconv.Err) :
  Strconv.parseDigits s n = (i, Some e) -> i = 0 \/ i = Strconv.maxUint64.
Proof.
  revert n. induction s as [ | c rest IH]; intros n; cbn [Strconv.parseDigits].
  - discriminate.
  - destruct (Strconv.isDigit c); [ | intros [= <- _]; left; reflexivity ].
    destruct (Strconv.maxUint64 / 10 + 1 <=? n);
      [ intros [= <- _]; right; reflexivity | ].
    destruct (Strconv.maxUint64 <? n * 10 + (Bytes.byte_of c - 48));
      [ intros [= <- _]; right; reflexivity | apply IH ].
Qed.

(** The value that [ParseUint] returns with an error: zero for a syntax
    error, the largest [uint64] for a number out of range. *)
Lemma ParseUint_error_value (s : string) (i : Z) (e : Strconv.NumError) :
  Strconv.ParseUint s = (i, Some e) -> i = 0 \/ i = Strconv.maxUint64.
Proof.
  unfold Strconv.ParseUint.
  destruct (s =? "")%string; [ intros [= <- _]; left; reflexivity | ].
  destruct (Strconv.parseDigits s 0) as [n [err | ]] eqn:E;
    [ | discriminate ].
  intros [= <- _]. eapply parseDigits_error_value, E.
Qed.

(** X7.  When the last record of a signed payload is an INVOICE whose value
    is no unsigned integer, the invoice of the reply is not the one of an
    earlier record: it is 0, or 18446744073709551615 for a number out of
    range, the status is [ERR] and the handler is not called. *)
Theorem failed_invoice_overwrites_the_reply
    (api : API.t) (f : PaymentHandlerFunc) (data value : string) (w : World) :
  response w = Http.mkResponse None "" ->
  existsb recordPanics (Strings.Split data "010") = false ->
  plainValue value = true ->
  snd (Strconv.ParseUint value) <> None ->
  exists w',
    PaymentCallbackHandler Quote time_Parse api f
      (callbackOf (API.secret api)
         (data +++ Fmt.nl +++ "INVOICE" +++ "=" +++ value)) w
    = Done tt w'
    /\ response w'
       = Http.mkResponse (Some Http.StatusOK)
           (replyBody (fst (Strconv.ParseUint value)) "ERR")
    /\ handled w' = handled w
    /\ (fst (Strconv.ParseUint value) = 0
        \/ fst (Strconv.ParseUint value) = Strconv.maxUint64).
Proof.
  intros Hw Hdata Hplain Herr.
  apply andb_prop in Hplain. destruct Hplain as [Heq Hnl].
  rewrite handler_callbackOf.
  change (data +++ Fmt.nl +++ "INVOICE" +++ "=" +++ value)
    with (data +++ String "010" ("INVOICE" +++ "=" +++ value)).
  rewrite Split_join.
  rewrite (Split_noByte ("INVOICE" +++ "=" +++ value) "010")
    by (rewrite !noByte_append, Hnl; reflexivity).
  unfold bind at 1. rewrite processParts_app.
  pose proof (processParts_panics_iff Quote time_Parse
                (Strings.Split data "010") Payment.zero "" w) as Hrun.
  rewrite Hdata in Hrun. destruct Hrun as [payment1 [status1 [w1 Hrun]]].
  pose proof (processParts_keeps Quote time_Parse (Strings.Split data "010")
                (Payment.zero, "") w) as Hk.
  cbv zeta in Hk. rewrite Hrun in *. cbn [finalWorld] in Hk.
  destruct Hk as [Hr Hh].
  cbn [processParts]. unfold bind at 1.
  rewrite processPart_INVOICE by exact Heq.
  destruct (Strconv.ParseUint value) as [i [err | ]] eqn:E;
    [ | contradiction Herr; reflexivity ].
  unfold ret at 1. cbn [fst snd].
  unfold reconcile. cbn [String.eqb Ascii.eqb Bool.eqb negb].
  unfold bind, ret, WriteHeader, Write.
  cbn [response logged handled Http.code Http.body Payment.set_Invoice
       Payment.Invoice].
  rewrite Hr, Hw. cbn [Http.code Http.body String.append].
  eexists. split; [ reflexivity | ].
  cbn [response handled]. split; [ reflexivity | ].
  split; [ exact Hh | ].
  eapply ParseUint_error_value, E.
Qed.

(** X8.  The payload that lists the fields of a payment, signed, is read
    back as that payment: the handler is called once with it and the reply
    carries its invoice and the status of the handler.  The invoice is a
    [uint64], the transaction number an [int64], the status and the code
    have no equal sign and no newline, and the time parser reads back the
    formatted time. *)
Theorem payload_of_a_payment_is_read_back
    (api : API.t) (f : PaymentHandlerFunc) (payment : Payment.t) (w : World) :
  response w = Http.mkResponse None "" ->
  0 <= Payment.Invoice payment <= Strconv.maxUint64 ->
  - 2 ^ 63 <= Payment.Stan payment < 2 ^ 63 ->
  plainValue (Payment.Status payment) = true ->
  plainValue (Payment.Bcode payment) = true ->
  time_Parse (Time.Format (Payment.PayDate payment))
  = (Payment.PayDate payment, None) ->
  exists w',
    PaymentCallbackHandler Quote time_Parse api f
      (callbackOf (API.secret api) (payloadOf payment)) w
    = Done tt w'
    /\ handled w' = handled w ++ [payment]
    /\ response w'
       = Http.mkResponse (Some Http.StatusOK)
           (replyBody (Payment.Invoice payment)
                      (replyStatus false (f payment))).
Proof.
  intros Hw Hinv Hstan Hstatus Hbcode Htime.
  destruct payment as [inv st t stan bcode].
  cbn [Payment.Invoice Payment.Status Payment.PayDate Payment.Stan
       Payment.Bcode] in *.
  apply andb_prop in Hstatus. destruct Hstatus as [Hst_eq Hst_nl].
  apply andb_prop in Hbcode. destruct Hbcode as [Hb_eq Hb_nl].
  pose proof (Format_plain t) as Ht.
  apply andb_prop in Ht. destruct Ht as [Ht_eq Ht_nl].
  pose proof (FormatInt_plain inv) as Hi.
  apply andb_prop in Hi. destruct Hi as [Hi_eq Hi_nl].
  pose proof (FormatInt_plain stan) as Hs.
  apply andb_prop in Hs. destruct Hs as [Hs_eq Hs_nl].
  rewrite handler_callbackOf.
  unfold payloadOf.
  cbn [Payment.Invoice Payment.Status Payment.PayDate Payment.Stan
       Payment.Bcode].
  rewrite <- (append_nil_r (line "BCODE" bcode)).
  unfold Fmt.d.
  rewrite !Split_line by (reflexivity || assumption).
  cbn [Strings.Split processParts].
  unfold bind at 1. unfold bind at 1.
  rewrite processPart_INVOICE by exact Hi_eq.
  rewrite ParseUint_FormatInt by exact Hinv.
  unfold bind at 1. rewrite processPart_STATUS by exact Hst_eq.
  unfold bind at 1.
  rewrite (processPart_PAY_TIME _ _ _ _ t) by assumption.
  unfold bind at 1.
  rewrite (processPart_STAN _ _ _ _ stan)
    by (try assumption; apply ParseInt_FormatInt; exact Hstan).
  unfold bind at 1. rewrite processPart_BCODE by exact Hb_eq.
  unfold bind at 1. rewrite processPart_unrecognised by reflexivity.
  unfold ret at 1. cbn [fst snd].
  change (Payment.set_Bcode
            (Payment.set_Stan
               (Payment.set_PayDate
                  (Payment.set_Status
                     (Payment.set_Invoice Payment.zero inv) st) t) stan)
            bcode)
    with (Payment.mk inv st t stan bcode).
  destruct (reconcile_status f (Payment.mk inv st t stan bcode) false w)
    as [w2 [Hrec [Hr Hh]]].
  cbv iota in Hrec. unfold bind. rewrite Hrec.
  unfold WriteHeader, Write. rewrite Hr, Hw.
  cbn [Http.code Http.body response logged handled String.append
       Payment.Invoice].
  eexists. split; [ reflexivity | ].
  cbn [response handled]. split; [ exact Hh | reflexivity ].
Qed.

End CallbackRecords.

(** ** The callback processor on further examples *)

Lemma refused_before_the_checksum_witness :
  exists code msg,
    PaymentCallbackHandler Strconv.QuoteASCII parseTime api0 acceptAll
      getCallback World0
    = Done tt
        (mkWorld (Http.mkResponse (Some code) (msg +++ Fmt.nl))
                 (logged World0) (handled World0))
    /\ (Http.Method getCallback <> Http.MethodPost ->
        code = Http.StatusBadRequest /\ msg = "invalid method")
    /\ (Http.Method getCallback = Http.MethodPost ->
        code = Http.StatusInternalServerError
        /\ Http.ParseForm getCallback = Some msg).
Proof.
  apply (refused_before_the_checksum
           Strconv.QuoteASCII parseTime api0 acceptAll getCallback World0).
  - reflexivity.
  - left. discriminate.
Defined.

Lemma undecodable_payload_rejected_witness :
  PaymentCallbackHandler Strconv.QuoteASCII parseTime api0 acceptAll
    undecodableCallback World0
  = Done tt
      (mkWorld
         (Http.mkResponse (Some Http.StatusBadRequest)
            ("decoding error: illegal base64 data at input byte "
             +++ Fmt.d 0 +++ Fmt.nl))
         (logged World0) (handled World0)).
Proof.
  apply (undecodable_payload_rejected
           Strconv.QuoteASCII parseTime api0 acceptAll undecodableCallback
           World0 []).
  - reflexivity.
  - reflexivity.
  - reflexivity.
  - reflexivity.
  - vm_compute. reflexivity.
Defined.

Lemma every_reply_has_a_status_witness :
  let w' :=
    mkWorld (Http.mkResponse (Some 200) (replyBody 55 "OK")) [] [payment55] in
  (Http.code (response w') = Some Http.StatusOK
   /\ Http.FormValue (callbackOf "secret" payload55) "checksum"
      = sign (Http.FormValue (callbackOf "secret" payload55) "encoded")
             (API.secret api0)
   /\ exists n status,
        Http.body (response w') = replyBody n status
        /\ In status ["OK"; "NO"; "ERR"])
  \/ ((Http.code (response w') = Some Http.StatusBadRequest
       \/ Http.code (response w') = Some Http.StatusInternalServerError)
      /\ handled w' = handled World0).
Proof.
  apply (every_reply_has_a_status
           Strconv.QuoteASCII parseTime api0 acceptAll
           (callbackOf "secret" payload55) World0).
  - reflexivity.
  - vm_compute. reflexivity.
Defined.

Lemma unrecognised_records_are_ignored_witness :
  PaymentCallbackHandler Strconv.QuoteASCII parseTime api0 acceptAll
    (callbackOf (API.secret api0) payload55) World0
  = PaymentCallbackHandler Strconv.QuoteASCII parseTime api0 acceptAll
      (callbackOf (API.secret api0)
         (line "INVOICE" "55" +++ line "STATUS" "PAID" +++ line "STAN" "99"
          +++ line "BCODE" "ABC")) World0.
Proof.
  apply (unrecognised_records_are_ignored
           Strconv.QuoteASCII parseTime api0 acceptAll).
  vm_compute. reflexivity.
Defined.

Lemma failed_invoice_overwrites_the_reply_witness :
  exists w',
    PaymentCallbackHandler Strconv.QuoteASCII parseTime api0 acceptAll
      (callbackOf (API.secret api0)
         ("INVOICE=55" +++ Fmt.nl +++ "INVOICE" +++ "=" +++ "x")) World0
    = Done tt w'
    /\ response w'
       = Http.mkResponse (Some Http.StatusOK)
           (replyBody (fst (Strconv.ParseUint "x")) "ERR")
    /\ handled w' = handled World0
    /\ (fst (Strconv.ParseUint "x") = 0
        \/ fst (Strconv.ParseUint "x") = Strconv.maxUint64).
Proof.
  apply (failed_invoice_overwrites_the_reply
           Strconv.QuoteASCII parseTime api0 acceptAll "INVOICE=55" "x" World0).
  - reflexivity.
  - reflexivity.
  - reflexivity.
  - discriminate.
Defined.

Lemma payload_of_a_payment_is_read_back_witness :
  exists w',
    PaymentCallbackHandler Strconv.QuoteASCII parseTime api0 acceptAll
      (callbackOf (API.secret api0) (payloadOf paidPayment)) World0
    = Done tt w'
    /\ handled w' = handled World0 ++ [paidPayment]
    /\ response w'
       = Http.mkResponse (Some Http.StatusOK)
           (replyBody (Payment.Invoice paidPayment)
                      (replyStatus false (acceptAll paidPayment))).
Proof.
  apply (payload_of_a_payment_is_read_back
           Strconv.QuoteASCII parseTime api0 acceptAll paidPayment World0).
  - reflexivity.
  - vm_compute. split; discriminate.
  - vm_compute. split; [ discriminate | reflexivity ].
  - reflexivity.
  - reflexivity.
  - vm_compute. reflexivity.
Defined.

(** ** The encoder and the checksum, composed *)

Lemma Encode_nonempty (src : list Z) : src <> [] -> Base64.Encode src <> [].
Proof.
  destruct src as [ | b0 [ | b1 [ | b2 rest]]]; cbn [Base64.Encode];
    [ contradiction | discriminate .. ].
Qed.

Lemma EncodeToString_nonempty (s : string) :
  s <> "" -> Base64.EncodeToString (Bytes.of_string s) <> "".
Proof.
  intros Hs. unfold Base64.EncodeToString.
  destruct s as [ | c s]; [ contradiction | ].
  pose proof (Encode_nonempty (Bytes.of_string (String c s))) as H.
  destruct (Base64.Encode (Bytes.of_string (String c s))).
  - exfalso. apply H; [ discriminate | reflexivity ].
  - discriminate.
Qed.

Lemma encodedText_nonempty (p : PaymentRequest.t) : encodedText p <> "".
Proof. unfold encodedText, line. cbn [String.append]. discriminate. Qed.

(** [encode] reads seven fields: two requests that agree on them are valid
    together and get the same text. *)
Lemma encode_of_set_encoded (p : PaymentRequest.t) (e : string) :
  mandatoryValid (PaymentRequest.set_encoded p e) = mandatoryValid p
  /\ encodedText (PaymentRequest.set_encoded p e) = encodedText p.
Proof. split; reflexivity. Qed.

(** X9.  [encode] writes the field [encoded] and no other, and what it
    writes does not depend on the payload that the request had: encoding a
    second time gives the request and the result of the first time. *)
Theorem encode_is_idempotent (p : PaymentRequest.t) :
  let p1 := fst (PaymentRequest.encode p) in
  PaymentRequest.encode p1 = (p1, snd (PaymentRequest.encode p))
  /\ PaymentRequest.set_encoded p1 (PaymentRequest.encoded p) = p.
Proof.
  destruct (mandatoryValid p) eqn:Hv.
  - rewrite (encode_valid p Hv). cbn [fst snd]. split.
    + rewrite encode_valid by exact Hv.
      destruct p; reflexivity.
    + destruct p; reflexivity.
  - destruct (encode_invalid p Hv) as [msg [Hm _]]. rewrite Hm.
    cbn [fst snd]. split; [ exact Hm | destruct p; reflexivity ].
Qed.

(** [CalcChecksum] on a request that has a payload signs it as it is. *)
Lemma CalcChecksum_encoded (p : PaymentRequest.t) (secret : string) :
  PaymentRequest.encoded p <> "" ->
  PaymentRequest.CalcChecksum p secret
  = (PaymentRequest.set_checksum p
       (sign (PaymentRequest.encoded p) secret), None).
Proof.
  intros He. unfold PaymentRequest.CalcChecksum.
  apply String.eqb_neq in He. rewrite He. reflexivity.
Qed.

(** [CalcChecksum] on a request with no payload. *)
Lemma CalcChecksum_fresh (p : PaymentRequest.t) (secret : string) :
  PaymentRequest.encoded p = "" ->
  PaymentRequest.CalcChecksum p secret
  = if mandatoryValid p
    then (PaymentRequest.set_checksum
            (PaymentRequest.set_encoded p
               (Base64.EncodeToString (Bytes.of_string (encodedText p))))
            (sign (Base64.EncodeToString (Bytes.of_string (encodedText p)))
                  secret), None)
    else (p, match snd (PaymentRequest.encode p) with
             | Some err =>
                 Some (errorString ("encoding error: " +++ Error err))
             | None => None
             end).
Proof.
  intros He. unfold PaymentRequest.CalcChecksum. rewrite He.
  cbn [String.eqb].
  destruct (mandatoryValid p) eqn:Hv.
  - rewrite (encode_valid p Hv). reflexivity.
  - destruct (encode_invalid p Hv) as [msg [Hm _]]. rewrite Hm. reflexivity.
Qed.

(** X10.  After [CalcChecksum] has succeeded on a request with no payload,
    the payload is not empty and decodes to the text of the request, the
    checksum is the signature of the payload, which the comparison of the
    callback processor accepts, and a second [CalcChecksum] with the same
    secret changes nothing. *)
Theorem checksum_of_a_fresh_request
    (p p1 : PaymentRequest.t) (secret : string) :
  PaymentRequest.encoded p = "" ->
  PaymentRequest.CalcChecksum p secret = (p1, None) ->
  PaymentRequest.Encoded p1 <> ""
  /\ Base64.DecodeString (PaymentRequest.Encoded p1)
     = (Bytes.of_string (encodedText p), None)
  /\ PaymentRequest.Checksum p1 = sign (PaymentRequest.Encoded p1) secret
  /\ verify (PaymentRequest.Encoded p1) secret (PaymentRequest.Checksum p1)
     = true
  /\ PaymentRequest.CalcChecksum p1 secret = (p1, None).
Proof.
  intros He Hc. rewrite CalcChecksum_fresh in Hc by exact He.
  destruct (mandatoryValid p) eqn:Hv.
  - injection Hc as <-.
    unfold PaymentRequest.Encoded, PaymentRequest.Checksum.
    cbn [PaymentRequest.set_checksum PaymentRequest.set_encoded
         PaymentRequest.encoded PaymentRequest.checksum].
    pose proof (EncodeToString_nonempty _ (encodedText_nonempty p)) as Hne.
    split; [ exact Hne | ].
    split; [ apply DecodeString_EncodeToString, of_string_bytes | ].
    split; [ reflexivity | ].
    split; [ unfold verify; apply String.eqb_refl | ].
    rewrite CalcChecksum_encoded by exact Hne. reflexivity.
  - destruct (encode_invalid p Hv) as [msg [Hm _]]. rewrite Hm in Hc.
    discriminate Hc.
Qed.

(** X11.  On a request that already has a payload, [CalcChecksum] checks no
    field and encodes nothing: it succeeds, keeps the payload and signs it,
    so that two requests with the same payload get the same checksum
    whatever their other fields are. *)
Theorem checksum_signs_the_payload_as_it_is
    (p q : PaymentRequest.t) (secret : string) :
  PaymentRequest.encoded p <> "" ->
  PaymentRequest.encoded q = PaymentRequest.encoded p ->
  snd (PaymentRequest.CalcChecksum p secret) = None
  /\ PaymentRequest.encoded (fst (PaymentRequest.CalcChecksum p secret))
     = PaymentRequest.encoded p
  /\ PaymentRequest.checksum (fst (PaymentRequest.CalcChecksum p secret))
     = sign (PaymentRequest.encoded p) secret
  /\ PaymentRequest.checksum (fst (PaymentRequest.CalcChecksum q secret))
     = PaymentRequest.checksum (fst (PaymentRequest.CalcChecksum p secret)).
Proof.
  intros Hp Hq.
  rewrite (CalcChecksum_encoded p) by exact Hp.
  rewrite (CalcChecksum_encoded q) by (rewrite Hq; exact Hp).
  rewrite Hq. repeat split.
Qed.

Lemma of_string_injective (a b : string) :
  Bytes.of_string a = Bytes.of_string b -> a = b.
Proof.
  intros H. rewrite <- (to_string_of_string a), <- (to_string_of_string b), H.
  reflexivity.
Qed.

Lemma EncodeToString_injective (a b : string) :
  Base64.EncodeToString (Bytes.of_string a)
  = Base64.EncodeToString (Bytes.of_string b) ->
  a = b.
Proof.
  intros H. apply of_string_injective.
  pose proof (DecodeString_EncodeToString _ (of_string_bytes a)) as Ha.
  pose proof (DecodeString_EncodeToString _ (of_string_bytes b)) as Hb.
  rewrite H in Ha. rewrite Ha in Hb. injection Hb as Hb. exact Hb.
Qed.

(** X12.  Two requests that [encode] accepts get the same payload exactly
    when their texts are the same: the encoding loses nothing of the
    text. *)
Theorem encoded_determines_the_text
    (p q p1 q1 : PaymentRequest.t) :
  PaymentRequest.encode p = (p1, None) ->
  PaymentRequest.encode q = (q1, None) ->
  (PaymentRequest.encoded p1 = PaymentRequest.encoded q1
   <-> encodedText p = encodedText q).
Proof.
  intros Hp Hq.
  destruct (mandatoryValid p) eqn:Hvp.
  2: { destruct (encode_invalid p Hvp) as [msg [Hm _]].
       rewrite Hm in Hp. discriminate Hp. }
  destruct (mandatoryValid q) eqn:Hvq.
  2: { destruct (encode_invalid q Hvq) as [msg [Hm _]].
       rewrite Hm in Hq. discriminate Hq. }
  rewrite (encode_valid p Hvp) in Hp. injection Hp as <-.
  rewrite (encode_valid q Hvq) in Hq. injection Hq as <-.
  cbn [PaymentRequest.set_encoded PaymentRequest.encoded].
  split; [ apply EncodeToString_injective | intros ->; reflexivity ].
Qed.

Lemma checksum_of_a_fresh_request_witness :
  let p1 := fst (PaymentRequest.CalcChecksum request55 "secret") in
  PaymentRequest.Encoded p1 <> ""
  /\ Base64.DecodeString (PaymentRequest.Encoded p1)
     = (Bytes.of_string (encodedText request55), None)
  /\ PaymentRequest.Checksum p1 = sign (PaymentRequest.Encoded p1) "secret"
  /\ verify (PaymentRequest.Encoded p1) "secret" (PaymentRequest.Checksum p1)
     = true
  /\ PaymentRequest.CalcChecksum p1 "secret" = (p1, None).
Proof.
  apply (checksum_of_a_fresh_request request55
           (fst (PaymentRequest.CalcChecksum request55 "secret")) "secret").
  - reflexivity.
  - vm_compute. reflexivity.
Defined.

Lemma checksum_signs_the_payload_as_it_is_witness :
  let p := PaymentRequest.set_encoded requestNoCIN "SU5WT0lDRT01NQo=" in
  let q := PaymentRequest.set_encoded request55 "SU5WT0lDRT01NQo=" in
  snd (PaymentRequest.CalcChecksum p "secret") = None
  /\ PaymentRequest.encoded (fst (PaymentRequest.CalcChecksum p "secret"))
     = PaymentRequest.encoded p
  /\ PaymentRequest.checksum (fst (PaymentRequest.CalcChecksum p "secret"))
     = sign (PaymentRequest.encoded p) "secret"
  /\ PaymentRequest.checksum (fst (PaymentRequest.CalcChecksum q "secret"))
     = PaymentRequest.checksum (fst (PaymentRequest.CalcChecksum p "secret")).
Proof.
  apply (checksum_signs_the_payload_as_it_is
           (PaymentRequest.set_encoded requestNoCIN "SU5WT0lDRT01NQo=")
           (PaymentRequest.set_encoded request55 "SU5WT0lDRT01NQo=")
           "secret").
  - discriminate.
  - reflexivity.
Defined.

Lemma encoded_determines_the_text_witness :
  PaymentRequest.encoded (fst (PaymentRequest.encode request55))
  = PaymentRequest.encoded
      (fst (PaymentRequest.encode (PaymentRequest.set_page request55 Login)))
  <-> encodedText request55
      = encodedText (PaymentRequest.set_page request55 Login).
Proof.
  apply (encoded_determines_the_text
           request55 (PaymentRequest.set_page request55 Login)).
  - vm_compute. reflexivity.
  - vm_compute. reflexivity.
Defined.

(** ** The request builder and the client *)

(** An option of the package writes one field, and such options keep what
    the builder has set from its arguments; the only one that fails is
    [WithExpirationTime] of the zero time. *)
Lemma packageOption_keeps (o : PaymentOption) (p : PaymentRequest.t) :
  packageOption o ->
  let p' := fst (o p) in
  PaymentRequest.cin p' = PaymentRequest.cin p
  /\ PaymentRequest.url p' = PaymentRequest.url p
  /\ PaymentRequest.Amount p' = PaymentRequest.Amount p
  /\ PaymentRequest.Description p' = PaymentRequest.Description p
  /\ PaymentRequest.Invoice p' = PaymentRequest.Invoice p
  /\ PaymentRequest.encoded p' = PaymentRequest.encoded p
  /\ PaymentRequest.checksum p' = PaymentRequest.checksum p
  /\ (Time.IsZero (PaymentRequest.ExpirationTime p) = false ->
      Time.IsZero (PaymentRequest.ExpirationTime p') = false)
  /\ (snd (o p) = None \/ snd (o p) = Some (errorString "invalid time")).
Proof.
  intros [t | l | c | pg]; cbn zeta;
    unfold WithExpirationTime, WithLanguage, WithCurrency, WithPage;
    try destruct (Time.IsZero t) eqn:Ht;
    cbn [fst snd PaymentRequest.set_ExpirationTime PaymentRequest.set_Language
         PaymentRequest.set_Currency PaymentRequest.set_page
         PaymentRequest.cin PaymentRequest.url PaymentRequest.Amount
         PaymentRequest.Description PaymentRequest.Invoice
         PaymentRequest.encoded PaymentRequest.checksum
         PaymentRequest.ExpirationTime];
    repeat split; auto.
Qed.

Lemma applyOptions_package (options : list PaymentOption)
    (p : PaymentRequest.t) :
  Forall packageOption options ->
  let p' := fst (applyOptions options p) in
  PaymentRequest.cin p' = PaymentRequest.cin p
  /\ PaymentRequest.url p' = PaymentRequest.url p
  /\ PaymentRequest.Amount p' = PaymentRequest.Amount p
  /\ PaymentRequest.Description p' = PaymentRequest.Description p
  /\ PaymentRequest.Invoice p' = PaymentRequest.Invoice p
  /\ PaymentRequest.encoded p' = PaymentRequest.encoded p
  /\ PaymentRequest.checksum p' = PaymentRequest.checksum p
  /\ (Time.IsZero (PaymentRequest.ExpirationTime p) = false ->
      Time.IsZero (PaymentRequest.ExpirationTime p') = false)
  /\ (snd (applyOptions options p) = None
      \/ snd (applyOptions options p) = Some (errorString "invalid time")).
Proof.
  intros Hall. revert p.
  induction Hall as [ | o rest Ho _ IH]; intros p; cbn [applyOptions].
  - cbn. repeat split; auto.
  - pose proof (packageOption_keeps o p Ho) as Hk. cbv zeta in Hk.
    destruct (o p) as [p1 [err | ]]; cbn [fst snd] in *.
    + destruct Hk as (? & ? & ? & ? & ? & ? & ? & ? & [H | H]);
        [ discriminate H | ].
      repeat split; auto.
    + specialize (IH p1). cbv zeta in IH.
      destruct Hk as (F1 & F2 & F3 & F4 & F5 & F6 & F7 & Ht & _).
      destruct IH as (E1 & E2 & E3 & E4 & E5 & E6 & E7 & Ht' & Eerr).
      repeat split; try congruence; auto.
Qed.

(** X13.  With the options of the package, in any number and order,
    [NewPaymentRequest] fails only with [invalid time], and the request it
    returns has the client number and the URL of the API, the amount, the
    description and the invoice of the call, no payload and no checksum,
    and an expiration time that is not zero when the time seven days from
    now is not. *)
Theorem package_options_keep_the_arguments
    (api : API.t) (now : Time.t) (amount : spec_float)
    (description : string) (invoice : Z) (options : list PaymentOption) :
  Forall packageOption options ->
  match NewPaymentRequest api now amount description invoice options with
  | (Some p, err) =>
      err = None
      /\ PaymentRequest.CIN p = API.cin api
      /\ PaymentRequest.URL p = API.url api
      /\ PaymentRequest.Amount p = amount
      /\ PaymentRequest.Description p = description
      /\ PaymentRequest.Invoice p = invoice
      /\ PaymentRequest.Encoded p = ""
      /\ PaymentRequest.Checksum p = ""
      /\ (Time.IsZero (Time.AddDays now 7) = false ->
          Time.IsZero (PaymentRequest.ExpirationTime p) = false)
  | (None, err) => err = Some (errorString "invalid time")
  end.
Proof.
  intros Hall. rewrite NewPaymentRequest_unfold.
  pose proof (applyOptions_package options
                (defaultRequest api now amount description invoice) Hall)
    as Hk.
  cbv zeta in Hk.
  destruct (applyOptions options _) as [p [err | ]]; cbn [fst snd] in Hk.
  - destruct Hk as (_ & _ & _ & _ & _ & _ & _ & _ & [H | H]);
      [ discriminate H | exact H ].
  - unfold PaymentRequest.CIN, PaymentRequest.URL, PaymentRequest.Encoded,
      PaymentRequest.Checksum.
    destruct Hk as (-> & -> & -> & -> & -> & -> & -> & Ht & _).
    repeat split. exact Ht.
Qed.

Lemma package_options_keep_the_arguments_witness :
  match NewPaymentRequest api0 instant0 (Float64.of_scaled 25 (-1)) "x" 55
          [WithPage Login; WithLanguage Bulgarian; WithCurrency BGN] with
  | (Some p, err) =>
      err = None
      /\ PaymentRequest.CIN p = API.cin api0
      /\ PaymentRequest.URL p = API.url api0
      /\ PaymentRequest.Amount p = Float64.of_scaled 25 (-1)
      /\ PaymentRequest.Description p = "x"
      /\ PaymentRequest.Invoice p = 55
      /\ PaymentRequest.Encoded p = ""
      /\ PaymentRequest.Checksum p = ""
      /\ (Time.IsZero (Time.AddDays instant0 7) = false ->
          Time.IsZero (PaymentRequest.ExpirationTime p) = false)
  | (None, err) => err = Some (errorString "invalid time")
  end.
Proof.
  apply (package_options_keep_the_arguments
           api0 instant0 (Float64.of_scaled 25 (-1)) "x" 55
           [WithPage Login; WithLanguage Bulgarian; WithCurrency BGN]).
  repeat constructor.
Defined.

(** X14.  After options that succeed, an option of the package given last
    decides its field, whatever the options before it wrote there, and
    touches no other; [WithExpirationTime] of the zero time given last
    makes the construction fail.  The options for the currency and for the
    language can be swapped. *)
Theorem last_option_wins
    (api : API.t) (now : Time.t) (amount : spec_float)
    (description : string) (invoice : Z) (options : list PaymentOption)
    (q : PaymentRequest.t) :
  applyOptions options (defaultRequest api now amount description invoice)
  = (q, None) ->
  (forall c,
     NewPaymentRequest api now amount description invoice
       (options ++ [WithCurrency c])
     = (Some (PaymentRequest.set_Currency q c), None))
  /\ (forall l,
        NewPaymentRequest api now amount description invoice
          (options ++ [WithLanguage l])
        = (Some (PaymentRequest.set_Language q l), None))
  /\ (forall pg,
        NewPaymentRequest api now amount description invoice
          (options ++ [WithPage pg])
        = (Some (PaymentRequest.set_page q pg), None))
  /\ (forall t,
        NewPaymentRequest api now amount description invoice
          (options ++ [WithExpirationTime t])
        = if Time.IsZero t then (None, Some (errorString "invalid time"))
          else (Some (PaymentRequest.set_ExpirationTime q t), None))
  /\ (forall c l,
        NewPaymentRequest api now amount description invoice
          (options ++ [WithCurrency c; WithLanguage l])
        = NewPaymentRequest api now amount description invoice
            (options ++ [WithLanguage l; WithCurrency c])).
Proof.
  intros Hq.
  repeat split; intros;
    rewrite ?NewPaymentRequest_unfold, ?applyOptions_app, Hq;
    cbn [applyOptions WithCurrency WithLanguage WithPage];
    try reflexivity.
  unfold WithExpirationTime. destruct (Time.IsZero t); reflexivity.
Qed.

Lemma last_option_wins_witness :
  NewPaymentRequest api0 instant0 (Float64.of_scaled 25 (-1)) "x" 55
    ([WithCurrency BGN; WithLanguage Bulgarian] ++ [WithCurrency USD])
  = (Some (PaymentRequest.set_Currency
             (PaymentRequest.set_Language
                (PaymentRequest.set_Currency
                   (defaultRequest api0 instant0 (Float64.of_scaled 25 (-1))
                      "x" 55) BGN) Bulgarian) USD), None).
Proof.
  apply (last_option_wins api0 instant0 (Float64.of_scaled 25 (-1)) "x" 55
           [WithCurrency BGN; WithLanguage Bulgarian]).
  reflexivity.
Defined.

Lemma applyAPIOptions_app (a b : list Option) (api : API.t) :
  applyAPIOptions (a ++ b) api
  = match applyAPIOptions a api with
    | (api', None) => applyAPIOptions b api'
    | (api', Some err) => (api', Some err)
    end.
Proof.
  revert api. induction a as [ | o a IH]; intros api;
    cbn [applyAPIOptions app].
  - reflexivity.
  - destruct (o api) as [api' [err | ]]; [ reflexivity | apply IH ].
Qed.

Lemma applyAPIOptions_demo (options : list Option) (api : API.t) :
  Forall (fun o => o = WithDemoURL) options ->
  applyAPIOptions options api
  = (match options with
     | [] => api
     | _ :: _ =>
         API.mk ePayDemoURL (API.cin api) (API.secret api)
                (API.defaultLanguage api)
     end, None).
Proof.
  intros Hall. revert api.
  induction Hall as [ | o rest -> _ IH]; intros api; cbn [applyAPIOptions].
  - reflexivity.
  - unfold WithDemoURL at 1. rewrite IH.
    destruct rest; reflexivity.
Qed.

(** X15.  [New] without options returns the client of the production URL
    with the client number and the secret given and no default language;
    with [WithDemoURL], once or more, the URL is the one of the demo and
    the rest is the same.  When an option fails after options that
    succeeded, [New] returns no client and the error of the option behind
    the prefix [option error: ]. *)
Theorem New_urls_and_option_errors (cin secret : string) :
  New cin secret [] = (Some (API.mk ePayURL cin secret ""), None)
  /\ (forall options,
        options <> [] ->
        Forall (fun o => o = WithDemoURL) options ->
        New cin secret options
        = (Some (API.mk ePayDemoURL cin secret ""), None))
  /\ (forall before o after api1 err,
        applyAPIOptions before (API.mk ePayURL cin secret "") = (api1, None) ->
        snd (o api1) = Some err ->
        New cin secret (before ++ o :: after)
        = (None, Some (errorString ("option error: " +++ Error err)))).
Proof.
  split; [ reflexivity | split ].
  - intros options Hne Hall. unfold New.
    rewrite applyAPIOptions_demo by exact Hall.
    destruct options; [ contradiction | reflexivity ].
  - intros before o after api1 err Hb Ho. unfold New.
    rewrite applyAPIOptions_app, Hb. cbn [applyAPIOptions].
    destruct (o api1) as [api2 e]. cbn in Ho. subst e. reflexivity.
Qed.

Lemma New_urls_and_option_errors_witness :
  New "cin" "test" [WithDemoURL; WithDemoURL]
  = (Some (API.mk ePayDemoURL "cin" "test" ""), None).
Proof.
  apply (New_urls_and_option_errors "cin" "test").
  - discriminate.
  - repeat constructor.
Defined.

(** ** From the request to the callback *)

Lemma two_digits_digits (n : Z) :
  0 <= n < 100 ->
  Forall (fun c => Strconv.isDigit c = true)
    (list_ascii_of_string (Fmt.two_digits n)).
Proof.
  intros Hn. unfold Fmt.two_digits. cbn [list_ascii_of_string].
  repeat constructor; apply digit_char; Z.div_mod_to_equations; lia.
Qed.

(** [%.2f] writes no newline. *)
Lemma f2_no_newline (x : spec_float) : noByte "010" (Fmt.f2 x) = true.
Proof.
  destruct x as [[ | ] | [ | ] | | s m e]; try reflexivity.
  cbn [Fmt.f2]. unfold Fmt.fixed2.
  pose proof (hundredths_nonneg m e) as Hh.
  rewrite !noByte_append.
  assert (Hd : noByte "010" (Fmt.d (Fmt.hundredths m e / 100)) = true).
  { apply (noByte_Forall Strconv.isDigit); [ reflexivity | ].
    apply FormatInt_digits. apply Z.div_pos; lia. }
  assert (Ht : noByte "010" (Fmt.two_digits (Fmt.hundredths m e mod 100))
               = true).
  { apply (noByte_Forall Strconv.isDigit); [ reflexivity | ].
    apply two_digits_digits. apply Z.mod_pos_bound. lia. }
  rewrite Hd, Ht. destruct s; reflexivity.
Qed.

Lemma recordKey_record (key value : string) :
  noByte "=" key = true -> recordKey (key +++ "=" +++ value) = key.
Proof.
  intros Hk. unfold recordKey.
  change ("=" +++ value) with (String "=" value).
  rewrite Split_append by exact Hk. reflexivity.
Qed.

(** The recognised records of a text that starts with a line. *)
Lemma filter_line (key value rest : string) :
  noByte "=" key = true ->
  noByte "010" key = true -> noByte "010" value = true ->
  filter (fun part => recognisedKey (recordKey part))
    (Strings.Split (line key value +++ rest) "010")
  = (if recognisedKey key then [key +++ "=" +++ value] else [])
    ++ filter (fun part => recognisedKey (recordKey part))
         (Strings.Split rest "010").
Proof.
  intros Hk Hkn Hvn. rewrite Split_line by assumption.
  cbn [filter]. rewrite recordKey_record by exact Hk.
  destruct (recognisedKey key); reflexivity.
Qed.

Lemma filter_optionalLine (key value rest : string) :
  noByte "=" key = true ->
  noByte "010" key = true -> noByte "010" value = true ->
  recognisedKey key = false ->
  filter (fun part => recognisedKey (recordKey part))
    (Strings.Split (optionalLine key value +++ rest) "010")
  = filter (fun part => recognisedKey (recordKey part))
      (Strings.Split rest "010").
Proof.
  intros Hk Hkn Hvn Hun. unfold optionalLine.
  destruct (value =? "")%string; [ reflexivity | ].
  rewrite filter_line by assumption. rewrite Hun. reflexivity.
Qed.

(** Of the records that [encode] writes, the processor reads the invoice
    alone. *)
Lemma encodedText_records (p : PaymentRequest.t) :
  noByte "010" (PaymentRequest.cin p) = true ->
  noByte "010" (PaymentRequest.Currency p) = true ->
  noByte "010" (PaymentRequest.Language p) = true ->
  noByte "010" (PaymentRequest.Description p) = true ->
  filter (fun part => recognisedKey (recordKey part))
    (Strings.Split (encodedText p) "010")
  = ["INVOICE" +++ "=" +++ Fmt.d (PaymentRequest.Invoice p)].
Proof.
  intros Hcin Hcur Hlang Hdesc. unfold encodedText.
  pose proof (Format_plain (PaymentRequest.ExpirationTime p)) as Ht.
  apply andb_prop in Ht. destruct Ht as [_ Ht].
  pose proof (FormatInt_plain (PaymentRequest.Invoice p)) as Hi.
  apply andb_prop in Hi. destruct Hi as [_ Hi].
  pose proof (f2_no_newline (PaymentRequest.Amount p)) as Ha.
  rewrite <- (append_nil_r (optionalLine "LANGUAGE"
                              (PaymentRequest.Description p))).
  rewrite !filter_line by (reflexivity || assumption).
  rewrite !filter_optionalLine by (reflexivity || assumption).
  reflexivity.
Qed.

Section EndToEnd.

Variable Quote : string -> string.
Variable time_Parse : string -> Time.t * option string.

(** X16.  What the library signs, the library reads.  Take a request with
    no payload, with no newline in its client number, its currency, its
    language and its description, and an invoice that is a [uint64].  When
    [CalcChecksum] succeeds with the secret of the API, the callback
    processor accepts the POST that carries the payload and the checksum of
    the request: it calls the handler once, with a payment that has the
    invoice of the request and no other field set, and replies with that
    invoice and the status of the handler. *)
Theorem signed_request_is_read_by_the_processor
    (api : API.t) (f : PaymentHandlerFunc) (p p1 : PaymentRequest.t)
    (w : World) :
  PaymentRequest.encoded p = "" ->
  PaymentRequest.CalcChecksum p (API.secret api) = (p1, None) ->
  response w = Http.mkResponse None "" ->
  PaymentRequest.Invoice p <= Strconv.maxUint64 ->
  noByte "010" (PaymentRequest.cin p) = true ->
  noByte "010" (PaymentRequest.Currency p) = true ->
  noByte "010" (PaymentRequest.Language p) = true ->
  noByte "010" (PaymentRequest.Description p) = true ->
  let payment := Payment.set_Invoice Payment.zero (PaymentRequest.Invoice p) in
  exists w',
    PaymentCallbackHandler Quote time_Parse api f (callbackWith p1) w
    = Done tt w'
    /\ handled w' = handled w ++ [payment]
    /\ response w'
       = Http.mkResponse (Some Http.StatusOK)
           (replyBody (PaymentRequest.Invoice p)
                      (replyStatus false (f payment))).
Proof.
  intros He Hc Hw Hmax Hcin Hcur Hlang Hdesc payment.
  rewrite CalcChecksum_fresh in Hc by exact He.
  destruct (mandatoryValid p) eqn:Hv.
  2: { destruct (encode_invalid p Hv) as [msg [Hm _]]. rewrite Hm in Hc.
       discriminate Hc. }
  injection Hc as <-.
  change (callbackWith _) with (callbackOf (API.secret api) (encodedText p)).
  rewrite handler_callbackOf. unfold bind at 1.
  rewrite <- processParts_filter.
  rewrite encodedText_records by assumption.
  cbn [processParts]. unfold bind at 1.
  rewrite processPart_INVOICE
    by (pose proof (FormatInt_plain (PaymentRequest.Invoice p)) as Hi;
        apply andb_prop in Hi; apply Hi).
  unfold Fmt.d. rewrite ParseUint_FormatInt.
  2: { unfold mandatoryValid in Hv.
       apply andb_prop in Hv. destruct Hv as [Hv _].
       apply andb_prop in Hv. destruct Hv as [Hv _].
       apply andb_prop in Hv. destruct Hv as [_ Hv].
       apply Z.ltb_lt in Hv. lia. }
  unfold ret at 1. cbn [fst snd]. fold payment.
  destruct (reconcile_status f payment false w) as [w2 [Hrec [Hr Hh]]].
  cbv iota in Hrec. unfold bind. rewrite Hrec.
  unfold WriteHeader, Write. rewrite Hr, Hw.
  cbn [Http.code Http.body response logged handled String.append].
  eexists. split; [ reflexivity | ].
  cbn [response handled]. split; [ exact Hh | reflexivity ].
Qed.

End EndToEnd.

Lemma signed_request_is_read_by_the_processor_witness :
  let payment :=
    Payment.set_Invoice Payment.zero (PaymentRequest.Invoice request55) in
  exists w',
    PaymentCallbackHandler Strconv.QuoteASCII parseTime api0 acceptAll
      (callbackWith (fst (PaymentRequest.CalcChecksum request55 "secret")))
      World0
    = Done tt w'
    /\ handled w' = handled World0 ++ [payment]
    /\ response w'
       = Http.mkResponse (Some Http.StatusOK)
           (replyBody (PaymentRequest.Invoice request55)
                      (replyStatus false (acceptAll payment))).
Proof.
  apply (signed_request_is_read_by_the_processor
           Strconv.QuoteASCII parseTime api0 acceptAll request55
           (fst (PaymentRequest.CalcChecksum request55 "secret")) World0).
  - reflexivity.
  - vm_compute. reflexivity.
  - reflexivity.
  - vm_compute. discriminate.
  - reflexivity.
  - reflexivity.
  - reflexivity.
  - reflexivity.
Defined.

(** ** The handler of payment requests *)

Section RequestHandlerProperties.

Variable mapUnicodeToLower : string -> string.
Variable ParseFloat : string -> spec_float * option string.
Variable template_ParseFiles : option string.
Variable template_Execute : PaymentRequest.t -> list string * option string.

Lemma writeAll_run (chunks : list string) (w : World) :
  writeAll chunks w
  = Done tt
      (match chunks with
       | [] => w
       | _ :: _ =>
           mkWorld
             (Http.mkResponse
                (match Http.code (response w) with
                 | None => Some Http.StatusOK
                 | Some c => Some c
                 end)
                (Http.body (response w) +++ String.concat "" chunks))
             (logged w) (handled w)
       end).
Proof.
  revert w. induction chunks as [ | chunk rest IH]; intros w;
    cbn [writeAll].
  - reflexivity.
  - unfold bind, Write. rewrite IH.
    destruct w as [[code body] lg hd].
    cbn [response logged handled Http.code Http.body].
    destruct rest as [ | chunk2 rest].
    + cbn [String.concat]. destruct code; reflexivity.
    + cbn [String.concat response logged handled Http.code Http.body].
      rewrite append_assoc. destruct code; reflexivity.
Qed.

(** X17.  The end of the handler of payment requests, on a fresh response.
    When the template does not parse, the reply is the status 500 and the
    error.  Otherwise what the template writes is the body; when it fails
    after it has written, the error follows in the body and the status
    stays 200, and when it fails before it has written, the status is 500.
    Nothing is logged and no payment handler is called. *)
Theorem template_errors_after_output_keep_status_200
    (data : PaymentRequest.t) (w : World) :
  response w = Http.mkResponse None "" ->
  exists code body,
    executeTemplate template_ParseFiles template_Execute data w
    = Done tt (mkWorld (Http.mkResponse code body) (logged w) (handled w))
    /\ match template_ParseFiles with
       | Some err =>
           code = Some Http.StatusInternalServerError
           /\ body = err +++ Fmt.nl
       | None =>
           match template_Execute data with
           | ([], None) => code = None /\ body = ""
           | ([], Some err) =>
               code = Some Http.StatusInternalServerError
               /\ body = err +++ Fmt.nl
           | (chunks, None) =>
               code = Some Http.StatusOK
               /\ body = String.concat "" chunks
           | (chunks, Some err) =>
               code = Some Http.StatusOK
               /\ body = String.concat "" chunks +++ err +++ Fmt.nl
           end
       end.
Proof.
  intros Hw. destruct w as [resp lg hd]. cbn [response] in Hw. subst resp.
  unfold executeTemplate.
  destruct template_ParseFiles as [err | ].
  - rewrite http_Error_run. do 2 eexists. split; [ reflexivity | ].
    split; reflexivity.
  - destruct (template_Execute data) as [chunks [err | ]];
      unfold bind; rewrite writeAll_run;
      destruct chunks as [ | chunk rest];
      rewrite ?http_Error_run; unfold ret;
      cbn [response logged handled Http.code Http.body String.append];
      do 2 eexists; (split; [ reflexivity | split; reflexivity ]).
Qed.


Lemma CurrencyFromString_values (c : string) (curr : Currency) :
  CurrencyFromString mapUnicodeToLower c = Return (curr, None) ->
  In curr [EUR; BGN; USD].
Proof.
  unfold CurrencyFromString.
  repeat match goal with
         | |- context [if ?b then _ else _] => destruct b
         end;
    intros H; try discriminate H; injection H as <-; cbn; tauto.
Qed.

Lemma LanguageFromString_values (l : string) (lang : Language) :
  LanguageFromString mapUnicodeToLower l = Return (lang, None) ->
  In lang [English; Bulgarian].
Proof.
  unfold LanguageFromString.
  repeat match goal with
         | |- context [if ?b then _ else _] => destruct b
         end;
    intros H; try discriminate H; injection H as <-; cbn; tauto.
Qed.

(** What [CalcChecksum] leaves in a request that had no payload, its error
    dropped. *)
Lemma CalcChecksum_fields (p : PaymentRequest.t) (secret : string) :
  PaymentRequest.encoded p = "" ->
  let q := fst (PaymentRequest.CalcChecksum p secret) in
  PaymentRequest.set_checksum
    (PaymentRequest.set_encoded q (PaymentRequest.encoded p))
    (PaymentRequest.checksum p) = p
  /\ if mandatoryValid p
     then PaymentRequest.encoded q
          = Base64.EncodeToString (Bytes.of_string (encodedText p))
          /\ PaymentRequest.checksum q = sign (PaymentRequest.encoded q) secret
     else PaymentRequest.encoded q = ""
          /\ PaymentRequest.checksum q = PaymentRequest.checksum p.
Proof.
  intros He. cbv zeta. rewrite CalcChecksum_fresh by exact He.
  destruct (mandatoryValid p); cbn [fst].
  - split; [ destruct p; reflexivity | split; reflexivity ].
  - split; [ destruct p; reflexivity | split; [ exact He | reflexivity ] ].
Qed.

Lemma renderRequest_options (api : API.t) (now : Time.t)
    (amount : spec_float) (description : string) (invoice : Z)
    (options : list PaymentOption) (data0 : PaymentRequest.t) :
  applyOptions options (defaultRequest api now amount description invoice)
  = (data0, None) ->
  renderRequest template_ParseFiles template_Execute api now amount
    description invoice options
  = executeTemplate template_ParseFiles template_Execute
      (fst (PaymentRequest.CalcChecksum data0 (API.secret api))).
Proof.
  intros H. unfold renderRequest. rewrite NewPaymentRequest_unfold, H.
  destruct (PaymentRequest.CalcChecksum data0 (API.secret api)).
  reflexivity.
Qed.

(** The two ways in which the handler of payment requests returns. *)
Lemma request_handler_shape
    (api : API.t) (now : Time.t) (r : Http.Request) (m : M unit) :
  PaymentRequestHandler mapUnicodeToLower ParseFloat template_ParseFiles
    template_Execute api now r
  = Return m ->
  (exists msg, m = http_Error msg Http.StatusInternalServerError)
  \/ (exists data,
        m = executeTemplate template_ParseFiles template_Execute data).
Proof.
  unfold PaymentRequestHandler.
  destruct (ParseFloat (Http.FormValue r "amount")) as [amount [e | ]];
    [ intros [= <-]; left; eexists; reflexivity | ].
  destruct (String.eqb (Http.FormValue r "description") "");
    [ intros [= <-]; left; eexists; reflexivity | ].
  destruct (Strconv.ParseUint (Http.FormValue r "invoice"))
    as [invoice [e | ]];
    [ intros [= <-]; left; eexists; reflexivity | ].
  cbv zeta.
  destruct (LanguageFromString mapUnicodeToLower _) as [[lang [e | ]] | ];
    [ intros [= <-]; left; eexists; reflexivity | | discriminate ].
  destruct (CurrencyFromString mapUnicodeToLower _) as [[curr [e | ]] | ];
    [ intros [= <-]; left; eexists; reflexivity | | discriminate ].
  cbn [app].
  repeat match goal with
         | |- context [if ?b then _ else _] => destruct b
         end;
    intros [= <-];
    first [ left; eexists; reflexivity
          | right; eexists; apply renderRequest_options; reflexivity ].
Qed.


(** X19.  The handler of payment requests never panics and calls no payment
    handler: the request that it hands to [CalcChecksum] is never nil,
    since none of the options that it passes can fail. *)
Theorem request_handler_never_panics
    (api : API.t) (now : Time.t) (r : Http.Request) (m : M unit) (w : World) :
  PaymentRequestHandler mapUnicodeToLower ParseFloat template_ParseFiles
    template_Execute api now r
  = Return m ->
  exists w', m w = Done tt w' /\ handled w' = handled w
             /\ logged w' = logged w.
Proof.
  intros H. apply request_handler_shape in H.
  destruct H as [[msg ->] | [data ->]].
  - rewrite http_Error_run. eexists. repeat split.
  - unfold executeTemplate.
    destruct template_ParseFiles as [err | ].
    + rewrite http_Error_run. eexists. repeat split.
    + destruct (template_Execute data) as [chunks [err | ]];
        unfold bind; rewrite writeAll_run;
        destruct chunks; rewrite ?http_Error_run; unfold ret;
        eexists; repeat split.
Qed.

End RequestHandlerProperties.

Lemma template_errors_after_output_keep_status_200_witness :
  exists code body,
    executeTemplate None
      (fun data => ([PaymentRequest.Encoded data], Some "template: no such field"))
      request55 World0
    = Done tt (mkWorld (Http.mkResponse code body)
                       (logged World0) (handled World0))
    /\ match
         (fun data : PaymentRequest.t =>
            ([PaymentRequest.Encoded data], Some "template: no such field"))
           request55
       with
       | ([], None) => code = None /\ body = ""
       | ([], Some err) =>
           code = Some Http.StatusInternalServerError
           /\ body = err +++ Fmt.nl
       | (chunks, None) =>
           code = Some Http.StatusOK /\ body = String.concat "" chunks
       | (chunks, Some err) =>
           code = Some Http.StatusOK
           /\ body = String.concat "" chunks +++ err +++ Fmt.nl
       end.
Proof.
  apply (template_errors_after_output_keep_status_200 None
           (fun data =>
              ([PaymentRequest.Encoded data], Some "template: no such field"))
           request55 World0).
  reflexivity.
Defined.


Lemma request_handler_never_panics_witness :
  exists w',
    renderRequest None templateExample api0 instant0
      (Float64.of_scaled 25 (-1)) "x" 55 [WithCurrency EUR; WithPage Login]
      World0
    = Done tt w'
    /\ handled w' = handled World0 /\ logged w' = logged World0.
Proof.
  apply (request_handler_never_panics (fun s => s) parseFloatExample None
           templateExample api0 instant0 requestForm).
  reflexivity.
Defined.

(** The page that the example form gets: the payload and the checksum of
    the request for the login page, in English though the form asked for
    Bulgarian. *)
Example request_form_page :
  exists m,
    PaymentRequestHandler (fun s => s) parseFloatExample None templateExample
      api0 instant0 requestForm
    = Return m
    /\ Http.code (response (finalWorld (m World0))) = Some 200
    /\ Bytes.to_string
         (fst (Base64.DecodeString
                 (PaymentRequest.Encoded
                    (fst (PaymentRequest.CalcChecksum
                            (PaymentRequest.set_page
                               (defaultRequest api0 instant0
                                  (Float64.of_scaled 25 (-1)) "x" 55)
                               Login) "secret")))))
       = line "MIN" "123" +++ line "INVOICE" "55" +++ line "AMOUNT" "12.50"
         +++ line "EXP_TIME" "12.03.2024 14:30:00" +++ line "CURRENCY" "EUR"
         +++ line "LANGUAGE" "en" +++ line "LANGUAGE" "x".
Proof.
  eexists. split; [ reflexivity | ]. split; vm_compute; reflexivity.
Qed.
